(** * A shallow embedding of the multi-tenant engine of [main.mjs]

    The development follows the classes of [main.mjs]: [SecurityValidator],
    [PathResolver], [ResourceLoader], [TenantContext], the tenant adapters,
    [TenantFactory], [MultiSourceTenantStrategy], [TenantRegistry] and
    [TenantManager].  JavaScript values are an inductive type, thrown errors
    are an explicit outcome, mutable objects are passed as state, and the
    filesystem and the module loader are a record of oracles. *)

From Stdlib Require Import ZArith Ascii String.
From stdpp Require Import base option list strings pretty gmap.

Open Scope string_scope.
Open Scope list_scope.
Open Scope Z_scope.
Open Scope nat_scope.

(** ** JavaScript values *)

(** Configuration data as the loaders see it.  Numbers are the integral
    ones, objects keep their keys in insertion order, and a function carries
    its name and its own enumerable properties. *)
#[warnings="-register-all"]
Inductive JsVal : Type :=
| JUndefined
| JNull
| JBool (b : bool)
| JNum (n : Z)
| JStr (s : string)
| JArr (items : list JsVal)
| JObj (fields : list (string * JsVal))
| JFun (name : string) (props : list (string * JsVal)).

(** What a [throw] carries: the messages of [main.mjs] and the run-time
    [TypeError]s of the operations it uses. *)
Inductive JsError : Type :=
| TenantIdNotString
| TenantIdInvalidChars
| PathTraversal (relativePath : string)
| NoAdapterFound (source : JsVal)
| MaxTenantsReached (maxTenants : nat)
| TenantNotFound (tenantId : string)
| TypeError (message : string)
| LoadError (message : string).

Inductive outcome (A : Type) : Type :=
| Ok (a : A)
| Throw (e : JsError).
Arguments Ok {A} a.
Arguments Throw {A} e.

(** [!!v] *)
Definition truthy (v : JsVal) : bool :=
  match v with
  | JUndefined | JNull => false
  | JBool b => b
  | JNum n => negb (n =? 0)%Z
  | JStr s => negb (s =? "")%string
  | JArr _ | JObj _ | JFun _ _ => true
  end.

(** [a || b] *)
Definition js_or (a b : JsVal) : JsVal := if truthy a then a else b.

Fixpoint assoc_get (k : string) (fs : list (string * JsVal)) : option JsVal :=
  match fs with
  | [] => None
  | (k', v) :: fs' => if (k' =? k)%string then Some v else assoc_get k fs'
  end.

(** [obj[k] = v]: an existing key keeps its place, a new one goes last. *)
Fixpoint assoc_set (k : string) (v : JsVal) (fs : list (string * JsVal))
  : list (string * JsVal) :=
  match fs with
  | [] => [(k, v)]
  | (k', v') :: fs' =>
      if (k' =? k)%string then (k, v) :: fs' else (k', v') :: assoc_set k v fs'
  end.

(** [v.k] for a data property [k]; reading a property of [null] or
    [undefined] throws. *)
Definition getprop (v : JsVal) (k : string) : outcome JsVal :=
  match v with
  | JUndefined | JNull => Throw (TypeError "Cannot read properties of null or undefined")
  | JObj fs | JFun _ fs => Ok (default JUndefined (assoc_get k fs))
  | _ => Ok JUndefined
  end.

(** [v.k = x] in strict mode.  Named properties put on an array are not kept
    in the model: the one value that can be an array when it is assigned to
    is the configuration of the npm adapter, and the merge that follows the
    assignments rebuilds an array from its elements alone. *)
Definition setprop (v : JsVal) (k : string) (x : JsVal) : outcome JsVal :=
  match v with
  | JObj fs => Ok (JObj (assoc_set k x fs))
  | JFun name fs => Ok (JFun name (assoc_set k x fs))
  | JArr items => Ok (JArr items)
  | JUndefined | JNull => Throw (TypeError "Cannot set properties of null or undefined")
  | _ => Throw (TypeError "Cannot create property on a primitive")
  end.

(** [typeof v === "object"] *)
Definition typeofObject (v : JsVal) : bool :=
  match v with
  | JNull | JArr _ | JObj _ => true
  | _ => false
  end.

(** [err.message] *)
Definition errorMessage (e : JsError) : string :=
  match e with
  | TenantIdNotString => "Tenant ID must be a non-empty string"
  | TenantIdInvalidChars => "Tenant ID contains invalid characters"
  | PathTraversal p => "Path traversal attempt detected: " +:+ p
  | NoAdapterFound _ => "No adapter found for tenant source"
  | MaxTenantsReached _ => "Maximum number of tenants reached"
  | TenantNotFound tenantId => "Tenant " +:+ tenantId +:+ " not found"
  | TypeError message | LoadError message => message
  end.

(** Sequencing of steps that can throw. *)
Definition bindOutcome {A B} (o : outcome A) (k : A -> outcome B) : outcome B :=
  match o with
  | Ok a => k a
  | Throw e => Throw e
  end.

Notation "'let*' x ':=' o 'in' k" := (bindOutcome o (fun x => k))
  (at level 10, x name, o at level 100, k at level 200).

(** ** SecurityValidator *)

Module SecurityValidator.

(** The complement of the class [[^a-zA-Z0-9\-_]]. *)
Definition allowed_char (c : ascii) : bool :=
  let n := nat_of_ascii c in
  ((97 <=? n) && (n <=? 122)) || ((65 <=? n) && (n <=? 90))
  || ((48 <=? n) && (n <=? 57)) || (n =? 45) || (n =? 95).

Fixpoint str_filter (f : ascii -> bool) (s : string) : string :=
  match s with
  | EmptyString => EmptyString
  | String c s' => if f c then String c (str_filter f s') else str_filter f s'
  end.

Fixpoint str_forallb (f : ascii -> bool) (s : string) : bool :=
  match s with
  | EmptyString => true
  | String c s' => f c && str_forallb f s'
  end.

Definition validateTenantId (tenantId : JsVal) : outcome string :=
  match tenantId with
  | JStr s =>
      if negb (truthy tenantId) then Throw TenantIdNotString
      else
        let sanitized := str_filter allowed_char s in
        if negb (sanitized =? s)%string || (String.length sanitized =? 0)
        then Throw TenantIdInvalidChars
        else Ok sanitized
  | _ => Throw TenantIdNotString
  end.

End SecurityValidator.

(** ** POSIX paths, as Node's [path] module computes them *)

Module Path.

Definition slash : ascii := "/"%char.

(** [path.isAbsolute] *)
Definition isAbsolute (p : string) : bool :=
  match p with
  | String c _ => (c =? slash)%char
  | EmptyString => false
  end.

(** The segments between the slashes, empty ones included. *)
Fixpoint split (s : string) : list string :=
  match s with
  | EmptyString => [EmptyString]
  | String c s' =>
      if (c =? slash)%char then EmptyString :: split s'
      else match split s' with
           | [] => [String c EmptyString]
           | seg :: segs => String c seg :: segs
           end
  end.

Fixpoint join (segs : list string) : string :=
  match segs with
  | [] => EmptyString
  | [seg] => seg
  | seg :: segs' => seg +:+ "/" +:+ join segs'
  end.

(** [normalizeString] without [allowAboveRoot]: empty segments and "."
    vanish, ".." removes the segment before it when there is one.  The
    stack holds the kept segments, last first. *)
Fixpoint normalize (stack : list string) (segs : list string) : list string :=
  match segs with
  | [] => rev stack
  | seg :: segs' =>
      if (seg =? "")%string || (seg =? ".")%string then normalize stack segs'
      else if (seg =? "..")%string then normalize (tail stack) segs'
      else normalize (seg :: stack) segs'
  end.

(** The loop of [path.resolve], from the last argument to the first:
    empty arguments are skipped and the first absolute one stops it. *)
Fixpoint resolve_loop (args_rev : list string) (resolvedPath : string) : string :=
  match args_rev with
  | [] => resolvedPath
  | p :: rest =>
      if (p =? "")%string then resolve_loop rest resolvedPath
      else
        let resolvedPath' := p +:+ "/" +:+ resolvedPath in
        if isAbsolute p then resolvedPath' else resolve_loop rest resolvedPath'
  end.

(** [path.resolve(...paths)] in a process whose working directory is
    [cwd] (an absolute path). *)
Definition resolve (cwd : string) (paths : list string) : string :=
  "/" +:+ join (normalize [] (split (resolve_loop (rev paths ++ [cwd]) ""))).

(** [path.basename(p)]: the last segment that is not empty. *)
Definition basename (p : string) : string :=
  default "" (last (filter (fun seg => seg <> "") (split p))).

(** A segment free of slashes, and one that [normalize] keeps. *)
Definition slashFree (seg : string) : bool :=
SecurityValidator.str_forallb (fun c => negb (c =? slash)%char) seg.

Definition kept (seg : string) : Prop :=
slashFree seg = true /\ seg <> "" /\ seg <> "." /\ seg <> "..".

(** Directory containment: [p] is [root] or lies below it. *)
Definition within (root p : string) : bool :=
  let rs := normalize [] (split root) in
  let ps := normalize [] (split p) in
  bool_decide (take (length rs) ps = rs).

End Path.

(** ** PathResolver *)

Record ResolveOptions := { allowTrusted : JsVal }.

Definition noOptions : ResolveOptions := {| allowTrusted := JUndefined |}.

Record PathResolver := {
  baseDir : string;
  trustedPackagePaths : list string   (* a [Set], in insertion order *)
}.

Module PathResolverM.

Section WithCwd.
Variable cwd : string.

(** [new PathResolver(baseDir)] *)
Definition create (dir : string) : PathResolver :=
  {| baseDir := Path.resolve cwd [dir]; trustedPackagePaths := [] |}.

Definition addTrustedPath (r : PathResolver) (packagePath : string) : PathResolver :=
  let p := Path.resolve cwd [packagePath] in
  {| baseDir := baseDir r;
     trustedPackagePaths :=
       if bool_decide (p ∈ trustedPackagePaths r) then trustedPackagePaths r
       else trustedPackagePaths r ++ [p] |}.

Definition isTrustedPath (r : PathResolver) (filePath : string) : bool :=
  let resolved := Path.resolve cwd [filePath] in
  existsb (fun trustedPath => String.prefix trustedPath resolved)
          (trustedPackagePaths r).

Definition resolvePath (r : PathResolver) (relativePath : string)
           (options : ResolveOptions) : outcome string :=
  if Path.isAbsolute relativePath then
    if truthy (allowTrusted options) && isTrustedPath r relativePath
    then Ok relativePath
    else Ok relativePath
  else
    let resolved := Path.resolve cwd [baseDir r; relativePath] in
    if negb (String.prefix (baseDir r) resolved) && negb (isTrustedPath r resolved)
    then Throw (PathTraversal relativePath)
    else Ok resolved.

End WithCwd.

End PathResolverM.

(** ** deepmerge *)

(** The default behaviour of the [deepmerge] package (4.3.1) on
    configuration data: arrays are concatenated, plain objects are merged
    key by key, anything else in the source replaces the target, and what
    goes into the result is a clone.  A key of the source that the target
    has without holding it as an own enumerable property (a name inherited
    from [Object.prototype], say) is unsafe and skipped, in a merge and in a
    clone alike. *)
Module Deepmerge.

Definition isMergeableObject (v : JsVal) : bool :=
  match v with
  | JArr _ | JObj _ => true
  | _ => false
  end.

Definition isArray (v : JsVal) : bool :=
  match v with JArr _ => true | _ => false end.

Fixpoint indexed_from {A} (i : nat) (l : list A) : list (string * A) :=
  match l with
  | [] => []
  | x :: l' => (pretty i, x) :: indexed_from (S i) l'
  end.

Fixpoint chars (s : string) : list JsVal :=
  match s with
  | EmptyString => []
  | String c s' => JStr (String c EmptyString) :: chars s'
  end.

(** The own enumerable properties that [Object.keys] and object spread see;
    [null] and [undefined] have none to ask for. *)
Definition ownProps (v : JsVal) : outcome (list (string * JsVal)) :=
  match v with
  | JUndefined | JNull => Throw (TypeError "Cannot convert undefined or null to object")
  | JBool _ | JNum _ => Ok []
  | JStr s => Ok (indexed_from 0 (chars s))
  | JArr items => Ok (indexed_from 0 items)
  | JObj fs | JFun _ fs => Ok fs
  end.

(** The properties that [{...v}] copies. *)
Definition spreadProps (v : JsVal) : list (string * JsVal) :=
  match ownProps v with
  | Ok fs => fs
  | Throw _ => []
  end.

(** [{...v}] *)
Definition spread (v : JsVal) : JsVal := JObj (spreadProps v).

Definition named (keys : list string) (key : string) : bool :=
  existsb (String.eqb key) keys.

(** The property names of [Object.prototype]. *)
Definition objectPrototypeKeys : list string :=
  ["constructor"; "__defineGetter__"; "__defineSetter__"; "hasOwnProperty";
   "__lookupGetter__"; "__lookupSetter__"; "isPrototypeOf";
   "propertyIsEnumerable"; "toString"; "valueOf"; "__proto__"; "toLocaleString"].

(** What a function has besides: its own [length] and [name], which are not
    enumerable, and the names of [Function.prototype].  A function of the
    model is an async function or an arrow, as the plugins are: it has no
    [prototype] of its own. *)
Definition functionKeys : list string :=
  ["length"; "name"; "arguments"; "caller"; "apply"; "bind"; "call"].

(** [Object.hasOwnProperty.call(target, key) &&
    Object.propertyIsEnumerable.call(target, key)] for a target of
    [mergeObject].  Such a target is never an array: [deepmerge] sends two
    arrays to the array merge and answers an array against anything else
    with a clone of the source. *)
Definition ownEnumerable (target : JsVal) (key : string) : bool :=
  match target with
  | JObj fs | JFun _ fs => bool_decide (is_Some (assoc_get key fs))
  | _ => false
  end.

(** [key in target]; on a primitive [in] throws, which the package takes
    for [false]. *)
Definition propertyIsOnObject (target : JsVal) (key : string) : bool :=
  match target with
  | JObj _ => ownEnumerable target key || named objectPrototypeKeys key
  | JFun _ _ =>
      ownEnumerable target key || named functionKeys key
      || named objectPrototypeKeys key
  | _ => false
  end.

Definition propertyIsUnsafe (target : JsVal) (key : string) : bool :=
  propertyIsOnObject target key && negb (ownEnumerable target key).

Definition targetProp (target : JsVal) (key : string) : JsVal :=
  match target with
  | JObj fs | JFun _ fs => default JUndefined (assoc_get key fs)
  | _ => JUndefined
  end.

(** [destination[key] = v] on the object that [mergeObject] builds: for
    ["__proto__"] the assignment goes to the setter that the new object
    inherits, and no own property comes of it. *)
Definition assign (key : string) (v : JsVal) (destination : list (string * JsVal))
  : list (string * JsVal) :=
  if (key =? "__proto__")%string then destination else assoc_set key v destination.

Section CloneObject.
Variable cloneValue : JsVal -> JsVal.

(** [mergeObject({}, source)]: every key of [Object.prototype] is unsafe on
    the empty target. *)
Fixpoint cloneProps (sourceProps : list (string * JsVal))
         (destination : list (string * JsVal)) : list (string * JsVal) :=
  match sourceProps with
  | [] => destination
  | (key, sv) :: rest =>
      if named objectPrototypeKeys key then cloneProps rest destination
      else cloneProps rest (assign key (cloneValue sv) destination)
  end.
End CloneObject.

(** [cloneUnlessOtherwiseSpecified(v, options)], which is
    [deepmerge(emptyTarget(v), v)] for an array or an object. *)
Fixpoint clone (v : JsVal) : JsVal :=
  match v with
  | JArr items => JArr (List.map clone items)
  | JObj fs => JObj (cloneProps clone fs [])
  | _ => v
  end.

Section MergeObject.
Variable mergeValue : JsVal -> JsVal -> JsVal.   (* source value, then target value *)
Variable target : JsVal.

(** The loop of [mergeObject] over the keys of the source. *)
Fixpoint mergeProps (sourceProps : list (string * JsVal))
         (destination : list (string * JsVal)) : list (string * JsVal) :=
  match sourceProps with
  | [] => destination
  | (key, sv) :: rest =>
      if propertyIsUnsafe target key then mergeProps rest destination
      else
        let v := if propertyIsOnObject target key && isMergeableObject sv
                 then mergeValue sv (targetProp target key)
                 else clone sv in
        mergeProps rest (assign key v destination)
  end.
End MergeObject.

(** The loop of [mergeObject] over the keys of a mergeable target:
    [destination[key] = clone(target[key])]. *)
Definition destination0 (target : JsVal) : list (string * JsVal) :=
  match target with
  | JObj fs =>
      fold_left (fun destination key =>
                   assign key (clone (targetProp target key)) destination)
                fs.*1 []
  | _ => []
  end.

(** [deepmerge(target, source)] for a mergeable [source], by recursion on
    the source. *)
Fixpoint mergeInto (source target : JsVal) {struct source} : JsVal :=
  match source with
  | JArr s =>
      match target with
      | JArr t => JArr (List.map clone (t ++ s))
      | _ => clone source
      end
  | JObj sf =>
      match target with
      | JArr _ => clone source
      | _ =>
          JObj (mergeProps mergeInto target sf (destination0 target))
      end
  | _ => source
  end.

(** [merge(target, source)] as [main.mjs] imports it. *)
Definition merge (target source : JsVal) : outcome JsVal :=
  if negb (Bool.eqb (isArray source) (isArray target)) then Ok (clone source)
  else if isArray source then Ok (mergeInto source target)
  else
    match ownProps source with
    | Throw e => Throw e
    | Ok sourceProps =>
        Ok (JObj (mergeProps mergeInto target sourceProps (destination0 target)))
    end.

End Deepmerge.

(** ** TenantContext and the world outside the process *)

(** What [loadResources] collects for a context. *)
Record Loaded := {
  l_services : list (string * JsVal);
  l_plugins : list string;
  l_routes : list string;
  l_schemas : list string
}.

Record TenantContext := {
  id : string;
  config : JsVal;
  type : string;                       (* [adapter.getType()] *)
  services : list (string * JsVal);
  plugins : list string;
  routes : list string;
  schemas : list string;
  active : bool;
  createdAt : Z
}.

(** The filesystem, the module loader and the clock.  A function of this
    record stands for one awaited call; [Throw] is a rejected promise.
    [adapter_loadResources t r ctx] is what [loadResources] of the adapter of
    type [t] collects for [ctx] (schemas, services, plugins, routes), or the
    error it throws. *)
Record Env := {
  proc_cwd : string;                                  (* [process.cwd()] *)
  fs_access : string -> bool;                         (* [fs.access] resolves *)
  fastGlob_config : string -> outcome (list string);  (* [fastGlob("config.{json,js,mjs}", {cwd, absolute})] *)
  readJSON : string -> outcome JsVal;                 (* [JSON.parse(await fs.readFile(file))] *)
  importDefault : string -> outcome JsVal;            (* [m.default || m] for [m = await import(file)] *)
  moduleInfo : string -> outcome (string * JsVal);    (* package root and [package.json] of a specifier *)
  adapter_loadResources : string -> PathResolver -> TenantContext -> outcome Loaded;
  now : Z                                             (* [new Date()] *)
}.

(** ** ResourceLoader *)

Record LoaderOptions := { isTrustedPath : JsVal }.

Module ResourceLoader.

Definition endsWith (s suffix : string) : bool :=
  (String.length suffix <=? String.length s)
  && (substring (String.length s - String.length suffix) (String.length suffix) s
      =? suffix)%string.

(** [pathResolver.pathExists(filePath, options)] *)
Definition pathExists (env : Env) (r : PathResolver) (filePath : string)
           (options : ResolveOptions) : bool :=
  let resolvedPath :=
    if truthy (allowTrusted options) then Ok filePath
    else PathResolverM.resolvePath (proc_cwd env) r filePath options in
  match resolvedPath with
  | Ok p => fs_access env p
  | Throw _ => false
  end.

(** What one iteration of the [for] loop of [loadConfig] reads. *)
Definition readConfigFile (env : Env) (file : string) : outcome JsVal :=
  if endsWith file ".json" then readJSON env file else importDefault env file.

(** One iteration of the loop, its [try]/[catch] included. *)
Definition mergeConfigFile (env : Env) (config : JsVal) (file : string) : JsVal :=
  match readConfigFile env file with
  | Throw _ => config
  | Ok v =>
      match Deepmerge.merge config v with
      | Ok config' => config'
      | Throw _ => config
      end
  end.

Definition loadConfig (env : Env) (r : PathResolver) (configPath : string)
           (defaults : JsVal) (options : LoaderOptions) : JsVal :=
  let absolutePath :=
    if truthy (isTrustedPath options) then Ok configPath
    else PathResolverM.resolvePath (proc_cwd env) r configPath noOptions in
  match absolutePath with
  | Throw _ => defaults
  | Ok absolutePath =>
      let config := Deepmerge.spread defaults in
      match fastGlob_config env absolutePath with
      | Throw _ => defaults
      | Ok configFiles =>
          if length configFiles =? 0 then config
          else fold_left (mergeConfigFile env) configFiles config
      end
  end.

End ResourceLoader.

(** ** TenantContext: the constructor *)

Module TenantContextM.

(** [new TenantContext(id, config, adapter)]: the id is validated first,
    then [config.active !== false] is read. *)
Definition create (env : Env) (idv : JsVal) (cfg : JsVal) (adapterType : string)
  : outcome TenantContext :=
  match SecurityValidator.validateTenantId idv with
  | Throw e => Throw e
  | Ok validId =>
      match getprop cfg "active" with
      | Throw e => Throw e
      | Ok a =>
          Ok {| id := validId; config := cfg; type := adapterType;
                services := []; plugins := []; routes := []; schemas := [];
                active := match a with JBool false => false | _ => true end;
                createdAt := now env |}
      end
  end.

(** What [adapter.loadResources] leaves in the context: services, plugins,
    routes and schemas; the id, the config and the flags are not assigned. *)
Definition withLoaded (ctx : TenantContext) (l : Loaded) : TenantContext :=
  {| id := id ctx; config := config ctx; type := type ctx;
     services := l_services l; plugins := l_plugins l;
     routes := l_routes l; schemas := l_schemas l;
     active := active ctx; createdAt := createdAt ctx |}.

End TenantContextM.

(** ** Tenant adapters *)

(** The interface of the abstract class [TenantAdapter].  The path resolver
    is the one object the adapters share and mutate, so it is passed in and
    handed back. *)
Record TenantAdapter := {
  getType : string;
  canHandle : PathResolver -> string -> bool * PathResolver;
  loadConfig : PathResolver -> string -> JsVal -> JsVal * PathResolver;
  loadResources : PathResolver -> TenantContext -> outcome TenantContext
}.

Definition loadResourcesVia (env : Env) (adapterType : string) (r : PathResolver)
           (ctx : TenantContext) : outcome TenantContext :=
  match adapter_loadResources env adapterType r ctx with
  | Ok l => Ok (TenantContextM.withLoaded ctx l)
  | Throw e => Throw e
  end.

Definition LocalTenantAdapter (env : Env) : TenantAdapter :=
  {| getType := "local";
     canHandle := fun r source =>
       (ResourceLoader.pathExists env r source noOptions, r);
     loadConfig := fun r tenantPath defaults =>
       (ResourceLoader.loadConfig env r tenantPath defaults
          {| isTrustedPath := JUndefined |}, r);
     loadResources := loadResourcesVia env "local" |}.

(** [pathResolver.getModuleInfo]: a package that resolves has its root
    added to the trusted paths; a failure is thrown again under the message
    of [getModuleInfo]. *)
Definition getModuleInfo (env : Env) (r : PathResolver) (specifier : string)
  : outcome (string * JsVal) * PathResolver :=
  match moduleInfo env specifier with
  | Ok (packageRoot, packageJson) =>
      (Ok (packageRoot, packageJson),
       PathResolverM.addTrustedPath (proc_cwd env) r packageRoot)
  | Throw e =>
      (Throw (LoadError ("Error resolving module " +:+ specifier +:+ ": "
                         +:+ errorMessage e)), r)
  end.

Definition packagePrefix : string := "fastify-multitenant-".

(** [name.replace(/^fastify-multitenant-/, "")] *)
Definition stripPackagePrefix (name : string) : string :=
  if String.prefix packagePrefix name
  then substring (String.length packagePrefix)
                 (String.length name - String.length packagePrefix) name
  else name.

Module NPMTenantAdapterM.

(** The [try] of [loadConfig], once the module info is there. *)
Definition loadConfig_try (env : Env) (r : PathResolver) (packageName : string)
           (defaults : JsVal) (rootDir : string) (packageJson : JsVal)
  : outcome JsVal :=
  let* tenantConfig := importDefault env packageName in
  let config := Deepmerge.spread defaults in
  let* ownConfig :=
    if typeofObject tenantConfig then getprop tenantConfig "config" else Ok JUndefined in
  let* config :=
    if typeofObject tenantConfig && truthy ownConfig
    then Deepmerge.merge config ownConfig else Ok config in
  let* config := setprop config "path" (JStr rootDir) in
  let* config := setprop config "packageName" (JStr packageName) in
  let* config := setprop config "packageJson" packageJson in
  let* config := setprop config "isTrustedPath" (JBool true) in
  let* name := getprop tenantConfig "NAME" in
  let* config :=
    setprop config "name"
            (if truthy name then name else JStr (stripPackagePrefix packageName)) in
  let packageConfig :=
    ResourceLoader.loadConfig env r rootDir (JObj []) {| isTrustedPath := JBool true |} in
  Deepmerge.merge config packageConfig.

(** [{ ...defaults, path: null, error: err.message }] *)
Definition failedConfig (defaults : JsVal) (e : JsError) : JsVal :=
  JObj (assoc_set "error" (JStr (errorMessage e))
          (assoc_set "path" JNull (Deepmerge.spreadProps defaults))).

Definition loadConfig (env : Env) (r : PathResolver) (packageName : string)
           (defaults : JsVal) : JsVal * PathResolver :=
  match getModuleInfo env r packageName with
  | (Ok (rootDir, packageJson), r') =>
      match loadConfig_try env r' packageName defaults rootDir packageJson with
      | Ok config => (config, r')
      | Throw e => (failedConfig defaults e, r')
      end
  | (Throw e, r') => (failedConfig defaults e, r')
  end.

End NPMTenantAdapterM.

Definition NPMTenantAdapter (env : Env) : TenantAdapter :=
  {| getType := "npm";
     canHandle := fun r source =>
       match getModuleInfo env r source with
       | (Ok _, r') => (true, r')
       | (Throw _, r') => (false, r')
       end;
     loadConfig := NPMTenantAdapterM.loadConfig env;
     loadResources := loadResourcesVia env "npm" |}.

(** ** TenantFactory *)

Module TenantFactory.

(** The tenant id [buildTenant] starts from. *)
Definition determineTenantId (adapterType : string) (source : string)
           (customTenantId : JsVal) : JsVal :=
  if negb (truthy customTenantId) then
    if (adapterType =? "npm")%string then JStr (stripPackagePrefix source)
    else JStr (Path.basename source)
  else customTenantId.

Definition defaultsFor (tenantId : JsVal) (source : string) : JsVal :=
  JObj [("id", tenantId); ("name", tenantId); ("active", JBool true);
        ("source", JStr source)].

(** The body of the [try] of [buildTenant], after the configuration is
    loaded: [Ok None] is the inactive tenant. *)
Definition buildFromConfig (env : Env) (adapter : TenantAdapter) (r : PathResolver)
           (tenantId : JsVal) (cfg : JsVal) : outcome (option TenantContext) :=
  match getprop cfg "active" with
  | Throw e => Throw e
  | Ok a =>
      if negb (truthy a) then Ok None
      else
        match getprop cfg "name" with
        | Throw e => Throw e
        | Ok name =>
            match TenantContextM.create env (js_or name tenantId) cfg (getType adapter) with
            | Throw e => Throw e
            | Ok tenantContext =>
                match loadResources adapter r tenantContext with
                | Throw e => Throw e
                | Ok loaded => Ok (Some loaded)
                end
            end
        end
  end.

Definition buildTenant (env : Env) (adapter : TenantAdapter) (r : PathResolver)
           (source : string) (customTenantId : JsVal)
  : option TenantContext * PathResolver :=
  let tenantId := determineTenantId (getType adapter) source customTenantId in
  let '(cfg, r') := loadConfig adapter r source (defaultsFor tenantId source) in
  match buildFromConfig env adapter r' tenantId cfg with
  | Ok res => (res, r')
  | Throw _ => (None, r')
  end.

Definition adapters (env : Env) : list TenantAdapter :=
  [LocalTenantAdapter env; NPMTenantAdapter env].

Fixpoint probe (env : Env) (candidates : list TenantAdapter) (r : PathResolver)
         (source : string) (customTenantId : JsVal)
  : outcome (option TenantContext) * PathResolver :=
  match candidates with
  | [] => (Throw (NoAdapterFound (JStr source)), r)
  | adapter :: rest =>
      let '(handles, r') := canHandle adapter r source in
      if handles then
        let '(res, r'') := buildTenant env adapter r' source customTenantId in
        (Ok res, r'')
      else probe env rest r' source customTenantId
  end.

(** [createTenant(app, source, tenantId)].  A source that is not a string is
    refused by both adapters: [path.isAbsolute] and the module resolver throw
    on it, and [canHandle] turns that into [false]. *)
Definition createTenant (env : Env) (r : PathResolver) (source : JsVal)
           (customTenantId : JsVal) : outcome (option TenantContext) * PathResolver :=
  match source with
  | JStr s => probe env (adapters env) r s customTenantId
  | _ => (Throw (NoAdapterFound source), r)
  end.

End TenantFactory.

(** ** MultiSourceTenantStrategy *)

Record Request := {
  hostname : option string;    (* [None]: the property is absent *)
  url : option string;
  headers : JsVal
}.

Module MultiSourceTenantStrategy.

(** The longest prefix of [s] without [stop], and whether [stop] follows. *)
Fixpoint span (stop : ascii) (s : string) : string * bool :=
  match s with
  | EmptyString => (EmptyString, false)
  | String c s' =>
      if (c =? stop)%char then (EmptyString, true)
      else let '(p, found) := span stop s' in (String c p, found)
  end.

(** [hostname.match(/^([^.]+)\./)], the captured group. *)
Definition hostnameMatch (h : string) : option string :=
  let '(label, dot) := span "."%char h in
  if dot && negb (label =? "")%string then Some label else None.

(** [url.match(/^\/([^/]+)/)], the captured group. *)
Definition pathMatch (u : string) : option string :=
  match u with
  | String c rest =>
      if (c =? "/")%char then
        let '(segment, _) := span "/"%char rest in
        if negb (segment =? "")%string then Some segment else None
      else None
  | EmptyString => None
  end.

Definition defaultTenant : string := "default-tenant".

(** Strategy 3, the [x-tenant-id] header. *)
Definition fromHeader (request : Request) : outcome string :=
  match getprop (headers request) "x-tenant-id" with
  | Throw e => Throw e
  | Ok h =>
      if truthy h then SecurityValidator.validateTenantId h
      else Ok defaultTenant
  end.

Definition reserved (segment : string) : bool :=
  (segment =? "api")%string || (segment =? "health")%string.

(** The body of the [try]. *)
Definition extractTenantId_try (request : Request) : outcome string :=
  match hostname request ≫= hostnameMatch with
  | Some label => SecurityValidator.validateTenantId (JStr label)
  | None =>
      match url request ≫= pathMatch with
      | Some segment =>
          if negb (reserved segment)
          then SecurityValidator.validateTenantId (JStr segment)
          else fromHeader request
      | None => fromHeader request
      end
  end.

Definition extractTenantId (request : Request) : string :=
  match extractTenantId_try request with
  | Ok tenantId => tenantId
  | Throw _ => defaultTenant
  end.

End MultiSourceTenantStrategy.

(** ** TenantRegistry *)

Record TenantRegistry := {
  tenants : gmap string TenantContext;
  maxTenants : nat                    (* a tenant count, 50 by default *)
}.

Module TenantRegistryM.

Definition create (maxTenants : nat) : TenantRegistry :=
  {| tenants := ∅; maxTenants := maxTenants |}.

Definition register (reg : TenantRegistry) (tenant : TenantContext)
  : outcome unit * TenantRegistry :=
  if maxTenants reg <=? size (tenants reg)
  then (Throw (MaxTenantsReached (maxTenants reg)), reg)
  else (Ok tt, {| tenants := <[id tenant := tenant]> (tenants reg);
                  maxTenants := maxTenants reg |}).

Definition unregister (reg : TenantRegistry) (tenantId : string)
  : bool * TenantRegistry :=
  (bool_decide (is_Some (tenants reg !! tenantId)),
   {| tenants := delete tenantId (tenants reg); maxTenants := maxTenants reg |}).

Definition getTenant (reg : TenantRegistry) (tenantId : string)
  : option TenantContext :=
  tenants reg !! tenantId.

(** One call from outside, and the registry it leaves. *)
Inductive op : Type :=
| Register (tenant : TenantContext)
| Unregister (tenantId : string).

Definition step (reg : TenantRegistry) (o : op) : TenantRegistry :=
  match o with
  | Register tenant => snd (register reg tenant)
  | Unregister tenantId => snd (unregister reg tenantId)
  end.

Definition run (reg : TenantRegistry) (ops : list op) : TenantRegistry :=
  fold_left step ops reg.

End TenantRegistryM.

(** ** TenantManager *)

Record TenantManager := {
  pathResolver : PathResolver;
  tenantRegistry : TenantRegistry
}.

Module TenantManagerM.

Definition getTenant (m : TenantManager) (tenantId : string) : option TenantContext :=
  TenantRegistryM.getTenant (tenantRegistry m) tenantId.

(** [loadTenant(app, source, customTenantId)]; [None] is [null]. *)
Definition loadTenant (env : Env) (m : TenantManager) (source : JsVal)
           (customTenantId : JsVal) : option TenantContext * TenantManager :=
  let '(created, r') :=
    TenantFactory.createTenant env (pathResolver m) source customTenantId in
  match created with
  | Ok (Some tenant) =>
      match TenantRegistryM.register (tenantRegistry m) tenant with
      | (Ok _, reg') =>
          (Some tenant, {| pathResolver := r'; tenantRegistry := reg' |})
      | (Throw _, reg') =>
          (None, {| pathResolver := r'; tenantRegistry := reg' |})
      end
  | Ok None | Throw _ =>
      (None, {| pathResolver := r'; tenantRegistry := tenantRegistry m |})
  end.

Definition reloadTenant (env : Env) (m : TenantManager) (tenantId : string)
  : outcome (option TenantContext) * TenantManager :=
  match getTenant m tenantId with
  | None => (Throw (TenantNotFound tenantId), m)
  | Some existingTenant =>
      match getprop (config existingTenant) "source" with
      | Throw e => (Throw e, m)
      | Ok source =>
          let '(_, reg') := TenantRegistryM.unregister (tenantRegistry m) tenantId in
          let '(res, m') :=
            loadTenant env {| pathResolver := pathResolver m; tenantRegistry := reg' |}
                       source (JStr tenantId) in
          (Ok res, m')
      end
  end.

Definition unloadTenant (m : TenantManager) (tenantId : string)
  : bool * TenantManager :=
  let '(existed, reg') := TenantRegistryM.unregister (tenantRegistry m) tenantId in
  (existed, {| pathResolver := pathResolver m; tenantRegistry := reg' |}).

End TenantManagerM.

(** The adapter the probing loop of [createTenant] settles on, with the
    path resolver as the probes leave it. *)
Fixpoint selectAdapter (candidates : list TenantAdapter) (r : PathResolver)
         (source : string) : option (TenantAdapter * PathResolver) :=
  match candidates with
  | [] => None
  | adapter :: rest =>
      let '(handles, r') := canHandle adapter r source in
      if handles then Some (adapter, r') else selectAdapter rest r' source
  end.

(** The configuration [buildTenant] merges for a source. *)
Definition mergedConfig (adapter : TenantAdapter) (r : PathResolver)
           (source : string) (customTenantId : JsVal) : JsVal * PathResolver :=
  loadConfig adapter r source
    (TenantFactory.defaultsFor
       (TenantFactory.determineTenantId (getType adapter) source customTenantId)
       source).

(** ** The composite strategy, as the specification words it *)

Module CompositeSpec.

(** The subdomain of a hostname: what stands before its first dot, when
    there is a dot and something before it. *)
Definition subdomain (host : string) : option string :=
  match String.index 0 "." host with
  | Some (S n) => Some (substring 0 (S n) host)
  | _ => None
  end.

(** The first segment of a path: what stands between the leading slash and
    the next slash, or the end, when that is not empty. *)
Definition firstSegment (path : string) : option string :=
  if String.prefix "/" path then
    let rest := substring 1 (String.length path - 1) path in
    let segment :=
      match String.index 0 "/" rest with
      | Some n => substring 0 n rest
      | None => rest
      end in
    if decide (segment = "") then None else Some segment
  else None.

Definition reservedSegments : list string := ["api"; "health"].

Definition defaultId : string := "default-tenant".

(** The three sub-strategies, each giving a candidate or nothing. *)
Definition hostnameStrategy (request : Request) : option JsVal :=
  JStr <$> (hostname request ≫= subdomain).

Definition urlStrategy (request : Request) : option JsVal :=
  match url request ≫= firstSegment with
  | Some segment =>
      if decide (segment ∈ reservedSegments) then None else Some (JStr segment)
  | None => None
  end.

Definition headerStrategy (request : Request) : option JsVal :=
  match getprop (headers request) "x-tenant-id" with
  | Ok h => if truthy h then Some h else None
  | Throw _ => None
  end.

Definition subStrategies : list (Request -> option JsVal) :=
  [hostnameStrategy; urlStrategy; headerStrategy].

(** The first candidate in the declared order. *)
Fixpoint firstCandidate (strategies : list (Request -> option JsVal))
         (request : Request) : option JsVal :=
  match strategies with
  | [] => None
  | strategy :: rest =>
      match strategy request with
      | Some c => Some c
      | None => firstCandidate rest request
      end
  end.

(** First candidate, validated; the default id when there is none or the
    validation fails. *)
Definition composite (request : Request) : string :=
  match firstCandidate subStrategies request with
  | Some c =>
      match SecurityValidator.validateTenantId c with
      | Ok tenantId => tenantId
      | Throw _ => defaultId
      end
  | None => defaultId
  end.

End CompositeSpec.

(** ** A sample deployment *)

(** The server runs in [/srv/app]; no package has been resolved yet. *)
Module Sample.

Definition cwd : string := "/srv/app".

Definition resolver : PathResolver := PathResolverM.create cwd "/srv/app".

(** Five tenant directories under [/srv/app/tenants]: [acme] names itself
    in its [config.json], [beta] is switched off, [gamma] has no config
    file, [delta] has a [config.json] and a [config.js] that the directory
    lists in this order, and the [config.json] of [epsilon] is not JSON. *)
Definition directories : list string :=
  ["/srv/app/tenants/acme"; "/srv/app/tenants/beta"; "/srv/app/tenants/gamma";
   "/srv/app/tenants/delta"; "/srv/app/tenants/epsilon"].

Definition glob (dir : string) : outcome (list string) :=
  if (dir =? "/srv/app/tenants/acme")%string then Ok ["/srv/app/tenants/acme/config.json"]
  else if (dir =? "/srv/app/tenants/beta")%string then Ok ["/srv/app/tenants/beta/config.json"]
  else if (dir =? "/srv/app/tenants/delta")%string
       then Ok ["/srv/app/tenants/delta/config.json"; "/srv/app/tenants/delta/config.js"]
  else if (dir =? "/srv/app/tenants/epsilon")%string
       then Ok ["/srv/app/tenants/epsilon/config.json"; "/srv/app/tenants/epsilon/config.mjs"]
  else Ok [].

Definition json (file : string) : outcome JsVal :=
  if (file =? "/srv/app/tenants/acme/config.json")%string
  then Ok (JObj [("name", JStr "sample-tenant")])
  else if (file =? "/srv/app/tenants/beta/config.json")%string
  then Ok (JObj [("active", JBool false)])
  else if (file =? "/srv/app/tenants/delta/config.json")%string
  then Ok (JObj [("name", JStr "from-json")])
  else Throw (LoadError "Unexpected token in JSON").

(** One installed tenant package; its main export is a plugin function
    without a [NAME]. *)
Definition packages (specifier : string) : outcome (string * JsVal) :=
  if (specifier =? "fastify-multitenant-acme")%string
  then Ok ("/srv/app/node_modules/fastify-multitenant-acme",
           JObj [("name", JStr "fastify-multitenant-acme"); ("version", JStr "1.0.0")])
  else Throw (LoadError "Cannot find package").

Definition modules (file : string) : outcome JsVal :=
  if (file =? "fastify-multitenant-acme")%string
  then Ok (JFun "acmeTenant" [])
  else if (file =? "/srv/app/tenants/delta/config.js")%string
  then Ok (JObj [("name", JStr "from-js")])
  else if (file =? "/srv/app/tenants/epsilon/config.mjs")%string
  then Ok (JObj [("limits", JObj [("maxUsers", JNum 1000)])])
  else Throw (LoadError "Cannot find module").

Definition noResources : Loaded :=
  {| l_services := []; l_plugins := []; l_routes := []; l_schemas := [] |}.

Definition env : Env :=
  {| proc_cwd := cwd;
     fs_access := fun p => bool_decide (p ∈ directories);
     fastGlob_config := glob;
     readJSON := json;
     importDefault := modules;
     moduleInfo := packages;
     adapter_loadResources := fun _ _ _ => Ok noResources;
     now := 0 |}.

Definition context (tenantId source : string) : TenantContext :=
  {| id := tenantId;
     config := JObj [("id", JStr tenantId); ("name", JStr tenantId);
                     ("active", JBool true); ("source", JStr source)];
     type := "local";
     services := []; plugins := []; routes := []; schemas := [];
     active := true; createdAt := 0 |}.

(** A manager that loaded [beta] while it was still switched on, and
    [gamma]. *)
Definition manager : TenantManager :=
  {| pathResolver := resolver;
     tenantRegistry :=
       {| tenants := <["gamma" := context "gamma" "/srv/app/tenants/gamma"]>
                       (<["beta" := context "beta" "/srv/app/tenants/beta"]> ∅);
          maxTenants := 50 |} |}.

End Sample.

(** ** [loadConfig], as the specification words it *)

Module LoadConfigSpec.




End LoadConfigSpec.

(** ** TenantRegistry: enumeration and statistics *)

Module RegistryViews.

(** [getAllTenants()] lists the values of the [Map] in insertion order; the
    finite map of the model does not record that order, so a listing is any
    arrangement of its values. *)
Definition enumerates (reg : TenantRegistry) (all : list TenantContext) : Prop :=
  all ≡ₚ (map_to_list (tenants reg)).*2.

(** [getActiveTenants()], from the listing. *)
Definition getActiveTenants (all : list TenantContext) : list TenantContext :=
  List.filter (fun tenant => active tenant) all.

(** [tenant.listServices()] *)
Definition listServices (tenant : TenantContext) : list string :=
  (services tenant).*1.

Fixpoint count_get (k : string) (acc : list (string * nat)) : nat :=
  match acc with
  | [] => 0
  | (k', n) :: acc' => if (k' =? k)%string then n else count_get k acc'
  end.

Fixpoint count_set (k : string) (n : nat) (acc : list (string * nat))
  : list (string * nat) :=
  match acc with
  | [] => [(k, n)]
  | (k', n') :: acc' =>
      if (k' =? k)%string then (k, n) :: acc' else (k', n') :: count_set k n acc'
  end.

Record Stats := {
  total : nat;
  activeCount : nat;
  inactiveCount : nat;
  types : list (string * nat);
  servicesLoaded : nat
}.

(** [getStats()], from the listing [this.getAllTenants()]. *)
Definition getStats (all : list TenantContext) : Stats :=
  {| total := length all;
     activeCount := length (List.filter (fun t => active t) all);
     inactiveCount := length (List.filter (fun t => negb (active t)) all);
     types := fold_left (fun acc t => count_set (type t) (count_get (type t) acc + 1) acc)
                        all [];
     servicesLoaded := fold_left (fun sum t => sum + length (listServices t)) all 0 |}.

End RegistryViews.

(** ** TenantManager: runs of calls *)

Module ManagerRuns.

(** One call on the manager; the filesystem may have changed since the call
    before, so every call comes with its own world. *)
Inductive call : Type :=
| LoadTenant (source : JsVal) (customTenantId : JsVal)
| ReloadTenant (tenantId : string)
| UnloadTenant (tenantId : string).

Definition step (m : TenantManager) (c : Env * call) : TenantManager :=
  match c with
  | (env, LoadTenant source customTenantId) =>
      snd (TenantManagerM.loadTenant env m source customTenantId)
  | (env, ReloadTenant tenantId) => snd (TenantManagerM.reloadTenant env m tenantId)
  | (_, UnloadTenant tenantId) => snd (TenantManagerM.unloadTenant m tenantId)
  end.

Definition run (m : TenantManager) (calls : list (Env * call)) : TenantManager :=
  fold_left step calls m.

(** What holds of every entry the manager has registered. *)
Definition wellFormed (reg : TenantRegistry) : Prop :=
  size (tenants reg) <= maxTenants reg
  /\ forall key ctx, tenants reg !! key = Some ctx ->
       id ctx = key
       /\ SecurityValidator.validateTenantId (JStr key) = Ok key
       /\ active ctx = true
       /\ (type ctx = "local" \/ type ctx = "npm").

End ManagerRuns.

(** ** The request hook of [MultiTenantServer] *)

Module RequestHook.

(** [registry.getTenantIdFromRequest(request)] under a strategy that may
    throw. *)
Definition getTenantIdFromRequest (strategy : Request -> outcome string)
           (request : Request) : string :=
  match strategy request with
  | Ok tenantId => tenantId
  | Throw _ => "default-tenant"
  end.

(** The strategy a new registry starts with. *)
Definition defaultStrategy (request : Request) : outcome string :=
  Ok (MultiSourceTenantStrategy.extractTenantId request).

Inductive Reply : Type :=
| NoReply
| NotFound (tenantId : string) (availableTenants : list string)   (* 404 *)
| BadRequest.                                                     (* 400 *)

Record Resolved := {
  r_tenantId : string;                 (* [request.tenantId] *)
  r_tenant : option TenantContext;     (* [request.tenant] *)
  r_reply : Reply
}.

(** The [onRequest] hook; [all] is the listing [getAllTenants()] gives. *)
Definition onRequest (strategy : Request -> outcome string) (m : TenantManager)
           (all : list TenantContext) (request : Request) : Resolved :=
  let tenantId := getTenantIdFromRequest strategy request in
  let tenant := TenantManagerM.getTenant m tenantId in
  {| r_tenantId := tenantId;
     r_tenant := tenant;
     r_reply :=
       match tenant with
       | Some _ => NoReply
       | None =>
           match url request with
           | None => BadRequest
           | Some u =>
               if String.prefix "/api/" u
               then NotFound tenantId (id <$> all)
               else NoReply
           end
       end |}.

End RequestHook.


(** ** More of Node's [path]: [normalize] and [join] *)

Module PathJoin.

(** [normalizeString] with [allowAboveRoot]: a ".." that has nothing to
    remove stays. *)
Fixpoint normalizeAbove (stack : list string) (segs : list string) : list string :=
  match segs with
  | [] => rev stack
  | seg :: segs' =>
      if (seg =? "")%string || (seg =? ".")%string then normalizeAbove stack segs'
      else if (seg =? "..")%string then
        match stack with
        | top :: below =>
            if (top =? "..")%string then normalizeAbove (seg :: stack) segs'
            else normalizeAbove below segs'
        | [] => normalizeAbove [seg] segs'
        end
      else normalizeAbove (seg :: stack) segs'
  end.

Fixpoint endsWithSlash (p : string) : bool :=
  match p with
  | EmptyString => false
  | String c EmptyString => (c =? Path.slash)%char
  | String _ rest => endsWithSlash rest
  end.

(** [path.normalize(p)] *)
Definition normalizePath (p : string) : string :=
  if (p =? "")%string then "."
  else
    let trailing := endsWithSlash p in
    if Path.isAbsolute p then
      let body := Path.join (Path.normalize [] (Path.split p)) in
      if (body =? "")%string then "/"
      else "/" +:+ body +:+ (if trailing then "/" else "")
    else
      let body := Path.join (normalizeAbove [] (Path.split p)) in
      if (body =? "")%string then (if trailing then "./" else ".")
      else body +:+ (if trailing then "/" else "").

(** [path.join(...args)]: the arguments that are not empty, joined by
    slashes, then normalized. *)
Definition join (args : list string) : string :=
  match List.filter (fun arg => negb (arg =? "")%string) args with
  | [] => "."
  | parts => normalizePath (Path.join parts)
  end.

End PathJoin.

(** ** SecurityValidator: plugin names; the validators of the sample tenant *)

Module PluginNames.

(** [SecurityValidator.validatePluginName]; the errors are plain [Error]s
    with these messages. *)
Definition validatePluginName (pluginName : JsVal) : outcome string :=
  match pluginName with
  | JStr s =>
      if negb (truthy pluginName)
      then Throw (LoadError "Plugin name must be a non-empty string")
      else
        let sanitized := SecurityValidator.str_filter SecurityValidator.allowed_char s in
        if negb (sanitized =? s)%string || (String.length sanitized =? 0)
        then Throw (LoadError "Plugin name contains invalid characters")
        else Ok sanitized
  | _ => Throw (LoadError "Plugin name must be a non-empty string")
  end.

End PluginNames.

Module CommonValidators.

(** [/^[a-zA-Z0-9\-_]+$/.test(s)] *)
Definition idPattern (s : string) : bool :=
  negb (s =? "")%string
  && SecurityValidator.str_forallb SecurityValidator.allowed_char s.

(** [CommonValidators.validateTenantId] of [lib/validators.mjs]; it throws a
    [ValidationError] with the message. *)
Definition validateTenantId (tenantId : JsVal) : outcome string :=
  match tenantId with
  | JStr s =>
      if negb (truthy tenantId)
      then Throw (LoadError "Tenant ID must be a non-empty string")
      else if negb (idPattern s)
      then Throw (LoadError "Tenant ID contains invalid characters")
      else Ok s
  | _ => Throw (LoadError "Tenant ID must be a non-empty string")
  end.

End CommonValidators.

(** ** MultiTenantServer: the order of the core plugins *)

Module CorePlugins.

Definition includes (names : list string) (name : string) : bool :=
  existsb (fun n => (n =? name)%string) names.

Definition hidden (name : string) : bool := String.prefix "." name.

(** [orderedPlugins] of [loadCorePlugins]. *)
Definition orderedPlugins (coreOrder pluginDirs : list string) : list string :=
  List.filter (fun name => includes pluginDirs name) coreOrder
  ++ List.filter (fun name => negb (includes coreOrder name) && negb (hidden name))
                 pluginDirs.

End CorePlugins.

(** ** PluginManager *)

(** One [app.register(plugin, options)]; [withApp] says that the options
    carry the application as [fastify]. *)
Record Registration := {
  reg_plugin : JsVal;
  reg_options : JsVal;
  reg_withApp : bool
}.

Record PluginManager := {
  pluginCache : gmap string JsVal;
  registered : list Registration       (* what the application has accepted *)
}.

Record LoadResult := {
  success : bool;
  plugin : option JsVal;
  error : option string
}.

Module PluginManagerM.

Section WithApp.

(** Whether the application accepts a registration, given the ones it has
    accepted before; a refusal is the error of the awaited [register]. *)
Variable appRegister : list Registration -> Registration -> outcome unit.

Definition succeeded (p : JsVal) : LoadResult :=
  {| success := true; plugin := Some p; error := None |}.

Definition failed (message : string) : LoadResult :=
  {| success := false; plugin := None; error := Some message |}.

Definition isFunction (v : JsVal) : bool :=
  match v with JFun _ _ => true | _ => false end.

(** [await app.register(plugin, options)] inside the [try]. *)
Definition registerWith (pm : PluginManager) (cache : gmap string JsVal)
           (registration : Registration) : LoadResult * PluginManager :=
  match appRegister (registered pm) registration with
  | Ok _ =>
      (succeeded (reg_plugin registration),
       {| pluginCache := cache; registered := registered pm ++ [registration] |})
  | Throw e =>
      (failed (errorMessage e), {| pluginCache := cache; registered := registered pm |})
  end.

Definition localPluginPath (r : PathResolver) (sanitizedName : string) : string :=
  PathJoin.join [baseDir r; "plugins"; sanitizedName; "index.mjs"].

(** [loadLocalPlugin(app, pluginName, options)]: the name is validated
    outside the [try], so an invalid name throws. *)
Definition loadLocalPlugin (env : Env) (r : PathResolver) (pm : PluginManager)
           (pluginName : JsVal) (options : JsVal)
  : outcome LoadResult * PluginManager :=
  match PluginNames.validatePluginName pluginName with
  | Throw e => (Throw e, pm)
  | Ok sanitizedName =>
      let cacheKey := "local:" +:+ sanitizedName in
      let registration p :=
        {| reg_plugin := p; reg_options := Deepmerge.spread options; reg_withApp := true |} in
      match pluginCache pm !! cacheKey with
      | Some p =>
          let '(res, pm') := registerWith pm (pluginCache pm) (registration p) in
          (Ok res, pm')
      | None =>
          let pluginPath := localPluginPath r sanitizedName in
          if negb (ResourceLoader.pathExists env r pluginPath noOptions)
          then (Ok (failed ("Plugin not found: " +:+ sanitizedName)), pm)
          else
            match importDefault env pluginPath with
            | Throw e => (Ok (failed (errorMessage e)), pm)
            | Ok p =>
                if negb (isFunction p)
                then (Ok (failed ("Plugin is not a function: " +:+ sanitizedName)), pm)
                else
                  let '(res, pm') :=
                    registerWith pm (<[cacheKey := p]> (pluginCache pm)) (registration p) in
                  (Ok res, pm')
            end
      end
  end.

(** [loadNPMPlugin(app, pluginName, options)] *)
Definition loadNPMPlugin (env : Env) (pm : PluginManager)
           (pluginName : string) (options : JsVal) : LoadResult * PluginManager :=
  let cacheKey := "npm:" +:+ pluginName in
  let registration p :=
    {| reg_plugin := p;
       reg_options := match options with JUndefined => JObj [] | _ => options end;
       reg_withApp := false |} in
  match pluginCache pm !! cacheKey with
  | Some p => registerWith pm (pluginCache pm) (registration p)
  | None =>
      match importDefault env pluginName with
      | Throw e => (failed (errorMessage e), pm)
      | Ok p =>
          if negb (isFunction p)
          then (failed ("Plugin is not a function: " +:+ pluginName), pm)
          else registerWith pm (<[cacheKey := p]> (pluginCache pm)) (registration p)
      end
  end.

(** An element of [results]: [{ plugin: pluginName, ...result }], where the
    [plugin] of a successful result takes the place of the name. *)
Record BatchEntry := {
  e_plugin : JsVal;
  e_success : bool;
  e_error : option string
}.

Definition entryOf (pluginName : string) (result : LoadResult) : BatchEntry :=
  {| e_plugin := default (JStr pluginName) (plugin result);
     e_success := success result;
     e_error := error result |}.

(** The entry the [catch] of the loop pushes. *)
Definition caughtEntry (pluginName : string) (e : JsError) : BatchEntry :=
  {| e_plugin := JStr pluginName; e_success := false; e_error := Some (errorMessage e) |}.

Record BatchResult := {
  successCount : nat;
  batchTotal : nat;
  results : list BatchEntry
}.

(** One turn of the loop of [loadLocalPlugins], its [try]/[catch] included:
    the entry it pushes and whether it counts as a success. *)
Definition loadOne (env : Env) (r : PathResolver) (pm : PluginManager)
           (pluginName : string) (options : JsVal) : BatchEntry * PluginManager :=
  match getprop options pluginName with
  | Throw e => (caughtEntry pluginName e, pm)
  | Ok v =>
      match loadLocalPlugin env r pm (JStr pluginName) (js_or v (JObj [])) with
      | (Ok result, pm') => (entryOf pluginName result, pm')
      | (Throw e, pm') => (caughtEntry pluginName e, pm')
      end
  end.

Fixpoint loadEach (env : Env) (r : PathResolver) (pm : PluginManager)
         (pluginNames : list string) (options : JsVal)
         (acc : list BatchEntry) (count : nat)
  : list BatchEntry * nat * PluginManager :=
  match pluginNames with
  | [] => (acc, count, pm)
  | pluginName :: rest =>
      let '(entry, pm') := loadOne env r pm pluginName options in
      loadEach env r pm' rest options (acc ++ [entry])
               (if e_success entry then S count else count)
  end.

(** [loadLocalPlugins(app, pluginNames, options)]; options left out are
    [{}]. *)
Definition loadLocalPlugins (env : Env) (r : PathResolver) (pm : PluginManager)
           (pluginNames : list string) (options : JsVal)
  : BatchResult * PluginManager :=
  let options := match options with JUndefined => JObj [] | _ => options end in
  let '(res, count, pm') := loadEach env r pm pluginNames options [] 0 in
  ({| successCount := count; batchTotal := length pluginNames; results := res |}, pm').

End WithApp.

End PluginManagerM.


(** ** ConfigurationManager *)

(** The three variables of [process.env] that the defaults read: a variable
    is a string, or is not set. *)
Record ProcessEnv := {
  env_PORT : option string;
  env_HOST : option string;
  env_LOG_LEVEL : option string
}.

(** [process.env.NAME] *)
Definition envVar (variable : option string) : JsVal :=
  match variable with
  | Some s => JStr s
  | None => JUndefined
  end.

Module ConfigurationManager.

Definition defaultCoreOrder : list JsVal :=
  [JStr "database"; JStr "auth"; JStr "cookie"; JStr "exception"; JStr "logger";
   JStr "request"; JStr "static"].

Definition getDefaultConfig (penv : ProcessEnv) : JsVal :=
  JObj [("server", JObj [("port", js_or (envVar (env_PORT penv)) (JNum 3002));
                         ("host", js_or (envVar (env_HOST penv)) (JStr "0.0.0.0"))]);
        ("logger", JObj [("level", js_or (envVar (env_LOG_LEVEL penv)) (JStr "info"))]);
        ("plugins", JObj [("coreOrder", JArr defaultCoreOrder);
                          ("npmPattern", JStr "fastify-multitenant-*")]);
        ("tenants", JObj [("npmPattern", JStr "fastify-multitenant-*");
                          ("maxConcurrent", JNum 50);
                          ("autoLoad", JBool true)]);
        ("security", JObj [("validateInputs", JBool true)])].

(** [new ConfigurationManager(overrides)]: the configuration it holds, or
    the error of the merge; overrides left out are [{}]. *)
Definition create (penv : ProcessEnv) (overrides : JsVal) : outcome JsVal :=
  Deepmerge.merge (getDefaultConfig penv)
    (match overrides with JUndefined => JObj [] | _ => overrides end).

(** [get(key)]; no key, or an empty one, gives the whole configuration. *)
Definition get (config : JsVal) (key : option string) : outcome JsVal :=
  match key with
  | Some k => if (k =? "")%string then Ok config else getprop config k
  | None => Ok config
  end.

(** [merge(overrides)]: the configuration after the call. *)
Definition merge (config : JsVal) (overrides : JsVal) : outcome JsVal :=
  Deepmerge.merge config overrides.

End ConfigurationManager.


(** ** MultiTenantServer: the tenant limit that [start] sets *)

Module ServerStart.

(** [this.configManager.merge(options); const config = this.configManager.get()],
    from the configuration the constructor left; options left out are
    [{}]. *)
Definition startConfig (config : JsVal) (options : JsVal) : outcome JsVal :=
  let* merged :=
    ConfigurationManager.merge config
      (match options with JUndefined => JObj [] | _ => options end) in
  ConfigurationManager.get merged None.

(** [config.tenants?.maxConcurrent || 50], the argument of
    [setMaxTenants]. *)
Definition tenantLimit (config : JsVal) : outcome JsVal :=
  let* tenantsSection := getprop config "tenants" in
  let* maxConcurrent :=
    match tenantsSection with
    | JUndefined | JNull => Ok JUndefined
    | _ => getprop tenantsSection "maxConcurrent"
    end in
  Ok (js_or maxConcurrent (JNum 50)).

Section WithFastify.

(** [Fastify({ logger: { transport, level }, trustProxy: true })]: whether
    the application is created for a level, or what the call throws. *)
Variable createApp : JsVal -> outcome unit.

(** [new MultiTenantServer(overrides)] followed by [start(options)], up to
    the call of [setMaxTenants]: the configuration is merged and read, the
    application is created with [config.logger.level], the managers are
    constructed, and the limit is set.  What throws on the way is thrown
    again by the [catch] of [start]. *)
Definition startLimit (penv : ProcessEnv) (overrides options : JsVal) : outcome JsVal :=
  let* config := ConfigurationManager.create penv overrides in
  let* config := startConfig config options in
  let* loggerSection := getprop config "logger" in
  let* level := getprop loggerSection "level" in
  let* _ := createApp level in
  tenantLimit config.

End WithFastify.

End ServerStart.

(** ** TenantManager: [loadAllTenants] *)

(** What [loadAllTenants] asks of the disk besides the world of [Env]: the
    dependencies of [package.json] that match a pattern, the entries of a
    directory and whether an entry is a directory. *)
Record Disk := {
  npmPluginNames : JsVal -> outcome (list string);
  readdir : string -> outcome (list string);
  isDirectory : string -> outcome bool
}.

Record LoadResults := {
  lr_local : nat;
  lr_npm : nat;
  lr_failed : nat
}.

Module LoadAll.

Definition countNpm (results : LoadResults) : LoadResults :=
  {| lr_local := lr_local results; lr_npm := S (lr_npm results);
     lr_failed := lr_failed results |}.

Definition countLocal (results : LoadResults) : LoadResults :=
  {| lr_local := S (lr_local results); lr_npm := lr_npm results;
     lr_failed := lr_failed results |}.

Definition countFailed (results : LoadResults) : LoadResults :=
  {| lr_local := lr_local results; lr_npm := lr_npm results;
     lr_failed := S (lr_failed results) |}.

(** One turn of the loop over the package names. *)
Definition loadNpmTenant (env : Env) (st : LoadResults * TenantManager)
           (packageName : string) : LoadResults * TenantManager :=
  let '(results, m) := st in
  match TenantManagerM.loadTenant env m (JStr packageName) JNull with
  | (Some _, m') => (countNpm results, m')
  | (None, m') => (countFailed results, m')
  end.

(** One turn of the loop over the tenant directories. *)
Definition loadLocalTenant (env : Env) (disk : Disk) (tenantsPath : string)
           (st : LoadResults * TenantManager) (tenantId : string)
  : LoadResults * TenantManager :=
  let '(results, m) := st in
  let tenantDirPath := PathJoin.join [tenantsPath; tenantId] in
  match isDirectory disk tenantDirPath with
  | Throw _ => (countFailed results, m)
  | Ok false => (results, m)
  | Ok true =>
      match TenantManagerM.loadTenant env m (JStr tenantDirPath) (JStr tenantId) with
      | (Some _, m') => (countLocal results, m')
      | (None, m') => (countFailed results, m')
      end
  end.

Definition hiddenEntry (dir : string) : bool := String.prefix "." dir.

(** [config.tenants?.npmPattern] *)
Definition npmPattern (config : JsVal) : outcome JsVal :=
  let* tenantsSection := getprop config "tenants" in
  match tenantsSection with
  | JUndefined | JNull => Ok JUndefined
  | _ => getprop tenantsSection "npmPattern"
  end.

Definition loadNpmTenants (env : Env) (disk : Disk) (pattern : JsVal)
           (st : LoadResults * TenantManager) : LoadResults * TenantManager :=
  if truthy pattern then
    match npmPluginNames disk pattern with
    | Ok npmPackageNames => fold_left (loadNpmTenant env) npmPackageNames st
    | Throw _ => st
    end
  else st.

Definition loadLocalTenants (env : Env) (disk : Disk)
           (st : LoadResults * TenantManager) : LoadResults * TenantManager :=
  let tenantsPath := PathJoin.join [baseDir (pathResolver (snd st)); "tenants"] in
  if ResourceLoader.pathExists env (pathResolver (snd st)) tenantsPath noOptions then
    match readdir disk tenantsPath with
    | Ok entries =>
        let tenantDirs := List.filter (fun dir => negb (hiddenEntry dir)) entries in
        fold_left (loadLocalTenant env disk tenantsPath) tenantDirs st
    | Throw _ => st
    end
  else st.

(** [loadAllTenants(app, config)]: whether a tenant was loaded, and the
    manager it leaves; reading the pattern off a missing [config] throws. *)
Definition loadAllTenants (env : Env) (disk : Disk) (m : TenantManager)
           (config : JsVal) : outcome bool * TenantManager :=
  match npmPattern config with
  | Throw e => (Throw e, m)
  | Ok pattern =>
      let loadResults := {| lr_local := 0; lr_npm := 0; lr_failed := 0 |} in
      let st := loadNpmTenants env disk pattern (loadResults, m) in
      let '(loadResults, m') := loadLocalTenants env disk st in
      let totalLoaded := lr_local loadResults + lr_npm loadResults in
      (Ok (0 <? totalLoaded), m')
  end.

End LoadAll.

(** What holds of the counters and the manager in the course of
    [loadAllTenants], started from the manager [m]. *)
Definition loadedSince (env : Env) (m : TenantManager)
           (st : LoadResults * TenantManager) : Prop :=
  let registry := tenantRegistry (snd st) in
  let totalLoaded := lr_local (fst st) + lr_npm (fst st) in
  ManagerRuns.wellFormed registry
  /\ maxTenants registry = maxTenants (tenantRegistry m)
  /\ (forall key, is_Some (tenants (tenantRegistry m) !! key) ->
                  is_Some (tenants registry !! key))
  /\ (0 < totalLoaded ->
      exists ctx, tenants registry !! id ctx = Some ctx /\ createdAt ctx = now env)
  /\ (totalLoaded = 0 -> registry = tenantRegistry m).

(** ** Objects that a clone leaves as they are *)

(** No key is a name of [Object.prototype], and every value is its own
    clone. *)
Definition cleanProps (fs : list (string * JsVal)) : Prop :=
  Forall (fun kv => Deepmerge.named Deepmerge.objectPrototypeKeys kv.1 = false
                    /\ Deepmerge.clone kv.2 = kv.2) fs.

(** ** Config files, as [loadConfig] reads them *)

(** A config file exports a plain object. *)
Definition exportsObject (env : Env) (file : string) : Prop :=
  forall v, ResourceLoader.readConfigFile env file = Ok v ->
            exists s, v = JObj s /\ NoDup s.*1.

(** The file does not set the key. *)
Definition leavesKey (env : Env) (k : string) (file : string) : Prop :=
  forall s, ResourceLoader.readConfigFile env file = Ok (JObj s) -> assoc_get k s = None.

(** * Properties *)

(** ** Strings *)

Lemma str_filter_length f s :
  String.length (SecurityValidator.str_filter f s) <= String.length s.
Proof.
  induction s as [|c s IH]; simpl; [lia|].
  destruct (f c); simpl; lia.
Qed.

Lemma str_filter_fixed f s :
  SecurityValidator.str_filter f s = s <-> SecurityValidator.str_forallb f s = true.
Proof.
  induction s as [|c s IH]; simpl; [tauto|].
  destruct (f c) eqn:Hc; simpl.
  - rewrite <- IH. split; [congruence | intros ->; reflexivity].
  - split; [|discriminate].
    intros H. pose proof (str_filter_length f s) as Hlen.
    rewrite H in Hlen. simpl in Hlen. lia.
Qed.

Lemma string_length_zero s : String.length s = 0 <-> s = "".
Proof. destruct s; simpl; split; congruence || lia. Qed.

(** ** SecurityValidator *)

Lemma validateTenantId_Ok_iff v s :
  SecurityValidator.validateTenantId v = Ok s <->
  v = JStr s /\ s <> "" /\ SecurityValidator.str_forallb SecurityValidator.allowed_char s = true.
Proof.
  unfold SecurityValidator.validateTenantId.
  destruct v as [| |b|n|t|l|fs|nm fs]; try (split; [discriminate | intros [? _]; discriminate]).
  simpl. destruct (String.eqb_spec t "") as [->|Hne]; simpl.
  - split; [discriminate|]. intros (H & Hn & _). congruence.
  - destruct (String.eqb_spec (SecurityValidator.str_filter SecurityValidator.allowed_char t) t)
      as [Heq|Hneq]; simpl.
    + rewrite Heq.
      destruct (Nat.eqb_spec (String.length t) 0) as [H0|H0].
      * apply string_length_zero in H0. contradiction.
      * apply str_filter_fixed in Heq.
        split.
        -- intros [= <-]. auto.
        -- intros ([= <-] & _ & _). reflexivity.
    + split; [discriminate|].
      intros ([= <-] & _ & Hall). apply str_filter_fixed in Hall. contradiction.
Qed.

Lemma validateTenantId_total v :
  (exists s, SecurityValidator.validateTenantId v = Ok s) \/
  (exists e, SecurityValidator.validateTenantId v = Throw e).
Proof. destruct (SecurityValidator.validateTenantId v); eauto. Qed.

(** ** TenantFactory and TenantManager: what a call can do to the registry *)

Lemma probe_select env candidates r source cid :
  TenantFactory.probe env candidates r source cid =
  match selectAdapter candidates r source with
  | Some (adapter, r') =>
      let '(res, r'') := TenantFactory.buildTenant env adapter r' source cid in
      (Ok res, r'')
  | None =>
      (Throw (NoAdapterFound (JStr source)),
       fold_left (fun r a => snd (canHandle a r source)) candidates r)
  end.
Proof.
  revert r. induction candidates as [|a rest IH]; intros r; simpl; [reflexivity|].
  destruct (canHandle a r source) as [handles r'] eqn:Hc; simpl.
  destruct handles; [reflexivity|]. apply IH.
Qed.

Lemma buildTenant_unfold env adapter r source cid :
  TenantFactory.buildTenant env adapter r source cid =
  let tenantId := TenantFactory.determineTenantId (getType adapter) source cid in
  let cr := mergedConfig adapter r source cid in
  (match TenantFactory.buildFromConfig env adapter (snd cr) tenantId (fst cr) with
   | Ok res => res
   | Throw _ => None
   end, snd cr).
Proof.
  unfold TenantFactory.buildTenant, mergedConfig.
  destruct (loadConfig adapter r source _) as [cfg r']; simpl.
  destruct (TenantFactory.buildFromConfig env adapter r' _ cfg); reflexivity.
Qed.

(** A [loadTenant] that returns [null] leaves the registry as it was. *)
Lemma loadTenant_null_registry env m source cid :
  fst (TenantManagerM.loadTenant env m source cid) = None ->
  tenantRegistry (snd (TenantManagerM.loadTenant env m source cid)) = tenantRegistry m.
Proof.
  unfold TenantManagerM.loadTenant.
  destruct (TenantFactory.createTenant env (pathResolver m) source cid) as [created r'].
  destruct created as [[tenant|]|e]; simpl; try reflexivity.
  unfold TenantRegistryM.register.
  destruct (maxTenants (tenantRegistry m) <=? size (tenants (tenantRegistry m)));
    simpl; [reflexivity | discriminate].
Qed.

(** [loadTenant] on a source an adapter handles, in terms of what that
    adapter builds. *)
Lemma loadTenant_selected env m s cid adapter r' :
  selectAdapter (TenantFactory.adapters env) (pathResolver m) s = Some (adapter, r') ->
  TenantManagerM.loadTenant env m (JStr s) cid =
  match TenantFactory.buildTenant env adapter r' s cid with
  | (Some tenant, r'') =>
      match TenantRegistryM.register (tenantRegistry m) tenant with
      | (Ok _, reg') => (Some tenant, {| pathResolver := r''; tenantRegistry := reg' |})
      | (Throw _, reg') => (None, {| pathResolver := r''; tenantRegistry := reg' |})
      end
  | (None, r'') => (None, {| pathResolver := r''; tenantRegistry := tenantRegistry m |})
  end.
Proof.
  intros Hsel. unfold TenantManagerM.loadTenant, TenantFactory.createTenant.
  rewrite probe_select, Hsel.
  destruct (TenantFactory.buildTenant env adapter r' s cid) as [[tenant|] r'']; reflexivity.
Qed.

Lemma buildFromConfig_invalid_id env adapter r tenantId cfg name e :
  getprop cfg "name" = Ok name ->
  SecurityValidator.validateTenantId (js_or name tenantId) = Throw e ->
  forall ctx, TenantFactory.buildFromConfig env adapter r tenantId cfg <> Ok (Some ctx).
Proof.
  intros Hname Hval ctx. unfold TenantFactory.buildFromConfig.
  destruct (getprop cfg "active") as [a|]; [|discriminate].
  destruct (truthy a); simpl; [|discriminate].
  rewrite Hname. unfold TenantContextM.create. rewrite Hval. discriminate.
Qed.

(** C3: [validateTenantId] hands back a non-empty string made of
    [A-Za-z0-9_-] only, unchanged, and throws on every other value (not a
    string, empty, or with a character that stripping would remove); when
    the id of a tenant under construction fails the validation, [loadTenant]
    returns [null] and the registry is the one it started from. *)
Theorem validateTenantId_spec :
  (forall s, s <> "" ->
     SecurityValidator.str_forallb SecurityValidator.allowed_char s = true ->
     SecurityValidator.validateTenantId (JStr s) = Ok s)
  /\ (forall v,
        ~ (exists s, v = JStr s /\ s <> "" /\
             SecurityValidator.str_forallb SecurityValidator.allowed_char s = true) ->
        exists e, SecurityValidator.validateTenantId v = Throw e)
  /\ (forall s, SecurityValidator.str_filter SecurityValidator.allowed_char s <> s \/
                SecurityValidator.str_filter SecurityValidator.allowed_char s = "" ->
        exists e, SecurityValidator.validateTenantId (JStr s) = Throw e)
  /\ (forall env m s cid adapter r' name e,
        selectAdapter (TenantFactory.adapters env) (pathResolver m) s = Some (adapter, r') ->
        getprop (fst (mergedConfig adapter r' s cid)) "name" = Ok name ->
        SecurityValidator.validateTenantId
          (js_or name (TenantFactory.determineTenantId (getType adapter) s cid)) = Throw e ->
        fst (TenantManagerM.loadTenant env m (JStr s) cid) = None /\
        tenantRegistry (snd (TenantManagerM.loadTenant env m (JStr s) cid)) = tenantRegistry m).
Proof.
  assert (Hthrow : forall v,
    ~ (exists s, v = JStr s /\ s <> "" /\
         SecurityValidator.str_forallb SecurityValidator.allowed_char s = true) ->
    exists e, SecurityValidator.validateTenantId v = Throw e).
  { intros v Hnot. destruct (validateTenantId_total v) as [[s Hs]|He]; [|exact He].
    apply validateTenantId_Ok_iff in Hs. exfalso. apply Hnot. eauto. }
  split; [|split; [exact Hthrow|split]].
  - intros s Hne Hall. apply validateTenantId_Ok_iff. auto.
  - intros s Hs. apply Hthrow. intros (s' & [= <-] & Hne & Hall).
    apply str_filter_fixed in Hall. destruct Hs as [Hs|Hs]; congruence.
  - intros env m s cid adapter r' name e Hsel Hname Hval.
    assert (Hnone : fst (TenantManagerM.loadTenant env m (JStr s) cid) = None).
    { rewrite (loadTenant_selected _ _ _ _ _ _ Hsel), buildTenant_unfold. simpl.
      pose proof (buildFromConfig_invalid_id env adapter
                    (snd (mergedConfig adapter r' s cid)) _ _ _ _ Hname Hval) as Hb.
      destruct (TenantFactory.buildFromConfig env adapter _ _ _) as [[ctx|]|];
        try reflexivity.
      exfalso. exact (Hb ctx eq_refl). }
    split; [exact Hnone|]. apply loadTenant_null_registry, Hnone.
Qed.

(** ** MultiSourceTenantStrategy *)

(** The regular expressions of the code and the words of the
    specification: the group of [/^([^.]+)\./] is the subdomain, the group
    of [/^\/([^/]+)/] is the first segment. *)
Lemma span_index stop s :
  MultiSourceTenantStrategy.span stop s
  = match String.index 0 (String stop "") s with
    | Some n => (substring 0 n s, true)
    | None => (s, false)
    end.
Proof.
  induction s as [|a s IH]; [reflexivity|].
  cbn [MultiSourceTenantStrategy.span String.index String.prefix].
  destruct (Ascii.eqb_spec a stop) as [->|Hne].
  - destruct (ascii_dec stop stop) as [_|Hn]; [|congruence].
    destruct s; reflexivity.
  - destruct (ascii_dec stop a) as [He|_]; [congruence|].
    rewrite IH. destruct (String.index 0 (String stop "") s); reflexivity.
Qed.

Lemma hostnameMatch_subdomain host :
  MultiSourceTenantStrategy.hostnameMatch host = CompositeSpec.subdomain host.
Proof.
  unfold MultiSourceTenantStrategy.hostnameMatch, CompositeSpec.subdomain.
  rewrite span_index.
  destruct (String.index 0 "." host) as [[|n]|] eqn:Hi; [| |reflexivity].
  - destruct host; reflexivity.
  - destruct host as [|a host]; [discriminate Hi|]. reflexivity.
Qed.

Lemma substring_all s : substring 0 (String.length s) s = s.
Proof. induction s as [|a s IH]; [reflexivity|]. cbn [String.length substring]. now f_equal. Qed.

Lemma pathMatch_firstSegment path :
  MultiSourceTenantStrategy.pathMatch path = CompositeSpec.firstSegment path.
Proof.
  unfold MultiSourceTenantStrategy.pathMatch, CompositeSpec.firstSegment.
  destruct path as [|c rest]; [reflexivity|].
  cbn [String.prefix String.length]. rewrite Nat.sub_succ, Nat.sub_0_r.
  change (substring 1 (String.length rest) (String c rest))
    with (substring 0 (String.length rest) rest).
  rewrite substring_all.
  destruct (Ascii.eqb_spec c "/") as [->|Hne].
  - destruct (ascii_dec "/" "/") as [_|Hn]; [|congruence].
    rewrite span_index.
    assert (Hp : String.prefix "" rest = true) by (destruct rest; reflexivity).
    rewrite Hp.
    destruct (String.index 0 "/" rest) as [n|];
      match goal with |- context [decide (?seg = "")] =>
        destruct (decide (seg = "")) as [->|Hseg];
        [reflexivity | apply String.eqb_neq in Hseg; rewrite Hseg; reflexivity]
      end.
  - destruct (ascii_dec "/" c) as [He|_]; [congruence | reflexivity].
Qed.

Lemma reserved_segments segment :
  MultiSourceTenantStrategy.reserved segment
  = bool_decide (segment ∈ CompositeSpec.reservedSegments).
Proof.
  unfold MultiSourceTenantStrategy.reserved, CompositeSpec.reservedSegments.
  destruct (String.eqb_spec segment "api") as [->|Hapi].
  { symmetry. apply bool_decide_eq_true_2. repeat constructor. }
  destruct (String.eqb_spec segment "health") as [->|Hhealth].
  { symmetry. apply bool_decide_eq_true_2. repeat constructor. }
  symmetry. apply bool_decide_eq_false_2.
  apply not_elem_of_cons. split; [exact Hapi|].
  apply not_elem_of_cons. split; [exact Hhealth|]. apply not_elem_of_nil.
Qed.

(** The code and the composite of the specification agree on every request. *)
Lemma extractTenantId_composite request :
  MultiSourceTenantStrategy.extractTenantId request = CompositeSpec.composite request.
Proof.
  unfold MultiSourceTenantStrategy.extractTenantId,
    MultiSourceTenantStrategy.extractTenantId_try, CompositeSpec.composite.
  cbn [CompositeSpec.firstCandidate CompositeSpec.subStrategies].
  unfold CompositeSpec.hostnameStrategy, CompositeSpec.urlStrategy,
    CompositeSpec.headerStrategy, MultiSourceTenantStrategy.fromHeader.
  assert (Hhost : hostname request ≫= MultiSourceTenantStrategy.hostnameMatch
                  = hostname request ≫= CompositeSpec.subdomain).
  { destruct (hostname request); [apply hostnameMatch_subdomain | reflexivity]. }
  assert (Hurl : url request ≫= MultiSourceTenantStrategy.pathMatch
                 = url request ≫= CompositeSpec.firstSegment).
  { destruct (url request); [apply pathMatch_firstSegment | reflexivity]. }
  rewrite Hhost, Hurl.
  destruct (hostname request ≫= CompositeSpec.subdomain) as [label|];
    cbn [fmap option_fmap option_map]; [reflexivity|].
  destruct (url request ≫= CompositeSpec.firstSegment) as [segment|].
  - rewrite reserved_segments.
    destruct (decide (segment ∈ CompositeSpec.reservedSegments)) as [Hin|Hout].
    + rewrite bool_decide_eq_true_2 by exact Hin. cbn [negb].
      destruct (getprop (headers request) "x-tenant-id") as [h|]; [|reflexivity].
      destruct (truthy h); reflexivity.
    + rewrite bool_decide_eq_false_2 by exact Hout. reflexivity.
  - destruct (getprop (headers request) "x-tenant-id") as [h|]; [|reflexivity].
    destruct (truthy h); reflexivity.
Qed.

(** C8, as the code has it: [extractTenantId] is the composite of the three
    sub-strategies in the order hostname subdomain, first URL segment other
    than "api" and "health", [x-tenant-id] header: it returns the first
    candidate once the validator accepts it, and the default id when the
    validator refuses it or when no sub-strategy has a candidate.  The
    segment of "/health" is never a candidate: such a request is answered
    as if it had no URL, and gets the default id when neither its hostname
    nor its header gives a candidate. *)
Theorem extractTenantId_first_candidate :
  (forall request,
     MultiSourceTenantStrategy.extractTenantId request = CompositeSpec.composite request)
  /\ (forall request c tenantId,
        CompositeSpec.firstCandidate CompositeSpec.subStrategies request = Some c ->
        SecurityValidator.validateTenantId c = Ok tenantId ->
        c = JStr tenantId /\
        MultiSourceTenantStrategy.extractTenantId request = tenantId)
  /\ (forall request c e,
        CompositeSpec.firstCandidate CompositeSpec.subStrategies request = Some c ->
        SecurityValidator.validateTenantId c = Throw e ->
        MultiSourceTenantStrategy.extractTenantId request = "default-tenant")
  /\ (forall request,
        CompositeSpec.firstCandidate CompositeSpec.subStrategies request = None ->
        MultiSourceTenantStrategy.extractTenantId request = "default-tenant")
  /\ (forall request,
        url request = Some "/health" ->
        CompositeSpec.urlStrategy request = None
        /\ MultiSourceTenantStrategy.extractTenantId request
           = MultiSourceTenantStrategy.extractTenantId
               {| hostname := hostname request; url := None; headers := headers request |}
        /\ (CompositeSpec.hostnameStrategy request = None ->
            CompositeSpec.headerStrategy request = None ->
            MultiSourceTenantStrategy.extractTenantId request = "default-tenant")).
Proof.
  split; [exact extractTenantId_composite|split; [|split; [|split]]].
  - intros request c tenantId Hc Hv. split.
    + apply validateTenantId_Ok_iff in Hv. tauto.
    + rewrite extractTenantId_composite. unfold CompositeSpec.composite.
      rewrite Hc, Hv. reflexivity.
  - intros request c e Hc Hv. rewrite extractTenantId_composite.
    unfold CompositeSpec.composite. rewrite Hc, Hv. reflexivity.
  - intros request Hc. rewrite extractTenantId_composite.
    unfold CompositeSpec.composite. rewrite Hc. reflexivity.
  - intros request Hurl.
    assert (Hu : CompositeSpec.urlStrategy request = None).
    { unfold CompositeSpec.urlStrategy. rewrite Hurl. reflexivity. }
    split; [exact Hu|]. split.
    + rewrite !extractTenantId_composite. unfold CompositeSpec.composite.
      cbn [CompositeSpec.firstCandidate CompositeSpec.subStrategies]. rewrite Hu.
      reflexivity.
    + intros Hh Hhd.
      rewrite extractTenantId_composite. unfold CompositeSpec.composite.
      cbn [CompositeSpec.firstCandidate CompositeSpec.subStrategies].
      rewrite Hh, Hu, Hhd. reflexivity.
Qed.

Lemma extractTenantId_first_candidate_witness :
  MultiSourceTenantStrategy.extractTenantId
    {| hostname := Some "acme.example.com"; url := Some "/other/users";
       headers := JObj [("x-tenant-id", JStr "third")] |}
  = "acme"
  /\ MultiSourceTenantStrategy.extractTenantId
       {| hostname := Some "localhost"; url := Some "/other/users";
          headers := JObj [("x-tenant-id", JStr "third")] |}
     = "other"
  /\ MultiSourceTenantStrategy.extractTenantId
       {| hostname := Some "localhost"; url := Some "/api/users";
          headers := JObj [("x-tenant-id", JStr "third")] |}
     = "third"
  /\ MultiSourceTenantStrategy.extractTenantId
       {| hostname := Some "localhost"; url := Some "/health"; headers := JObj [] |}
     = "default-tenant".
Proof.
  destruct extractTenantId_first_candidate as (_ & Hfirst & _ & _ & Hhealth).
  split; [|split; [|split]].
  - apply (Hfirst _ (JStr "acme") "acme"); reflexivity.
  - apply (Hfirst _ (JStr "other") "other"); reflexivity.
  - apply (Hfirst _ (JStr "third") "third"); reflexivity.
  - apply Hhealth; reflexivity.
Defined.

(** The claim of C8 as it is worded fails for a request to "/health" whose
    header names a tenant: it gets that tenant, not the default id. *)
Lemma extractTenantId_health_with_header :
  MultiSourceTenantStrategy.extractTenantId
    {| hostname := Some "localhost"; url := Some "/health";
       headers := JObj [("x-tenant-id", JStr "acme")] |}
  = "acme"
  /\ "acme" <> "default-tenant".
Proof. split; [reflexivity | discriminate]. Qed.

(** C10: when the first candidate fails the validation the result is the
    default id at once; a hostname label with a character outside
    [A-Za-z0-9_-] gives the default id whatever the headers hold. *)
Theorem extractTenantId_invalid_candidate_default :
  (forall request c e,
     CompositeSpec.firstCandidate CompositeSpec.subStrategies request = Some c ->
     SecurityValidator.validateTenantId c = Throw e ->
     MultiSourceTenantStrategy.extractTenantId request = "default-tenant")
  /\ (forall request label anyHeaders,
        hostname request ≫= MultiSourceTenantStrategy.hostnameMatch = Some label ->
        SecurityValidator.str_forallb SecurityValidator.allowed_char label = false ->
        MultiSourceTenantStrategy.extractTenantId
          {| hostname := hostname request; url := url request; headers := anyHeaders |}
        = "default-tenant").
Proof.
  split.
  - intros request c e Hc Hv. rewrite extractTenantId_composite.
    unfold CompositeSpec.composite. rewrite Hc, Hv. reflexivity.
  - intros request label anyHeaders Hh Hbad.
    unfold MultiSourceTenantStrategy.extractTenantId,
      MultiSourceTenantStrategy.extractTenantId_try. cbn [hostname]. rewrite Hh.
    destruct (validateTenantId_total (JStr label)) as [[s Hs]|[e He]].
    + apply validateTenantId_Ok_iff in Hs. destruct Hs as ([= <-] & _ & Hall).
      congruence.
    + rewrite He. reflexivity.
Qed.

Lemma extractTenantId_invalid_candidate_default_witness :
  MultiSourceTenantStrategy.extractTenantId
    {| hostname := Some "bad!name.example.com"; url := Some "/";
       headers := JObj [("x-tenant-id", JStr "acme")] |}
  = "default-tenant"
  /\ SecurityValidator.validateTenantId (JStr "acme") = Ok "acme".
Proof.
  split; [|reflexivity].
  apply (proj2 extractTenantId_invalid_candidate_default
           {| hostname := Some "bad!name.example.com"; url := Some "/";
              headers := JUndefined |} "bad!name");
    reflexivity.
Defined.

(** ** PathResolver *)

(** What [resolvePath] does with a relative path: the guard is a test on
    string prefixes. *)
Lemma resolvePath_relative cwd r p options :
  Path.isAbsolute p = false ->
  PathResolverM.resolvePath cwd r p options =
  let resolved := Path.resolve cwd [baseDir r; p] in
  if String.prefix (baseDir r) resolved || PathResolverM.isTrustedPath cwd r resolved
  then Ok resolved
  else Throw (PathTraversal p).
Proof.
  intros Hrel. unfold PathResolverM.resolvePath. rewrite Hrel. cbv zeta.
  destruct (String.prefix (baseDir r) (Path.resolve cwd [baseDir r; p]));
    cbn [negb andb orb]; [reflexivity|].
  destruct (PathResolverM.isTrustedPath cwd r (Path.resolve cwd [baseDir r; p]));
    reflexivity.
Qed.

(** C1, at the input where the code leaves the claim: with base root
    [/srv/app] and no trusted root, the relative path
    "../app-backup/secrets.json" resolves to a sibling directory, outside the
    base root and outside every trusted root, and [resolvePath] returns it
    instead of throwing, while "../../etc/passwd" is refused. *)
Theorem resolvePath_sibling_prefix_returned :
  baseDir Sample.resolver = "/srv/app"
  /\ trustedPackagePaths Sample.resolver = []
  /\ Path.isAbsolute "../app-backup/secrets.json" = false
  /\ PathResolverM.resolvePath Sample.cwd Sample.resolver
       "../app-backup/secrets.json" noOptions
     = Ok "/srv/app-backup/secrets.json"
  /\ Path.within "/srv/app" "/srv/app-backup/secrets.json" = false
  /\ PathResolverM.isTrustedPath Sample.cwd Sample.resolver
       "/srv/app-backup/secrets.json" = false
  /\ PathResolverM.resolvePath Sample.cwd Sample.resolver "../../etc/passwd" noOptions
     = Throw (PathTraversal "../../etc/passwd").
Proof. repeat split; vm_compute; reflexivity. Qed.

(** C9: an absolute path comes back unchanged from [resolvePath], for every
    resolver state and every options value; only a relative path can be
    refused, and the trusted roots play no part in the answer for an
    absolute one. *)
Theorem resolvePath_absolute_passthrough :
  forall cwd r p options,
    Path.isAbsolute p = true ->
    PathResolverM.resolvePath cwd r p options = Ok p
    /\ (forall r' options', PathResolverM.resolvePath cwd r' p options' = Ok p)
    /\ (forall q e, PathResolverM.resolvePath cwd r q options = Throw e ->
                    Path.isAbsolute q = false /\ e = PathTraversal q).
Proof.
  intros cwd r p options Habs.
  assert (Hpass : forall r' options', PathResolverM.resolvePath cwd r' p options' = Ok p).
  { intros r' options'. unfold PathResolverM.resolvePath. rewrite Habs.
    destruct (truthy (allowTrusted options') && PathResolverM.isTrustedPath cwd r' p);
      reflexivity. }
  split; [apply Hpass|split; [exact Hpass|]].
  intros q e Hq. unfold PathResolverM.resolvePath in Hq.
  destruct (Path.isAbsolute q).
  - destruct (truthy (allowTrusted options) && PathResolverM.isTrustedPath cwd r q);
      discriminate.
  - split; [reflexivity|].
    destruct (negb _ && negb _); [congruence | discriminate].
Qed.

Lemma resolvePath_absolute_passthrough_witness :
  PathResolverM.resolvePath Sample.cwd Sample.resolver "/etc/passwd"
    {| allowTrusted := JBool true |} = Ok "/etc/passwd".
Proof.
  exact (proj1 (resolvePath_absolute_passthrough Sample.cwd Sample.resolver
                  "/etc/passwd" {| allowTrusted := JBool true |} eq_refl)).
Defined.

(** *** What the prefix guard of [resolvePath] lets through *)

#[local] Arguments Ascii.eqb : simpl never.

Lemma slashFree_cons c seg :
  Path.slashFree (String c seg) = negb (c =? Path.slash)%char && Path.slashFree seg.
Proof. reflexivity. Qed.

Lemma split_slashFree seg : Path.slashFree seg = true -> Path.split seg = [seg].
Proof.
  induction seg as [|c seg IH]; [reflexivity|].
  rewrite slashFree_cons. simpl.
  intros H. apply andb_prop in H. destruct H as [Hc Hseg].
  apply negb_true_iff in Hc. rewrite Hc, (IH Hseg). reflexivity.
Qed.

Lemma split_append_slash seg rest :
  Path.slashFree seg = true ->
  Path.split (seg +:+ "/" +:+ rest) = seg :: Path.split rest.
Proof.
  induction seg as [|c seg IH]; [reflexivity|].
  rewrite slashFree_cons. simpl.
  intros H. apply andb_prop in H. destruct H as [Hc Hseg].
  apply negb_true_iff in Hc. rewrite Hc, (IH Hseg). reflexivity.
Qed.

Lemma split_all_slashFree s : Forall (fun seg => Path.slashFree seg = true) (Path.split s).
Proof.
  induction s as [|c s IH]; simpl.
  - repeat constructor.
  - destruct (Ascii.eqb_spec c Path.slash) as [->|Hne].
    + constructor; [reflexivity | exact IH].
    + apply Ascii.eqb_neq in Hne.
      destruct (Path.split s) as [|seg segs].
      * repeat constructor. rewrite slashFree_cons, Hne. reflexivity.
      * inversion IH; subst. constructor; [|assumption].
        rewrite slashFree_cons, Hne. simpl. assumption.
Qed.

Lemma split_join segs :
  segs <> [] -> Forall (fun seg => Path.slashFree seg = true) segs ->
  Path.split (Path.join segs) = segs.
Proof.
  induction segs as [|seg segs IH]; [congruence|].
  intros _ Hall. inversion Hall as [|? ? Hseg Hrest]; subst.
  destruct segs as [|seg' segs'].
  - simpl. apply split_slashFree, Hseg.
  - change (Path.join (seg :: seg' :: segs'))
      with (seg +:+ "/" +:+ Path.join (seg' :: segs')).
    rewrite (split_append_slash _ _ Hseg), IH; [reflexivity | discriminate | exact Hrest].
Qed.

Lemma normalize_kept segs : forall stack,
  Forall Path.kept stack ->
  Forall (fun seg => Path.slashFree seg = true) segs ->
  Forall Path.kept (Path.normalize stack segs).
Proof.
  induction segs as [|seg segs IH]; intros stack Hstack Hsegs; simpl.
  - apply Forall_rev, Hstack.
  - inversion Hsegs as [|? ? Hseg Hrest]; subst.
    destruct (String.eqb_spec seg "") as [->|Hne]; simpl; [apply IH; assumption|].
    destruct (String.eqb_spec seg ".") as [->|Hdot]; simpl; [apply IH; assumption|].
    destruct (String.eqb_spec seg "..") as [->|Hdots].
    + apply IH; [|assumption]. destruct stack; simpl; [constructor|].
      inversion Hstack; assumption.
    + apply IH; [|assumption]. constructor; [|assumption]. repeat split; assumption.
Qed.

Lemma normalize_of_kept segs : forall stack,
  Forall Path.kept segs -> Path.normalize stack segs = rev stack ++ segs.
Proof.
  induction segs as [|seg segs IH]; intros stack Hall; simpl.
  - rewrite app_nil_r. reflexivity.
  - inversion Hall as [|? ? (Hfree & Hne & Hdot & Hdots) Hrest]; subst.
    apply String.eqb_neq in Hne, Hdot, Hdots. rewrite Hne, Hdot, Hdots. simpl.
    rewrite (IH _ Hrest). simpl. rewrite <- app_assoc. reflexivity.
Qed.

Lemma normalize_split_rooted segs :
  Forall Path.kept segs ->
  Path.normalize [] (Path.split ("/" +:+ Path.join segs)) = segs.
Proof.
  intros Hall. change (Path.split ("/" +:+ Path.join segs))
    with ("" :: Path.split (Path.join segs)).
  change (Path.normalize [] ("" :: Path.split (Path.join segs)))
    with (Path.normalize [] (Path.split (Path.join segs))).
  destruct segs as [|seg segs']; [reflexivity|].
  rewrite split_join.
  - apply (normalize_of_kept _ [] Hall).
  - discriminate.
  - eapply Forall_impl; [exact Hall|]. intros x Hx. apply Hx.
Qed.

Lemma prefix_append s t : String.prefix s (s +:+ t) = true.
Proof.
  induction s as [|c s IH]; simpl; [destruct t; reflexivity|].
  destruct (ascii_dec c c); [exact IH | congruence].
Qed.

Lemma prefix_empty t : String.prefix "" t = true.
Proof. destruct t; reflexivity. Qed.

Lemma prefix_refl s : String.prefix s s = true.
Proof.
  induction s as [|c s IH]; simpl; [reflexivity|].
  destruct (ascii_dec c c); [exact IH | congruence].
Qed.

Lemma string_append_assoc a b c : (a +:+ b) +:+ c = a +:+ (b +:+ c).
Proof.
  induction a as [|x a IH]; [reflexivity|].
  change (String x ((a +:+ b) +:+ c) = String x (a +:+ (b +:+ c))).
  f_equal. exact IH.
Qed.

Lemma join_app segs rest :
  segs <> [] -> rest <> [] ->
  Path.join (segs ++ rest) = Path.join segs +:+ "/" +:+ Path.join rest.
Proof.
  induction segs as [|seg segs IH]; [congruence|]. intros _ Hrest.
  destruct segs as [|seg' segs'].
  - simpl. destruct rest; [congruence | reflexivity].
  - change (Path.join ((seg :: seg' :: segs') ++ rest))
      with (seg +:+ "/" +:+ Path.join ((seg' :: segs') ++ rest)).
    rewrite IH; [|discriminate|exact Hrest].
    change (Path.join (seg :: seg' :: segs'))
      with (seg +:+ "/" +:+ Path.join (seg' :: segs')).
    rewrite !string_append_assoc. reflexivity.
Qed.

Lemma resolve_kept cwd paths :
  exists segs, Forall Path.kept segs /\ Path.resolve cwd paths = "/" +:+ Path.join segs.
Proof.
  eexists. split; [|reflexivity].
  apply normalize_kept; [constructor | apply split_all_slashFree].
Qed.

(** A path inside the base root begins with the base root. *)
Lemma within_prefix base p :
  Forall Path.kept base -> Forall Path.kept p ->
  Path.within ("/" +:+ Path.join base) ("/" +:+ Path.join p) = true ->
  String.prefix ("/" +:+ Path.join base) ("/" +:+ Path.join p) = true.
Proof.
  intros Hbase Hp. unfold Path.within.
  rewrite !normalize_split_rooted by assumption.
  intros Hin. apply bool_decide_eq_true in Hin.
  rewrite <- (take_drop (length base) p), Hin.
  change (String.prefix (Path.join base) (Path.join (base ++ drop (length base) p)) = true).
  destruct base as [|b base'].
  - apply prefix_empty.
  - destruct (drop (length (b :: base')) p) as [|d rest].
    + rewrite app_nil_r. apply prefix_refl.
    + rewrite join_app by discriminate. apply prefix_append.
Qed.

(** [resolvePath] never refuses a relative path that resolves inside the
    base root: when it throws, the resolved path lies outside the base root
    and begins with no trusted root. *)
Lemma resolvePath_throw_outside cwd r dir p options e :
  baseDir r = Path.resolve cwd [dir] ->
  PathResolverM.resolvePath cwd r p options = Throw e ->
  Path.isAbsolute p = false
  /\ Path.within (baseDir r) (Path.resolve cwd [baseDir r; p]) = false
  /\ PathResolverM.isTrustedPath cwd r (Path.resolve cwd [baseDir r; p]) = false.
Proof.
  intros Hbase Hthrow.
  destruct (Path.isAbsolute p) eqn:Habs.
  { unfold PathResolverM.resolvePath in Hthrow. rewrite Habs in Hthrow.
    destruct (truthy (allowTrusted options) && PathResolverM.isTrustedPath cwd r p);
      discriminate. }
  split; [reflexivity|].
  rewrite (resolvePath_relative _ _ _ _ Habs) in Hthrow. cbv zeta in Hthrow.
  destruct (String.prefix (baseDir r) (Path.resolve cwd [baseDir r; p])) eqn:Hpre;
    [discriminate|].
  destruct (PathResolverM.isTrustedPath cwd r (Path.resolve cwd [baseDir r; p]));
    [discriminate|].
  split; [|reflexivity].
  destruct (Path.within (baseDir r) (Path.resolve cwd [baseDir r; p])) eqn:Hin;
    [|reflexivity].
  exfalso.
  destruct (resolve_kept cwd [dir]) as (bs & Hbs & Hb).
  destruct (resolve_kept cwd [baseDir r; p]) as (ps & Hps & Hp).
  rewrite Hp in Hpre, Hin. rewrite Hbase, Hb in Hpre, Hin.
  rewrite (within_prefix _ _ Hbs Hps Hin) in Hpre. discriminate.
Qed.

(** ** TenantRegistry *)

Lemma register_size reg tenant :
  size (tenants reg) <= maxTenants reg ->
  size (tenants (snd (TenantRegistryM.register reg tenant))) <= maxTenants reg
  /\ maxTenants (snd (TenantRegistryM.register reg tenant)) = maxTenants reg.
Proof.
  intros Hinv. unfold TenantRegistryM.register.
  destruct (Nat.leb_spec (maxTenants reg) (size (tenants reg))) as [Hfull|Hroom]; simpl.
  - auto.
  - split; [|reflexivity]. rewrite map_size_insert.
    destruct (tenants reg !! id tenant); simpl; lia.
Qed.

Lemma unregister_size reg tenantId :
  size (tenants reg) <= maxTenants reg ->
  size (tenants (snd (TenantRegistryM.unregister reg tenantId))) <= maxTenants reg
  /\ maxTenants (snd (TenantRegistryM.unregister reg tenantId)) = maxTenants reg.
Proof.
  intros Hinv. unfold TenantRegistryM.unregister. simpl. split; [|reflexivity].
  rewrite map_size_delete. destruct (tenants reg !! tenantId); simpl; lia.
Qed.

Lemma run_size ops : forall reg,
  size (tenants reg) <= maxTenants reg ->
  size (tenants (TenantRegistryM.run reg ops)) <= maxTenants reg
  /\ maxTenants (TenantRegistryM.run reg ops) = maxTenants reg.
Proof.
  induction ops as [|o ops IH]; intros reg Hinv; simpl; [auto|].
  assert (Hstep : size (tenants (TenantRegistryM.step reg o)) <= maxTenants reg
                  /\ maxTenants (TenantRegistryM.step reg o) = maxTenants reg).
  { destruct o as [tenant|tenantId]; simpl;
      [apply register_size | apply unregister_size]; exact Hinv. }
  destruct Hstep as [Hsz Hmax].
  destruct (IH (TenantRegistryM.step reg o)) as [Hsz' Hmax']; [lia|].
  unfold TenantRegistryM.run in *. split; lia.
Qed.

(** C2: [register] on a full registry throws and leaves the registry as it
    is; otherwise it puts the context under its id, replacing an entry of
    that id; from an empty registry no run of [register] and [unregister]
    calls takes the size above [maxTenants]. *)
Theorem register_bounded :
  (forall reg tenant,
     maxTenants reg <= size (tenants reg) ->
     TenantRegistryM.register reg tenant = (Throw (MaxTenantsReached (maxTenants reg)), reg))
  /\ (forall reg tenant,
        size (tenants reg) < maxTenants reg ->
        exists reg',
          TenantRegistryM.register reg tenant = (Ok tt, reg')
          /\ tenants reg' = <[id tenant := tenant]> (tenants reg)
          /\ maxTenants reg' = maxTenants reg
          /\ tenants reg' !! id tenant = Some tenant
          /\ (forall other, other <> id tenant ->
                tenants reg' !! other = tenants reg !! other))
  /\ (forall maxTenants ops,
        size (tenants (TenantRegistryM.run (TenantRegistryM.create maxTenants) ops))
        <= maxTenants).
Proof.
  split; [|split].
  - intros reg tenant Hfull. unfold TenantRegistryM.register.
    destruct (Nat.leb_spec (maxTenants reg) (size (tenants reg))); [reflexivity|lia].
  - intros reg tenant Hroom. unfold TenantRegistryM.register.
    destruct (Nat.leb_spec (maxTenants reg) (size (tenants reg))); [lia|].
    eexists. split; [reflexivity|]. simpl. repeat split.
    + apply lookup_insert_eq.
    + intros other Hne. apply lookup_insert_ne. congruence.
  - intros n ops.
    destruct (run_size ops (TenantRegistryM.create n)) as [Hsz _].
    + simpl. rewrite map_size_empty. lia.
    + exact Hsz.
Qed.

Lemma register_bounded_witness :
  TenantRegistryM.register (TenantRegistryM.create 0) (Sample.context "acme" "/srv/app/tenants/acme")
  = (Throw (MaxTenantsReached 0), TenantRegistryM.create 0)
  /\ size (tenants (TenantRegistryM.run (TenantRegistryM.create 1)
             [TenantRegistryM.Register (Sample.context "acme" "/srv/app/tenants/acme");
              TenantRegistryM.Register (Sample.context "beta" "/srv/app/tenants/beta");
              TenantRegistryM.Unregister "acme"])) <= 1.
Proof.
  destruct register_bounded as (Hfull & _ & Hrun).
  split.
  - apply (Hfull (TenantRegistryM.create 0)). simpl. lia.
  - apply Hrun.
Defined.

Example sample_load_gamma :
  fst (TenantManagerM.loadTenant Sample.env
         {| pathResolver := Sample.resolver; tenantRegistry := TenantRegistryM.create 50 |}
         (JStr "/srv/app/tenants/gamma") JNull)
  = Some (Sample.context "gamma" "/srv/app/tenants/gamma").
Proof. vm_compute. reflexivity. Qed.

Example sample_load_package :
  let loaded :=
    TenantManagerM.loadTenant Sample.env
      {| pathResolver := Sample.resolver; tenantRegistry := TenantRegistryM.create 50 |}
      (JStr "fastify-multitenant-acme") (JStr "custom") in
  (id <$> fst loaded) = Some "acme"
  /\ (type <$> fst loaded) = Some "npm"
  /\ trustedPackagePaths (pathResolver (snd loaded))
     = ["/srv/app/node_modules/fastify-multitenant-acme"].
Proof. vm_compute. repeat split; reflexivity. Qed.

Example sample_load_acme :
  id <$> fst (TenantManagerM.loadTenant Sample.env
         {| pathResolver := Sample.resolver; tenantRegistry := TenantRegistryM.create 50 |}
         (JStr "/srv/app/tenants/acme") (JStr "acme"))
  = Some "sample-tenant".
Proof. vm_compute. reflexivity. Qed.

(** ** TenantFactory *)

Lemma loadResourcesVia_keeps env adapterType r ctx ctx' :
  loadResourcesVia env adapterType r ctx = Ok ctx' ->
  id ctx' = id ctx /\ config ctx' = config ctx /\ type ctx' = type ctx.
Proof.
  unfold loadResourcesVia.
  destruct (adapter_loadResources env adapterType r ctx) as [l|]; [|discriminate].
  intros [= <-]. auto.
Qed.

Lemma adapters_loadResources env adapter :
  In adapter (TenantFactory.adapters env) ->
  loadResources adapter = loadResourcesVia env (getType adapter).
Proof. intros [<-|[<-|[]]]; reflexivity. Qed.

Lemma selectAdapter_In candidates : forall r source adapter r',
  selectAdapter candidates r source = Some (adapter, r') -> In adapter candidates.
Proof.
  induction candidates as [|a rest IH]; intros r source adapter r'; simpl; [discriminate|].
  destruct (canHandle a r source) as [handles r0]. destruct handles.
  - intros [= <- _]. auto.
  - intros H. right. eapply IH, H.
Qed.

(** What a context that [buildTenant] hands out says about the
    configuration it was built from. *)
Lemma buildFromConfig_Some env adapter r tenantId cfg ctx :
  In adapter (TenantFactory.adapters env) ->
  TenantFactory.buildFromConfig env adapter r tenantId cfg = Ok (Some ctx) ->
  exists a name,
    getprop cfg "active" = Ok a /\ truthy a = true /\
    getprop cfg "name" = Ok name /\
    SecurityValidator.validateTenantId (js_or name tenantId) = Ok (id ctx) /\
    config ctx = cfg.
Proof.
  intros Hin. unfold TenantFactory.buildFromConfig.
  destruct (getprop cfg "active") as [a|] eqn:Ha; [|discriminate].
  destruct (truthy a) eqn:Hta; simpl; [|discriminate].
  destruct (getprop cfg "name") as [name|] eqn:Hn; [|discriminate].
  unfold TenantContextM.create. rewrite Ha.
  destruct (SecurityValidator.validateTenantId (js_or name tenantId)) as [validId|] eqn:Hv;
    [|discriminate].
  rewrite (adapters_loadResources _ _ Hin).
  match goal with |- context [loadResourcesVia ?e ?t ?r0 ?c] =>
    destruct (loadResourcesVia e t r0 c) as [loaded|] eqn:Hl end; [|discriminate].
  intros [= <-]. apply loadResourcesVia_keeps in Hl. simpl in Hl.
  destruct Hl as (Hid & Hcfg & _).
  exists a, name. rewrite Hid, Hcfg. auto.
Qed.

Lemma createTenant_selected env r s cid adapter r0 :
  selectAdapter (TenantFactory.adapters env) r s = Some (adapter, r0) ->
  TenantFactory.createTenant env r (JStr s) cid =
  (Ok (match TenantFactory.buildFromConfig env adapter
               (snd (mergedConfig adapter r0 s cid))
               (TenantFactory.determineTenantId (getType adapter) s cid)
               (fst (mergedConfig adapter r0 s cid)) with
       | Ok res => res
       | Throw _ => None
       end),
   snd (mergedConfig adapter r0 s cid)).
Proof.
  intros Hsel. unfold TenantFactory.createTenant.
  rewrite probe_select, Hsel, buildTenant_unfold. reflexivity.
Qed.

(** C4, as the code has it: the tenant id [buildTenant] starts from follows
    the precedence explicit id, then package name without its prefix (npm
    adapter), then basename of the source; it is the default for the [id]
    and the [name] of the configuration, and the context takes as its id the
    [name] of the merged configuration when that is truthy, the precedence
    value otherwise. *)
Theorem createTenant_context_id :
  forall env r s cid adapter r0 ctx r',
    selectAdapter (TenantFactory.adapters env) r s = Some (adapter, r0) ->
    TenantFactory.createTenant env r (JStr s) cid = (Ok (Some ctx), r') ->
    let tenantId := TenantFactory.determineTenantId (getType adapter) s cid in
    (truthy cid = true -> tenantId = cid)
    /\ (truthy cid = false -> getType adapter = "npm" ->
        tenantId = JStr (stripPackagePrefix s))
    /\ (truthy cid = false -> getType adapter = "local" ->
        tenantId = JStr (Path.basename s))
    /\ getprop (TenantFactory.defaultsFor tenantId s) "id" = Ok tenantId
    /\ getprop (TenantFactory.defaultsFor tenantId s) "name" = Ok tenantId
    /\ exists name,
         getprop (fst (mergedConfig adapter r0 s cid)) "name" = Ok name
         /\ (truthy name = true -> name = JStr (id ctx))
         /\ (truthy name = false \/ name = tenantId -> tenantId = JStr (id ctx)).
Proof.
  intros env r s cid adapter r0 ctx r' Hsel Hcreate tenantId.
  rewrite (createTenant_selected _ _ _ _ _ _ Hsel) in Hcreate.
  injection Hcreate as Hres _.
  pose proof (selectAdapter_In _ _ _ _ _ Hsel) as Hin.
  fold tenantId in Hres.
  destruct (TenantFactory.buildFromConfig env adapter _ tenantId _) as [res|] eqn:Hb;
    [|discriminate].
  subst res. apply (buildFromConfig_Some _ _ _ _ _ _ Hin) in Hb.
  destruct Hb as (a & name & _ & _ & Hname & Hval & _).
  apply validateTenantId_Ok_iff in Hval. destruct Hval as (Hor & _ & _).
  unfold tenantId at 1 2 3, TenantFactory.determineTenantId.
  repeat split.
  - intros ->. reflexivity.
  - intros -> ->. reflexivity.
  - intros -> ->. reflexivity.
  - exists name. split; [exact Hname|]. unfold js_or in Hor. split.
    + intros Ht. rewrite Ht in Hor. exact Hor.
    + intros [Hf| ->].
      * rewrite Hf in Hor. exact Hor.
      * destruct (truthy tenantId); exact Hor.
Qed.

Lemma createTenant_context_id_witness :
  TenantFactory.createTenant Sample.env Sample.resolver
    (JStr "/srv/app/tenants/gamma") JNull
  = (Ok (Some (Sample.context "gamma" "/srv/app/tenants/gamma")), Sample.resolver)
  /\ JStr (Path.basename "/srv/app/tenants/gamma") = JStr "gamma".
Proof.
  assert (Hsel : selectAdapter (TenantFactory.adapters Sample.env) Sample.resolver
                   "/srv/app/tenants/gamma"
                 = Some (LocalTenantAdapter Sample.env, Sample.resolver))
    by (vm_compute; reflexivity).
  assert (Hcreate : TenantFactory.createTenant Sample.env Sample.resolver
                      (JStr "/srv/app/tenants/gamma") JNull
                    = (Ok (Some (Sample.context "gamma" "/srv/app/tenants/gamma")),
                       Sample.resolver))
    by (vm_compute; reflexivity).
  split; [exact Hcreate|].
  destruct (createTenant_context_id _ _ _ _ _ _ _ _ Hsel Hcreate)
    as (_ & _ & Hbase & _).
  symmetry. apply Hbase; reflexivity.
Defined.

(** The claim of C4 as it is worded fails in the sample deployment: the
    explicit id is "acme", and the context built from a directory whose
    [config.json] has a [name] is called "sample-tenant". *)
Lemma createTenant_explicit_id_overridden :
  exists ctx r',
    TenantFactory.createTenant Sample.env Sample.resolver
      (JStr "/srv/app/tenants/acme") (JStr "acme") = (Ok (Some ctx), r')
    /\ TenantFactory.determineTenantId "local" "/srv/app/tenants/acme" (JStr "acme")
       = JStr "acme"
    /\ id ctx = "sample-tenant"
    /\ id ctx <> "acme".
Proof.
  eexists _, _. split; [vm_compute; reflexivity|].
  split; [reflexivity|]. split; [reflexivity|]. discriminate.
Qed.

(** ** TenantManager *)

(** C5: when the configuration merged for a source has [active] equal to
    [false], [buildTenant] leaves through its [return null] (no error is
    raised or caught), [loadTenant] returns [null], and the registry is the
    one it started from. *)
Theorem loadTenant_inactive_skipped :
  forall env m s cid adapter r0,
    selectAdapter (TenantFactory.adapters env) (pathResolver m) s = Some (adapter, r0) ->
    getprop (fst (mergedConfig adapter r0 s cid)) "active" = Ok (JBool false) ->
    TenantFactory.buildFromConfig env adapter (snd (mergedConfig adapter r0 s cid))
      (TenantFactory.determineTenantId (getType adapter) s cid)
      (fst (mergedConfig adapter r0 s cid)) = Ok None
    /\ fst (TenantManagerM.loadTenant env m (JStr s) cid) = None
    /\ tenantRegistry (snd (TenantManagerM.loadTenant env m (JStr s) cid))
       = tenantRegistry m.
Proof.
  intros env m s cid adapter r0 Hsel Hactive.
  assert (Hbuild : TenantFactory.buildFromConfig env adapter
            (snd (mergedConfig adapter r0 s cid))
            (TenantFactory.determineTenantId (getType adapter) s cid)
            (fst (mergedConfig adapter r0 s cid)) = Ok None).
  { unfold TenantFactory.buildFromConfig. rewrite Hactive. reflexivity. }
  split; [exact Hbuild|].
  assert (Hnone : fst (TenantManagerM.loadTenant env m (JStr s) cid) = None).
  { rewrite (loadTenant_selected _ _ _ _ _ _ Hsel), buildTenant_unfold.
    cbv zeta. rewrite Hbuild. reflexivity. }
  split; [exact Hnone|]. apply loadTenant_null_registry, Hnone.
Qed.

Lemma loadTenant_inactive_skipped_witness :
  getprop (fst (mergedConfig (LocalTenantAdapter Sample.env) Sample.resolver
                  "/srv/app/tenants/beta" JNull)) "active" = Ok (JBool false)
  /\ fst (TenantManagerM.loadTenant Sample.env Sample.manager
            (JStr "/srv/app/tenants/beta") JNull) = None
  /\ tenantRegistry (snd (TenantManagerM.loadTenant Sample.env Sample.manager
                            (JStr "/srv/app/tenants/beta") JNull))
     = tenantRegistry Sample.manager.
Proof.
  assert (Hsel : selectAdapter (TenantFactory.adapters Sample.env)
                   (pathResolver Sample.manager) "/srv/app/tenants/beta"
                 = Some (LocalTenantAdapter Sample.env, Sample.resolver))
    by (vm_compute; reflexivity).
  assert (Hactive : getprop (fst (mergedConfig (LocalTenantAdapter Sample.env)
                       Sample.resolver "/srv/app/tenants/beta" JNull)) "active"
                    = Ok (JBool false))
    by (vm_compute; reflexivity).
  split; [exact Hactive|].
  exact (proj2 (loadTenant_inactive_skipped Sample.env Sample.manager
                  "/srv/app/tenants/beta" JNull _ _ Hsel Hactive)).
Defined.

Lemma loadTenant_Some_registry env m source cid ctx :
  fst (TenantManagerM.loadTenant env m source cid) = Some ctx ->
  tenants (tenantRegistry (snd (TenantManagerM.loadTenant env m source cid)))
  = <[id ctx := ctx]> (tenants (tenantRegistry m))
  /\ maxTenants (tenantRegistry (snd (TenantManagerM.loadTenant env m source cid)))
     = maxTenants (tenantRegistry m)
  /\ fst (TenantFactory.createTenant env (pathResolver m) source cid) = Ok (Some ctx).
Proof.
  unfold TenantManagerM.loadTenant.
  destruct (TenantFactory.createTenant env (pathResolver m) source cid) as [created r'].
  destruct created as [[tenant|]|e]; simpl; try discriminate.
  unfold TenantRegistryM.register.
  destruct (maxTenants (tenantRegistry m) <=? size (tenants (tenantRegistry m)));
    simpl; [discriminate|].
  intros [= ->]. auto.
Qed.

Lemma reloadTenant_unfold env m tenantId existing source :
  TenantManagerM.getTenant m tenantId = Some existing ->
  getprop (config existing) "source" = Ok source ->
  TenantManagerM.reloadTenant env m tenantId =
  (Ok (fst (TenantManagerM.loadTenant env
              {| pathResolver := pathResolver m;
                 tenantRegistry := snd (TenantRegistryM.unregister (tenantRegistry m) tenantId) |}
              source (JStr tenantId))),
   snd (TenantManagerM.loadTenant env
          {| pathResolver := pathResolver m;
             tenantRegistry := snd (TenantRegistryM.unregister (tenantRegistry m) tenantId) |}
          source (JStr tenantId))).
Proof.
  intros Hget Hsrc. unfold TenantManagerM.reloadTenant. rewrite Hget, Hsrc.
  simpl. destruct (TenantManagerM.loadTenant env _ source (JStr tenantId)); reflexivity.
Qed.

(** C6, as the code has it: [reloadTenant] throws "not found" exactly when
    the id is not registered, and then changes nothing; otherwise it removes
    the entry and calls [loadTenant] on the recorded [config.source] with the
    id as the explicit id; when that call yields a context, the registry is
    the old one without the id plus the context under the context's own id,
    which is the id reloaded whenever the rebuilt configuration's [name] is
    that id or is falsy. *)
Theorem reloadTenant_spec :
  forall env m tenantId,
    (fst (TenantManagerM.reloadTenant env m tenantId) = Throw (TenantNotFound tenantId)
     <-> tenants (tenantRegistry m) !! tenantId = None)
    /\ (tenants (tenantRegistry m) !! tenantId = None ->
        snd (TenantManagerM.reloadTenant env m tenantId) = m)
    /\ (forall existing source,
          tenants (tenantRegistry m) !! tenantId = Some existing ->
          getprop (config existing) "source" = Ok source ->
          let unregistered :=
            {| pathResolver := pathResolver m;
               tenantRegistry :=
                 {| tenants := delete tenantId (tenants (tenantRegistry m));
                    maxTenants := maxTenants (tenantRegistry m) |} |} in
          TenantManagerM.reloadTenant env m tenantId =
          (Ok (fst (TenantManagerM.loadTenant env unregistered source (JStr tenantId))),
           snd (TenantManagerM.loadTenant env unregistered source (JStr tenantId)))
          /\ (forall ctx,
                fst (TenantManagerM.reloadTenant env m tenantId) = Ok (Some ctx) ->
                tenants (tenantRegistry (snd (TenantManagerM.reloadTenant env m tenantId)))
                = <[id ctx := ctx]> (delete tenantId (tenants (tenantRegistry m)))
                /\ tenants (tenantRegistry (snd (TenantManagerM.reloadTenant env m tenantId)))
                     !! id ctx = Some ctx
                /\ exists name,
                     getprop (config ctx) "name" = Ok name
                     /\ (tenantId <> "" ->
                         js_or name (JStr tenantId) = JStr (id ctx)
                         /\ (truthy name = false \/ name = JStr tenantId ->
                             id ctx = tenantId)))).
Proof.
  intros env m tenantId. split; [|split].
  - unfold TenantManagerM.reloadTenant, TenantManagerM.getTenant, TenantRegistryM.getTenant.
    destruct (tenants (tenantRegistry m) !! tenantId) as [existing|] eqn:Hget.
    + split; [|discriminate].
      destruct (getprop (config existing) "source") as [source|e] eqn:Hsrc.
      * simpl. destruct (TenantManagerM.loadTenant env _ source (JStr tenantId)).
        discriminate.
      * simpl. intros [= ->].
        unfold getprop in Hsrc.
        destruct (config existing); discriminate.
    + simpl. tauto.
  - intros Hnone. unfold TenantManagerM.reloadTenant, TenantManagerM.getTenant,
      TenantRegistryM.getTenant. rewrite Hnone. reflexivity.
  - intros existing source Hget Hsrc unregistered.
    pose proof (reloadTenant_unfold env m tenantId existing source Hget Hsrc) as Hre.
    change {| pathResolver := pathResolver m;
              tenantRegistry := snd (TenantRegistryM.unregister (tenantRegistry m) tenantId) |}
      with unregistered in Hre.
    split; [exact Hre|].
    intros ctx Hctx. rewrite Hre in Hctx |- *. simpl in Hctx |- *.
    injection Hctx as Hctx.
    destruct (loadTenant_Some_registry _ _ _ _ _ Hctx) as (Hten & _ & Hcreate).
    rewrite Hten. simpl. split; [reflexivity|]. split; [apply lookup_insert_eq|].
    unfold TenantFactory.createTenant in Hcreate.
    destruct source as [| | | |s| | |]; try discriminate.
    rewrite probe_select in Hcreate.
    destruct (selectAdapter (TenantFactory.adapters env) (pathResolver unregistered) s)
      as [[adapter r0]|] eqn:Hsel; [|discriminate].
    rewrite buildTenant_unfold in Hcreate. simpl in Hcreate.
    injection Hcreate as Hcreate.
    pose proof (selectAdapter_In _ _ _ _ _ Hsel) as Hin.
    destruct (TenantFactory.buildFromConfig env adapter _ _ _) as [res|] eqn:Hb;
      [|discriminate].
    subst res. apply (buildFromConfig_Some _ _ _ _ _ _ Hin) in Hb.
    destruct Hb as (a & name & _ & _ & Hname & Hval & Hcfg).
    exists name. rewrite Hcfg. split; [exact Hname|].
    apply validateTenantId_Ok_iff in Hval. destruct Hval as (Hor & _ & _).
    intros Hne. unfold TenantFactory.determineTenantId in Hor. simpl in Hor.
    destruct (String.eqb_spec tenantId "") as [->|_]; [contradiction|].
    simpl in Hor. split; [exact Hor|].
    unfold js_or in Hor. intros [Hf| ->].
    + rewrite Hf in Hor. congruence.
    + simpl in Hor. destruct (String.eqb_spec tenantId ""); simpl in Hor; congruence.
Qed.

Lemma reloadTenant_spec_witness :
  tenants (tenantRegistry Sample.manager) !! "gamma"
  = Some (Sample.context "gamma" "/srv/app/tenants/gamma")
  /\ fst (TenantManagerM.reloadTenant Sample.env Sample.manager "gamma")
     = Ok (Some (Sample.context "gamma" "/srv/app/tenants/gamma"))
  /\ tenants (tenantRegistry (snd (TenantManagerM.reloadTenant Sample.env Sample.manager "gamma")))
       !! "gamma"
     = Some (Sample.context "gamma" "/srv/app/tenants/gamma").
Proof.
  assert (Hget : tenants (tenantRegistry Sample.manager) !! "gamma"
                 = Some (Sample.context "gamma" "/srv/app/tenants/gamma"))
    by (vm_compute; reflexivity).
  assert (Hre : fst (TenantManagerM.reloadTenant Sample.env Sample.manager "gamma")
                = Ok (Some (Sample.context "gamma" "/srv/app/tenants/gamma")))
    by (vm_compute; reflexivity).
  split; [exact Hget|]. split; [exact Hre|].
  destruct (reloadTenant_spec Sample.env Sample.manager "gamma") as (_ & _ & Hsome).
  destruct (Hsome _ (JStr "/srv/app/tenants/gamma") Hget eq_refl) as (_ & Hctx).
  destruct (Hctx _ Hre) as (_ & Hlookup & _).
  exact Hlookup.
Defined.

(** The claim of C6 as it is worded fails in the sample deployment: "beta"
    is registered, its directory has been switched off since, and the reload
    returns [null] and leaves no entry for "beta". *)
Lemma reloadTenant_drops_inactive :
  is_Some (tenants (tenantRegistry Sample.manager) !! "beta")
  /\ fst (TenantManagerM.reloadTenant Sample.env Sample.manager "beta") = Ok None
  /\ tenants (tenantRegistry (snd (TenantManagerM.reloadTenant Sample.env Sample.manager "beta")))
       !! "beta" = None.
Proof.
  split; [eexists; vm_compute; reflexivity|].
  split; vm_compute; reflexivity.
Qed.

(** ** ResourceLoader *)


Lemma spread_object fs : Deepmerge.spread (JObj fs) = JObj fs.
Proof. reflexivity. Qed.




Lemma validateTenantId_spec_witness :
  SecurityValidator.validateTenantId (JStr "tenant_A-1") = Ok "tenant_A-1"
  /\ (exists e, SecurityValidator.validateTenantId (JStr "../etc") = Throw e)
  /\ (exists e, SecurityValidator.validateTenantId (JNum 7) = Throw e).
Proof.
  destruct validateTenantId_spec as (Hok & Hthrow & Hstrip & _).
  split; [|split].
  - apply Hok; [discriminate | reflexivity].
  - apply Hstrip. left. discriminate.
  - apply Hthrow. intros (s & Hs & _). discriminate.
Defined.

(** * Further properties *)

(** ** TenantRegistry: unregistering, listing, statistics *)

(** X1: [unregister] reports whether the id was registered, removes that
    entry and no other, never grows the registry, and a second [unregister]
    of the same id reports [false] and changes nothing. *)
Theorem unregister_spec :
  forall reg tenantId,
    let res := TenantRegistryM.unregister reg tenantId in
    (fst res = true <-> is_Some (tenants reg !! tenantId))
    /\ TenantRegistryM.getTenant (snd res) tenantId = None
    /\ (forall other, other <> tenantId ->
          TenantRegistryM.getTenant (snd res) other = TenantRegistryM.getTenant reg other)
    /\ size (tenants (snd res)) <= size (tenants reg)
    /\ maxTenants (snd res) = maxTenants reg
    /\ TenantRegistryM.unregister (snd res) tenantId = (false, snd res)
    /\ (forall tenant,
          id tenant = tenantId -> tenants reg !! tenantId = None ->
          size (tenants reg) < maxTenants reg ->
          snd (TenantRegistryM.unregister
                 (snd (TenantRegistryM.register reg tenant)) tenantId) = reg).
Proof.
  intros reg tenantId res. subst res. unfold TenantRegistryM.unregister,
    TenantRegistryM.getTenant. cbn [fst snd tenants maxTenants].
  repeat split.
  - intros H. apply bool_decide_eq_true in H. exact H.
  - intros H. apply bool_decide_eq_true. exact H.
  - apply lookup_delete_eq.
  - intros other Hne. apply lookup_delete_ne. congruence.
  - rewrite map_size_delete. destruct (tenants reg !! tenantId); simpl; lia.
  - f_equal.
    + apply bool_decide_eq_false. rewrite lookup_delete_eq. intros [? ?]. discriminate.
    + f_equal. apply delete_id. apply lookup_delete_eq.
  - intros tenant Hid Hfresh Hroom. unfold TenantRegistryM.register.
    destruct (Nat.leb_spec (maxTenants reg) (size (tenants reg))); [lia|].
    cbn [fst snd tenants maxTenants]. rewrite Hid, (delete_insert_id _ _ _ Hfresh).
    destruct reg; reflexivity.
Qed.

Lemma unregister_spec_witness :
  snd (TenantRegistryM.unregister
         (snd (TenantRegistryM.register (TenantRegistryM.create 2)
                 (Sample.context "acme" "/srv/app/tenants/acme"))) "acme")
  = TenantRegistryM.create 2.
Proof.
  destruct (unregister_spec (TenantRegistryM.create 2) "acme")
    as (_ & _ & _ & _ & _ & _ & Hround).
  apply Hround; [reflexivity | apply lookup_empty | simpl; rewrite map_size_empty; lia].
Defined.

Lemma count_get_set k k' n acc :
  RegistryViews.count_get k (RegistryViews.count_set k' n acc)
  = if (k' =? k)%string then n else RegistryViews.count_get k acc.
Proof.
  induction acc as [|[k0 n0] acc IH]; simpl.
  - reflexivity.
  - destruct (String.eqb_spec k0 k') as [->|Hne]; simpl.
    + destruct (String.eqb_spec k' k); reflexivity.
    + rewrite IH. destruct (String.eqb_spec k0 k) as [->|Hne0]; [|reflexivity].
      destruct (String.eqb_spec k' k); [congruence | reflexivity].
Qed.

Lemma types_fold ty all : forall acc,
  RegistryViews.count_get ty
    (fold_left (fun acc t =>
                  RegistryViews.count_set (type t)
                    (RegistryViews.count_get (type t) acc + 1) acc) all acc)
  = RegistryViews.count_get ty acc
    + length (List.filter (fun t => (type t =? ty)%string) all).
Proof.
  induction all as [|t all IH]; intros acc; simpl; [lia|].
  rewrite IH, count_get_set.
  destruct (String.eqb_spec (type t) ty) as [->|Hne]; simpl; lia.
Qed.

Lemma filter_split_length {A} (f : A -> bool) (l : list A) :
  length (List.filter f l) + length (List.filter (fun x => negb (f x)) l) = length l.
Proof.
  induction l as [|x l IH]; simpl; [reflexivity|].
  destruct (f x); simpl; lia.
Qed.

Lemma services_fold all : forall sum,
  fold_left (fun sum t => sum + length (RegistryViews.listServices t)) all sum
  = sum + length (concat (List.map RegistryViews.listServices all)).
Proof.
  induction all as [|t all IH]; intros sum; simpl; [lia|].
  rewrite IH, length_app. lia.
Qed.

(** X2: whatever order [getAllTenants()] lists the registry in, [getStats]
    reports the registry's size as [total], [active] and [inactive] add up
    to [total], the entry of [types] for a type is the number of tenants of
    that type, and [servicesLoaded] is the number of service names over all
    tenants. *)
Theorem getStats_counts :
  forall reg all,
    RegistryViews.enumerates reg all ->
    let stats := RegistryViews.getStats all in
    RegistryViews.total stats = size (tenants reg)
    /\ RegistryViews.activeCount stats + RegistryViews.inactiveCount stats
       = RegistryViews.total stats
    /\ RegistryViews.activeCount stats = length (RegistryViews.getActiveTenants all)
    /\ (forall ty, RegistryViews.count_get ty (RegistryViews.types stats)
                   = length (List.filter (fun t => (type t =? ty)%string) all))
    /\ RegistryViews.servicesLoaded stats
       = length (concat (List.map RegistryViews.listServices all)).
Proof.
  intros reg all Hall stats. subst stats. unfold RegistryViews.getStats. simpl.
  repeat split.
  - rewrite (Permutation_length Hall), length_fmap. apply length_map_to_list.
  - apply filter_split_length.
  - intros ty. rewrite types_fold. reflexivity.
  - rewrite services_fold. reflexivity.
Qed.

Lemma getStats_counts_witness :
  RegistryViews.total
    (RegistryViews.getStats (map_to_list (tenants (tenantRegistry Sample.manager))).*2)
  = size (tenants (tenantRegistry Sample.manager)).
Proof.
  exact (proj1 (getStats_counts (tenantRegistry Sample.manager) _
                  (Permutation_refl _))).
Defined.

(** ** TenantFactory: what a built context is *)

Lemma buildFromConfig_built env adapter r tenantId cfg ctx :
  In adapter (TenantFactory.adapters env) ->
  TenantFactory.buildFromConfig env adapter r tenantId cfg = Ok (Some ctx) ->
  SecurityValidator.validateTenantId (JStr (id ctx)) = Ok (id ctx)
  /\ active ctx = true
  /\ (type ctx = "local" \/ type ctx = "npm")
  /\ config ctx = cfg
  /\ createdAt ctx = now env.
Proof.
  intros Hin. unfold TenantFactory.buildFromConfig.
  destruct (getprop cfg "active") as [a|] eqn:Ha; [|discriminate].
  destruct (truthy a) eqn:Hta; cbn [negb]; [|discriminate].
  destruct (getprop cfg "name") as [name|] eqn:Hn; [|discriminate].
  unfold TenantContextM.create. rewrite Ha.
  destruct (SecurityValidator.validateTenantId (js_or name tenantId)) as [validId|] eqn:Hv;
    [|discriminate].
  rewrite (adapters_loadResources _ _ Hin). unfold loadResourcesVia.
  match goal with |- context [adapter_loadResources ?e ?t ?r0 ?c] =>
    destruct (adapter_loadResources e t r0 c) as [l|] end; [|discriminate].
  intros [= <-].
  cbn [id active type config createdAt TenantContextM.withLoaded].
  apply validateTenantId_Ok_iff in Hv. destruct Hv as (_ & Hne & Hall).
  split; [apply validateTenantId_Ok_iff; auto|].
  split; [destruct a as [| |[|]| | | | |]; try reflexivity; discriminate|].
  split; [destruct Hin as [<-|[<-|[]]]; auto|].
  split; reflexivity.
Qed.

Lemma createTenant_inv env r source cid ctx r' :
  TenantFactory.createTenant env r source cid = (Ok (Some ctx), r') ->
  exists adapter r0 tenantId cfg,
    In adapter (TenantFactory.adapters env)
    /\ TenantFactory.buildFromConfig env adapter r0 tenantId cfg = Ok (Some ctx).
Proof.
  intros Hcreate. unfold TenantFactory.createTenant in Hcreate.
  destruct source as [| | | |s| | |]; try discriminate.
  rewrite probe_select in Hcreate.
  destruct (selectAdapter (TenantFactory.adapters env) r s) as [[adapter r0]|] eqn:Hsel;
    [|discriminate].
  rewrite buildTenant_unfold in Hcreate. cbv zeta in Hcreate.
  injection Hcreate as Hres _.
  pose proof (selectAdapter_In _ _ _ _ _ Hsel) as Hin.
  destruct (TenantFactory.buildFromConfig env adapter _ _ _) as [res|] eqn:Hb;
    [|discriminate].
  subst res. eauto 6.
Qed.

(** X3: a context that [createTenant] returns has an id the validator
    accepts, is active, is typed "local" or "npm", carries the configuration
    it was built from, whose [active] is truthy, and the creation time of
    the clock. *)
Theorem createTenant_built :
  forall env r source cid ctx r',
    TenantFactory.createTenant env r source cid = (Ok (Some ctx), r') ->
    SecurityValidator.validateTenantId (JStr (id ctx)) = Ok (id ctx)
    /\ id ctx <> ""
    /\ active ctx = true
    /\ (type ctx = "local" \/ type ctx = "npm")
    /\ (exists a, getprop (config ctx) "active" = Ok a /\ truthy a = true)
    /\ createdAt ctx = now env.
Proof.
  intros env r source cid ctx r' Hcreate.
  destruct (createTenant_inv _ _ _ _ _ _ Hcreate) as (adapter & r0 & tid & cfg & Hin & Hb).
  destruct (buildFromConfig_built _ _ _ _ _ _ Hin Hb) as (Hid & Hact & Hty & Hcfg & Hat).
  destruct (buildFromConfig_Some _ _ _ _ _ _ Hin Hb) as (a & name & Ha & Hta & _).
  repeat split; try assumption.
  - apply validateTenantId_Ok_iff in Hid. tauto.
  - exists a. rewrite Hcfg. auto.
Qed.

Lemma createTenant_built_witness :
  SecurityValidator.validateTenantId (JStr "gamma") = Ok "gamma".
Proof.
  exact (proj1 (createTenant_built Sample.env Sample.resolver
                  (JStr "/srv/app/tenants/gamma") JNull
                  (Sample.context "gamma" "/srv/app/tenants/gamma") Sample.resolver
                  ltac:(vm_compute; reflexivity))).
Defined.

(** ** TenantManager: runs of calls *)


Lemma wellFormed_loadTenant env m source cid :
  ManagerRuns.wellFormed (tenantRegistry m) ->
  ManagerRuns.wellFormed (tenantRegistry (snd (TenantManagerM.loadTenant env m source cid)))
  /\ maxTenants (tenantRegistry (snd (TenantManagerM.loadTenant env m source cid)))
     = maxTenants (tenantRegistry m).
Proof.
  intros Hwf.
  destruct (fst (TenantManagerM.loadTenant env m source cid)) as [ctx|] eqn:Hres.
  - destruct (loadTenant_Some_registry _ _ _ _ _ Hres) as (Hten & Hmax & Hcreate).
    split; [|exact Hmax].
    destruct (TenantFactory.createTenant env (pathResolver m) source cid)
      as [created r'] eqn:Hc. simpl in Hcreate. subst created.
    destruct (createTenant_inv _ _ _ _ _ _ Hc) as (adapter & r0 & tid & cfg & Hin & Hb).
    destruct (buildFromConfig_built _ _ _ _ _ _ Hin Hb) as (Hid & Hact & Hty & _).
    destruct Hwf as [Hsize Hall]. split.
    + rewrite Hmax, Hten.
      revert Hres. unfold TenantManagerM.loadTenant. rewrite Hc.
      unfold TenantRegistryM.register.
      destruct (Nat.leb_spec (maxTenants (tenantRegistry m))
                  (size (tenants (tenantRegistry m)))); simpl; [discriminate|].
      intros _. rewrite map_size_insert.
      destruct (tenants (tenantRegistry m) !! id ctx); simpl; lia.
    + intros key c. rewrite Hten. intros Hlook.
      apply lookup_insert_Some in Hlook.
      destruct Hlook as [[<- <-]|[_ Hlook]]; [auto | apply Hall, Hlook].
  - rewrite (loadTenant_null_registry _ _ _ _ Hres). auto.
Qed.




(** ** Request identification *)

(** X5: whatever the request, the id that [extractTenantId] returns is one
    the validator accepts: it is not empty and has no character outside
    [A-Za-z0-9_-]. *)
Theorem extractTenantId_valid :
  forall request,
    SecurityValidator.validateTenantId
      (JStr (MultiSourceTenantStrategy.extractTenantId request))
    = Ok (MultiSourceTenantStrategy.extractTenantId request).
Proof.
  intros request. rewrite extractTenantId_composite. unfold CompositeSpec.composite.
  destruct (CompositeSpec.firstCandidate CompositeSpec.subStrategies request) as [c|];
    [|reflexivity].
  destruct (SecurityValidator.validateTenantId c) as [tenantId|] eqn:Hv; [|reflexivity].
  apply validateTenantId_Ok_iff in Hv. apply validateTenantId_Ok_iff. tauto.
Qed.

Lemma span_literal stop (label rest : string) :
  SecurityValidator.str_forallb (fun c => negb (c =? stop)%char) label = true ->
  MultiSourceTenantStrategy.span stop (label +:+ String stop rest) = (label, true).
Proof.
  induction label as [|c label IH]; simpl.
  - intros _. rewrite Ascii.eqb_refl. reflexivity.
  - intros H. apply andb_prop in H. destruct H as [Hc Hl].
    apply negb_true_iff in Hc. rewrite Hc, (IH Hl). reflexivity.
Qed.

Lemma pathMatch_first (segment rest : string) :
  SecurityValidator.str_forallb (fun c => negb (c =? "/")%char) segment = true ->
  segment <> "" ->
  MultiSourceTenantStrategy.pathMatch (String "/" (segment +:+ String "/" rest))
  = Some segment.
Proof.
  intros Hfree Hne. unfold MultiSourceTenantStrategy.pathMatch.
  rewrite Ascii.eqb_refl, (span_literal _ _ _ Hfree).
  apply String.eqb_neq in Hne. rewrite Hne. reflexivity.
Qed.

(** X6: the URL of a request under "/api/" or "/health/" never names the
    tenant: [extractTenantId] answers as if the request had no URL, from the
    hostname and the header alone; and the [onRequest] hook answers such an
    "/api/" request with 404 exactly when no tenant is registered under that
    id, listing the registered ids. *)
Theorem api_request_tenant :
  forall request rest,
    url request = Some ("/api/" +:+ rest) \/ url request = Some ("/health/" +:+ rest) ->
    let withoutUrl :=
      {| hostname := hostname request; url := None; headers := headers request |} in
    MultiSourceTenantStrategy.extractTenantId request
    = MultiSourceTenantStrategy.extractTenantId withoutUrl
    /\ forall m all,
         url request = Some ("/api/" +:+ rest) ->
         let resolved := RequestHook.onRequest RequestHook.defaultStrategy m all request in
         RequestHook.r_tenantId resolved
         = MultiSourceTenantStrategy.extractTenantId withoutUrl
         /\ RequestHook.r_tenant resolved
            = tenants (tenantRegistry m) !! RequestHook.r_tenantId resolved
         /\ RequestHook.r_reply resolved
            = match RequestHook.r_tenant resolved with
              | Some _ => RequestHook.NoReply
              | None =>
                  RequestHook.NotFound (RequestHook.r_tenantId resolved) (id <$> all)
              end.
Proof.
  intros request rest Hurl withoutUrl.
  assert (Hpath : url request ≫= MultiSourceTenantStrategy.pathMatch = Some "api"
                  \/ url request ≫= MultiSourceTenantStrategy.pathMatch = Some "health").
  { destruct Hurl as [-> | ->]; [left|right].
    - exact (pathMatch_first "api" rest eq_refl ltac:(discriminate)).
    - exact (pathMatch_first "health" rest eq_refl ltac:(discriminate)). }
  assert (Hsame : MultiSourceTenantStrategy.extractTenantId request
                  = MultiSourceTenantStrategy.extractTenantId withoutUrl).
  { unfold MultiSourceTenantStrategy.extractTenantId,
      MultiSourceTenantStrategy.extractTenantId_try, withoutUrl.
    cbn [hostname url headers].
    destruct (hostname request ≫= MultiSourceTenantStrategy.hostnameMatch);
      [reflexivity|].
    destruct Hpath as [-> | ->]; reflexivity. }
  split; [exact Hsame|].
  intros m all Hapi resolved. subst resolved.
  unfold RequestHook.onRequest, RequestHook.getTenantIdFromRequest,
    RequestHook.defaultStrategy, TenantManagerM.getTenant, TenantRegistryM.getTenant.
  cbn [RequestHook.r_tenantId RequestHook.r_tenant RequestHook.r_reply].
  rewrite <- Hsame. split; [reflexivity|]. split; [reflexivity|].
  destruct (tenants (tenantRegistry m) !! _); [reflexivity|].
  rewrite Hapi, prefix_append. reflexivity.
Qed.

Lemma api_request_tenant_witness :
  RequestHook.r_reply
    (RequestHook.onRequest RequestHook.defaultStrategy Sample.manager
       (map_to_list (tenants (tenantRegistry Sample.manager))).*2
       {| hostname := Some "localhost"; url := Some "/api/users"; headers := JObj [] |})
  = RequestHook.NotFound "default-tenant"
      (id <$> (map_to_list (tenants (tenantRegistry Sample.manager))).*2).
Proof.
  destruct (api_request_tenant
              {| hostname := Some "localhost"; url := Some "/api/users"; headers := JObj [] |}
              "users" (or_introl eq_refl)) as (_ & Hhook).
  destruct (Hhook Sample.manager
              (map_to_list (tenants (tenantRegistry Sample.manager))).*2 eq_refl)
    as (_ & _ & Hreply).
  rewrite Hreply. reflexivity.
Defined.

(** ** PathResolver: trusted paths and resolved paths *)

Lemma isTrustedPath_add cwd r t q :
  PathResolverM.isTrustedPath cwd (PathResolverM.addTrustedPath cwd r t) q
  = PathResolverM.isTrustedPath cwd r q
    || String.prefix (Path.resolve cwd [t]) (Path.resolve cwd [q]).
Proof.
  unfold PathResolverM.isTrustedPath, PathResolverM.addTrustedPath.
  cbn [trustedPackagePaths]. case_bool_decide as Hin.
  - destruct (String.prefix (Path.resolve cwd [t]) (Path.resolve cwd [q])) eqn:Hp;
      [|rewrite orb_false_r; reflexivity].
    rewrite orb_true_r. apply existsb_exists.
    exists (Path.resolve cwd [t]). split; [apply list_elem_of_In, Hin | exact Hp].
  - rewrite existsb_app. simpl. rewrite orb_false_r. reflexivity.
Qed.

(** X7: trust only grows.  After [addTrustedPath(t)] the path [t] is
    trusted, every path that was trusted still is, every path that
    [resolvePath] returned is still returned unchanged, the base root is the
    same, and adding [t] a second time changes nothing. *)
Theorem addTrustedPath_monotone :
  forall cwd r t,
    let r' := PathResolverM.addTrustedPath cwd r t in
    PathResolverM.isTrustedPath cwd r' t = true
    /\ baseDir r' = baseDir r
    /\ (forall q, PathResolverM.isTrustedPath cwd r q = true ->
                  PathResolverM.isTrustedPath cwd r' q = true)
    /\ (forall p options q,
          PathResolverM.resolvePath cwd r p options = Ok q ->
          PathResolverM.resolvePath cwd r' p options = Ok q)
    /\ PathResolverM.addTrustedPath cwd r' t = r'.
Proof.
  intros cwd r t r'. subst r'.
  split; [rewrite isTrustedPath_add, prefix_refl; apply orb_true_r|].
  split; [reflexivity|].
  assert (Hmono : forall q, PathResolverM.isTrustedPath cwd r q = true ->
            PathResolverM.isTrustedPath cwd (PathResolverM.addTrustedPath cwd r t) q = true).
  { intros q Hq. rewrite isTrustedPath_add, Hq. reflexivity. }
  split; [exact Hmono|]. split.
  - intros p options q. unfold PathResolverM.resolvePath.
    destruct (Path.isAbsolute p).
    + destruct (truthy (allowTrusted options) && PathResolverM.isTrustedPath cwd r p);
        intros [= <-];
        destruct (truthy (allowTrusted options) && PathResolverM.isTrustedPath cwd _ p);
        reflexivity.
    + change (baseDir (PathResolverM.addTrustedPath cwd r t)) with (baseDir r).
      destruct (String.prefix (baseDir r) (Path.resolve cwd [baseDir r; p]));
        cbn [negb andb]; [tauto|].
      destruct (PathResolverM.isTrustedPath cwd r (Path.resolve cwd [baseDir r; p]))
        eqn:Htr; cbn [negb]; [|discriminate].
      rewrite (Hmono _ Htr). tauto.
  - unfold PathResolverM.addTrustedPath at 1. cbn [baseDir trustedPackagePaths].
    assert (Hin : Path.resolve cwd [t]
                  ∈ trustedPackagePaths (PathResolverM.addTrustedPath cwd r t)).
    { unfold PathResolverM.addTrustedPath. cbn [trustedPackagePaths].
      case_bool_decide; [assumption | apply elem_of_app; right; apply list_elem_of_singleton;
                                       reflexivity]. }
    rewrite bool_decide_eq_true_2 by exact Hin.
    destruct (PathResolverM.addTrustedPath cwd r t); reflexivity.
Qed.

Lemma resolvePath_absolute cwd r p options :
  Path.isAbsolute p = true -> PathResolverM.resolvePath cwd r p options = Ok p.
Proof.
  intros Habs. unfold PathResolverM.resolvePath. rewrite Habs.
  destruct (truthy (allowTrusted options) && PathResolverM.isTrustedPath cwd r p);
    reflexivity.
Qed.

(** X8: a path that [resolvePath] returns is absolute and is returned
    unchanged when resolved again, by any resolver; for a relative input it
    is moreover normalized (no empty, "." or ".." segment) and begins with
    the base root or with a trusted root. *)
Theorem resolvePath_result :
  forall cwd r p options q,
    PathResolverM.resolvePath cwd r p options = Ok q ->
    Path.isAbsolute q = true
    /\ (forall r' options', PathResolverM.resolvePath cwd r' q options' = Ok q)
    /\ (Path.isAbsolute p = false ->
        (exists segs, Forall Path.kept segs /\ q = "/" +:+ Path.join segs)
        /\ (String.prefix (baseDir r) q = true
            \/ PathResolverM.isTrustedPath cwd r q = true)).
Proof.
  intros cwd r p options q Hres.
  assert (Habs : Path.isAbsolute q = true).
  { destruct (Path.isAbsolute p) eqn:Hp.
    - rewrite (resolvePath_absolute cwd r p options Hp) in Hres.
      injection Hres as <-. exact Hp.
    - rewrite (resolvePath_relative _ _ _ _ Hp) in Hres. cbv zeta in Hres.
      destruct (_ || _); [|discriminate]. injection Hres as <-. reflexivity. }
  split; [exact Habs|]. split.
  - intros r' options'.
    apply (resolvePath_absolute cwd r' q options' Habs).
  - intros Hp. rewrite (resolvePath_relative _ _ _ _ Hp) in Hres. cbv zeta in Hres.
    destruct (String.prefix (baseDir r) (Path.resolve cwd [baseDir r; p])) eqn:Hpre;
      cbn [orb] in Hres.
    + injection Hres as <-. split; [apply resolve_kept | left; exact Hpre].
    + destruct (PathResolverM.isTrustedPath cwd r (Path.resolve cwd [baseDir r; p]))
        eqn:Htr; [|discriminate].
      injection Hres as <-. split; [apply resolve_kept | right; exact Htr].
Qed.

Lemma resolvePath_result_witness :
  Path.isAbsolute "/srv/app/tenants/acme" = true.
Proof.
  exact (proj1 (resolvePath_result Sample.cwd Sample.resolver "tenants/./acme/"
                  noOptions "/srv/app/tenants/acme" eq_refl)).
Defined.

(** ** The validators *)

Lemma str_forallb_impl (f g : ascii -> bool) s :
  (forall c, f c = true -> g c = true) ->
  SecurityValidator.str_forallb f s = true -> SecurityValidator.str_forallb g s = true.
Proof.
  intros Himp. induction s as [|c s IH]; simpl; [reflexivity|].
  intros H. apply andb_prop in H. destruct H as [Hc Hs].
  rewrite (Himp _ Hc), (IH Hs). reflexivity.
Qed.

Lemma allowed_not_slash c :
  SecurityValidator.allowed_char c = true -> negb (c =? Path.slash)%char = true.
Proof.
  intros H. destruct (Ascii.eqb_spec c Path.slash) as [->|Hne]; [|reflexivity].
  vm_compute in H. discriminate.
Qed.

(** A validated name is one path segment that [normalize] keeps. *)
Lemma allowed_kept s :
  s <> "" ->
  SecurityValidator.str_forallb SecurityValidator.allowed_char s = true ->
  Path.kept s.
Proof.
  intros Hne Hall. split; [|split; [exact Hne|split]].
  - eapply str_forallb_impl; [exact allowed_not_slash | exact Hall].
  - intros ->. vm_compute in Hall. discriminate.
  - intros ->. vm_compute in Hall. discriminate.
Qed.

Lemma validatePluginName_Ok_iff v s :
  PluginNames.validatePluginName v = Ok s <->
  v = JStr s /\ s <> "" /\ SecurityValidator.str_forallb SecurityValidator.allowed_char s = true.
Proof.
  unfold PluginNames.validatePluginName.
  destruct v as [| |b|n|t|l|fs|nm fs]; try (split; [discriminate | intros [? _]; discriminate]).
  cbn [truthy]. destruct (String.eqb_spec t "") as [->|Hne]; cbn [negb].
  - split; [discriminate|]. intros (H & Hn & _). congruence.
  - destruct (String.eqb_spec (SecurityValidator.str_filter SecurityValidator.allowed_char t) t)
      as [Heq|Hneq]; cbn [negb orb].
    + rewrite Heq.
      destruct (Nat.eqb_spec (String.length t) 0) as [H0|H0].
      * apply string_length_zero in H0. contradiction.
      * apply str_filter_fixed in Heq. split.
        -- intros [= <-]. auto.
        -- intros ([= <-] & _ & _). reflexivity.
    + split; [discriminate|].
      intros ([= <-] & _ & Hall). apply str_filter_fixed in Hall. contradiction.
Qed.

Lemma commonValidateTenantId_Ok_iff v s :
  CommonValidators.validateTenantId v = Ok s <->
  v = JStr s /\ s <> "" /\ SecurityValidator.str_forallb SecurityValidator.allowed_char s = true.
Proof.
  unfold CommonValidators.validateTenantId, CommonValidators.idPattern.
  destruct v as [| |b|n|t|l|fs|nm fs]; try (split; [discriminate | intros [? _]; discriminate]).
  cbn [truthy]. destruct (String.eqb_spec t "") as [->|Hne]; cbn [negb andb].
  - split; [discriminate|]. intros (H & Hn & _). congruence.
  - destruct (SecurityValidator.str_forallb SecurityValidator.allowed_char t) eqn:Hall;
      cbn [negb].
    + split; [intros [= <-]; auto | intros ([= <-] & _); reflexivity].
    + split; [discriminate|]. intros ([= <-] & _ & H). congruence.
Qed.

(** X9: the three validators accept the same values and return them
    unchanged: [validatePluginName] and the sample tenant's
    [CommonValidators.validateTenantId] succeed exactly where
    [SecurityValidator.validateTenantId] does; what they accept is a single
    path segment, free of slashes and different from "." and "..", and
    validating it again gives it back. *)
Theorem validators_agree :
  forall v s,
    (PluginNames.validatePluginName v = Ok s
     <-> SecurityValidator.validateTenantId v = Ok s)
    /\ (CommonValidators.validateTenantId v = Ok s
        <-> SecurityValidator.validateTenantId v = Ok s)
    /\ (SecurityValidator.validateTenantId v = Ok s ->
        Path.kept s /\ Path.split s = [s] /\ Path.basename s = s
        /\ SecurityValidator.validateTenantId (JStr s) = Ok s).
Proof.
  intros v s. split; [|split].
  - rewrite validatePluginName_Ok_iff, validateTenantId_Ok_iff. reflexivity.
  - rewrite commonValidateTenantId_Ok_iff, validateTenantId_Ok_iff. reflexivity.
  - intros Hv. apply validateTenantId_Ok_iff in Hv. destruct Hv as (_ & Hne & Hall).
    pose proof (allowed_kept s Hne Hall) as Hkept.
    assert (Hsplit : Path.split s = [s]) by (apply split_slashFree, Hkept).
    split; [exact Hkept|]. split; [exact Hsplit|]. split.
    + unfold Path.basename. rewrite Hsplit. cbn.
      destruct (decide (s <> "")); [reflexivity | contradiction].
    + apply validateTenantId_Ok_iff. auto.
Qed.

Lemma validators_agree_witness :
  Path.split "cache_v2" = ["cache_v2"].
Proof.
  destruct (validators_agree (JStr "cache_v2") "cache_v2") as (_ & _ & H).
  exact (proj1 (proj2 (H eq_refl))).
Defined.

(** ** MultiTenantServer: the order of the core plugins *)

Lemma includes_elem names name :
  CorePlugins.includes names name = true <-> name ∈ names.
Proof.
  unfold CorePlugins.includes. rewrite existsb_exists, list_elem_of_In. split.
  - intros (n & Hin & Heq). apply String.eqb_eq in Heq. subst. exact Hin.
  - intros Hin. exists name. split; [exact Hin | apply String.eqb_refl].
Qed.

Lemma elem_of_bfilter {A} (f : A -> bool) (l : list A) x :
  x ∈ List.filter f l <-> x ∈ l /\ f x = true.
Proof. rewrite !list_elem_of_In. apply filter_In. Qed.

Lemma NoDup_bfilter {A} (f : A -> bool) (l : list A) :
  NoDup l -> NoDup (List.filter f l).
Proof.
  induction 1 as [|x l Hx Hl IH]; simpl; [constructor|].
  destruct (f x); [|exact IH].
  constructor; [|exact IH]. rewrite elem_of_bfilter. tauto.
Qed.

(** X10: [loadCorePlugins] loads only directories that exist under
    [plugins]; every directory that is not hidden is loaded; a hidden one is
    loaded only when [coreOrder] lists it; the listed ones come first, in
    the order of [coreOrder]; and when neither list repeats a name, no
    plugin is loaded twice, so that (no listed directory being hidden) the
    load order is a rearrangement of the visible directories. *)
Theorem orderedPlugins_spec :
  forall coreOrder pluginDirs,
    let ordered := CorePlugins.orderedPlugins coreOrder pluginDirs in
    (forall name, name ∈ ordered -> name ∈ pluginDirs)
    /\ (forall name, name ∈ pluginDirs -> CorePlugins.hidden name = false ->
                     name ∈ ordered)
    /\ (forall name, name ∈ ordered -> CorePlugins.hidden name = true ->
                     name ∈ coreOrder)
    /\ (exists rest,
          ordered = List.filter (fun name => CorePlugins.includes pluginDirs name) coreOrder
                    ++ rest
          /\ forall name, name ∈ rest -> name ∉ coreOrder)
    /\ (NoDup coreOrder -> NoDup pluginDirs ->
        NoDup ordered
        /\ ((forall name, name ∈ coreOrder -> name ∈ pluginDirs ->
                          CorePlugins.hidden name = false) ->
            ordered ≡ₚ List.filter (fun name => negb (CorePlugins.hidden name)) pluginDirs)).
Proof.
  intros coreOrder pluginDirs ordered. subst ordered. unfold CorePlugins.orderedPlugins.
  assert (Helem : forall name,
    name ∈ (List.filter (fun name => CorePlugins.includes pluginDirs name) coreOrder
            ++ List.filter (fun name => negb (CorePlugins.includes coreOrder name)
                                        && negb (CorePlugins.hidden name)) pluginDirs)
    <-> (name ∈ coreOrder /\ name ∈ pluginDirs)
        \/ (name ∈ pluginDirs /\ (name ∉ coreOrder) /\ CorePlugins.hidden name = false)).
  { intros name. rewrite elem_of_app, !elem_of_bfilter, includes_elem.
    rewrite andb_true_iff, !negb_true_iff.
    rewrite <- (includes_elem coreOrder name).
    destruct (CorePlugins.includes coreOrder name); intuition congruence. }
  split; [|split; [|split; [|split]]].
  - intros name Hin. apply Helem in Hin. tauto.
  - intros name Hin Hvis. apply Helem.
    destruct (decide (name ∈ coreOrder)); [left|right]; tauto.
  - intros name Hin Hhid. apply Helem in Hin.
    destruct Hin as [[? ?]|(_ & _ & Hvis)]; [assumption | congruence].
  - eexists. split; [reflexivity|].
    intros name Hin. apply elem_of_bfilter in Hin. destruct Hin as [_ Hf].
    apply andb_true_iff in Hf. destruct Hf as [Hf _]. apply negb_true_iff in Hf.
    intros Hc. apply includes_elem in Hc. congruence.
  - intros Hcore Hdirs.
    assert (Hnd : NoDup
      (List.filter (fun name => CorePlugins.includes pluginDirs name) coreOrder
       ++ List.filter (fun name => negb (CorePlugins.includes coreOrder name)
                                   && negb (CorePlugins.hidden name)) pluginDirs)).
    { apply NoDup_app. split; [apply NoDup_bfilter, Hcore|].
      split; [|apply NoDup_bfilter, Hdirs].
      intros name H1 H2. apply elem_of_bfilter in H1, H2.
      destruct H1 as [H1 _]. destruct H2 as [_ H2].
      apply andb_true_iff in H2. destruct H2 as [H2 _]. apply negb_true_iff in H2.
      apply includes_elem in H1. congruence. }
    split; [exact Hnd|].
    intros Hvisible. apply NoDup_Permutation; [exact Hnd | apply NoDup_bfilter, Hdirs|].
    intros name. rewrite Helem, elem_of_bfilter, negb_true_iff. split.
    + intros [[Hc Hd]|(Hd & _ & Hvis)]; [split; [exact Hd | apply Hvisible; assumption]|].
      split; assumption.
    + intros [Hd Hvis]. destruct (decide (name ∈ coreOrder)); [left|right]; tauto.
Qed.

Lemma orderedPlugins_spec_witness :
  NoDup (CorePlugins.orderedPlugins ["database"; "auth"; "logger"]
           ["logger"; ".cache"; "metrics"; "database"]).
Proof.
  destruct (orderedPlugins_spec ["database"; "auth"; "logger"]
              ["logger"; ".cache"; "metrics"; "database"]) as (_ & _ & _ & _ & H).
  apply H; apply NoDup_ListNoDup; repeat constructor; simpl; intuition discriminate.
Defined.

(** ** PluginManager *)

Lemma split_nonempty s : Path.split s <> [].
Proof.
  destruct s as [|c s]; simpl; [discriminate|].
  destruct (c =? Path.slash)%char; [discriminate|].
  destruct (Path.split s); discriminate.
Qed.

Lemma split_app a b :
  Path.split (a +:+ String "/" b) = Path.split a ++ Path.split b.
Proof.
  induction a as [|c a IH]; [reflexivity|].
  change (String c a +:+ String "/" b) with (String c (a +:+ String "/" b)).
  simpl. rewrite IH.
  destruct (c =? Path.slash)%char; [reflexivity|].
  pose proof (split_nonempty a) as Hne.
  destruct (Path.split a) as [|seg segs]; [congruence | reflexivity].
Qed.

Lemma normalize_app l1 : forall stack l2,
  Path.normalize stack (l1 ++ l2)
  = Path.normalize (rev (Path.normalize stack l1)) l2.
Proof.
  induction l1 as [|seg l1 IH]; intros stack l2; simpl.
  - rewrite rev_involutive. reflexivity.
  - destruct ((seg =? "")%string || (seg =? ".")%string); [apply IH|].
    destruct (seg =? "..")%string; apply IH.
Qed.

Lemma endsWithSlash_app x t :
  t <> "" -> PathJoin.endsWithSlash (x +:+ t) = PathJoin.endsWithSlash t.
Proof.
  intros Hne. induction x as [|c x IH]; [reflexivity|].
  change (String c x +:+ t) with (String c (x +:+ t)).
  simpl. destruct (x +:+ t) eqn:Hxt; [|exact IH].
  destruct x; simpl in Hxt; [contradiction | discriminate].
Qed.

Lemma append_empty_r s : s +:+ "" = s.
Proof.
  induction s as [|c s IH]; [reflexivity|].
  change (String c s +:+ "") with (String c (s +:+ "")). rewrite IH. reflexivity.
Qed.

Lemma join_kept_nonempty segs :
  segs <> [] -> Forall Path.kept segs -> Path.join segs <> "".
Proof.
  destruct segs as [|a [|b rest]]; [congruence| |].
  - intros _ H. inversion H as [|? ? (_ & Hne & _) _]; subst. exact Hne.
  - intros _ H. inversion H as [|? ? (_ & Hne & _) _]; subst.
    change (Path.join (a :: b :: rest)) with (a +:+ "/" +:+ Path.join (b :: rest)).
    destruct a; [contradiction | discriminate].
Qed.

(** [path.join] of a normalized absolute directory and clean segments just
    appends the segments. *)
Lemma join_rooted bs extra :
  Forall Path.kept bs -> Forall Path.kept extra -> extra <> [] ->
  PathJoin.join (("/" +:+ Path.join bs) :: extra) = "/" +:+ Path.join (bs ++ extra).
Proof.
  intros Hbs Hextra Hne. unfold PathJoin.join.
  assert (Hfilter : List.filter (fun arg => negb (arg =? "")%string) extra = extra).
  { clear Hne. induction Hextra as [|x l (_ & Hx & _) _ IH]; simpl; [reflexivity|].
    apply String.eqb_neq in Hx. rewrite Hx, IH. reflexivity. }
  cbn [List.filter]. change (("/" +:+ Path.join bs =? "")%string) with false.
  cbn [negb]. rewrite Hfilter.
  destruct extra as [|e extra']; [congruence|].
  change (Path.join (("/" +:+ Path.join bs) :: e :: extra'))
    with (("/" +:+ Path.join bs) +:+ String "/" (Path.join (e :: extra'))).
  set (tail := Path.join (e :: extra')).
  assert (Htail : tail <> "") by (apply join_kept_nonempty; [discriminate | assumption]).
  unfold PathJoin.normalizePath.
  change ((("/" +:+ Path.join bs) +:+ String "/" tail =? "")%string) with false.
  change (Path.isAbsolute (("/" +:+ Path.join bs) +:+ String "/" tail)) with true.
  cbv iota.
  assert (Hnorm : Path.normalize []
                    (Path.split (("/" +:+ Path.join bs) +:+ String "/" tail))
                  = bs ++ e :: extra').
  { rewrite split_app, normalize_app, (normalize_split_rooted _ Hbs).
    unfold tail. rewrite split_join.
    - rewrite (normalize_of_kept _ _ Hextra), rev_involutive. reflexivity.
    - discriminate.
    - eapply Forall_impl; [exact Hextra|]. intros x Hx. apply Hx. }
  rewrite Hnorm.
  assert (Hbody : Path.join (bs ++ e :: extra') <> "").
  { apply join_kept_nonempty; [destruct bs; discriminate | apply Forall_app; auto]. }
  apply String.eqb_neq in Hbody. rewrite Hbody.
  assert (Hslash : PathJoin.endsWithSlash (("/" +:+ Path.join bs) +:+ String "/" tail)
                   = false).
  { rewrite endsWithSlash_app by discriminate.
    assert (Hlast : forall segs, segs <> [] -> Forall Path.kept segs ->
              PathJoin.endsWithSlash (String "/" (Path.join segs)) = false).
    { clear. induction segs as [|a segs IH]; [congruence|]. intros _ Hall.
      inversion Hall as [|? ? (Hfree & Ha & _) Hrest]; subst.
      destruct segs as [|b segs'].
      - simpl Path.join. clear IH Hall Hrest.
        assert (Hgen : forall c, PathJoin.endsWithSlash (String c a) = false).
        { induction a as [|x a IHa]; [contradiction|]. intros c.
          rewrite slashFree_cons in Hfree. apply andb_prop in Hfree.
          destruct Hfree as [Hx Hfree]. apply negb_true_iff in Hx.
          destruct a as [|y a'].
          - simpl. exact Hx.
          - change (PathJoin.endsWithSlash (String c (String x (String y a'))))
              with (PathJoin.endsWithSlash (String x (String y a'))).
            apply IHa; [exact Hfree | discriminate]. }
        apply Hgen.
      - change (Path.join (a :: b :: segs'))
          with (a +:+ String "/" (Path.join (b :: segs'))).
        change (String "/" (a +:+ String "/" (Path.join (b :: segs'))))
          with (String "/" a +:+ String "/" (Path.join (b :: segs'))).
        rewrite endsWithSlash_app by discriminate.
        apply IH; [discriminate | exact Hrest]. }
    apply Hlast; [discriminate | exact Hextra]. }
  rewrite Hslash, append_empty_r. reflexivity.
Qed.

(** X11: for a name that [validatePluginName] accepts, the file that
    [loadLocalPlugin] probes and imports is the base root followed by
    [plugins/<name>/index.mjs], nothing else: it lies inside the base root,
    and [resolvePath] returns it as it is. *)
Theorem localPluginPath_inside :
  forall cwd dir r pluginName sanitizedName,
    baseDir r = Path.resolve cwd [dir] ->
    PluginNames.validatePluginName pluginName = Ok sanitizedName ->
    exists bs,
      Forall Path.kept bs
      /\ baseDir r = "/" +:+ Path.join bs
      /\ PluginManagerM.localPluginPath r sanitizedName
         = "/" +:+ Path.join (bs ++ ["plugins"; sanitizedName; "index.mjs"])
      /\ Path.within (baseDir r) (PluginManagerM.localPluginPath r sanitizedName) = true
      /\ PathResolverM.resolvePath cwd r
           (PluginManagerM.localPluginPath r sanitizedName) noOptions
         = Ok (PluginManagerM.localPluginPath r sanitizedName).
Proof.
  intros cwd dir r pluginName s Hbase Hv.
  apply validatePluginName_Ok_iff in Hv. destruct Hv as (_ & Hne & Hall).
  pose proof (allowed_kept s Hne Hall) as Hs.
  destruct (resolve_kept cwd [dir]) as (bs & Hbs & Hb).
  assert (Hextra : Forall Path.kept ["plugins"; s; "index.mjs"]).
  { repeat constructor; try exact Hs; try discriminate; apply Hs. }
  assert (Hpath : PluginManagerM.localPluginPath r s
                  = "/" +:+ Path.join (bs ++ ["plugins"; s; "index.mjs"])).
  { unfold PluginManagerM.localPluginPath. rewrite Hbase, Hb.
    apply join_rooted; [exact Hbs | exact Hextra | discriminate]. }
  exists bs. split; [exact Hbs|]. split; [congruence|]. split; [exact Hpath|].
  split.
  - rewrite Hpath, Hbase, Hb. unfold Path.within.
    rewrite !normalize_split_rooted by (try apply Forall_app; auto).
    apply bool_decide_eq_true. apply take_app_length.
  - apply resolvePath_absolute. rewrite Hpath. reflexivity.
Qed.

Lemma localPluginPath_inside_witness :
  Path.within (baseDir Sample.resolver)
    (PluginManagerM.localPluginPath Sample.resolver "auth") = true.
Proof.
  destruct (localPluginPath_inside Sample.cwd "/srv/app" Sample.resolver (JStr "auth") "auth"
              eq_refl eq_refl) as (bs & _ & _ & _ & Hin & _).
  exact Hin.
Defined.

Example localPluginPath_auth :
  PluginManagerM.localPluginPath Sample.resolver "auth" = "/srv/app/plugins/auth/index.mjs".
Proof. vm_compute. reflexivity. Qed.

Lemma registerWith_cases appRegister pm cache registration :
  let out := PluginManagerM.registerWith appRegister pm cache registration in
  pluginCache (snd out) = cache
  /\ ((success (fst out) = true
       /\ plugin (fst out) = Some (reg_plugin registration)
       /\ registered (snd out) = registered pm ++ [registration])
      \/ (success (fst out) = false
          /\ is_Some (error (fst out))
          /\ registered (snd out) = registered pm)).
Proof.
  unfold PluginManagerM.registerWith.
  destruct (appRegister (registered pm) registration); simpl;
    (split; [reflexivity|]); [left | right]; eauto.
Qed.

Lemma insert_keeps {A} (m : gmap string A) key (x : A) k p :
  m !! key = None -> m !! k = Some p -> <[key := x]> m !! k = Some p.
Proof.
  intros Hnone Hk. rewrite lookup_insert_ne; [exact Hk|]. congruence.
Qed.

(** What a call of [loadLocalPlugin] does to the plugin manager. *)
Lemma loadLocalPlugin_state appRegister env r pm pluginName options :
  let out := PluginManagerM.loadLocalPlugin appRegister env r pm pluginName options in
  (forall k p, pluginCache pm !! k = Some p -> pluginCache (snd out) !! k = Some p)
  /\ match fst out with
     | Ok res =>
         length (registered (snd out))
         = length (registered pm) + (if success res then 1 else 0)
     | Throw _ => snd out = pm
     end.
Proof.
  unfold PluginManagerM.loadLocalPlugin.
  destruct (PluginNames.validatePluginName pluginName) as [name|]; [|simpl; auto].
  cbv zeta.
  destruct (pluginCache pm !! ("local:" +:+ name)) as [p|] eqn:Hcache.
  - match goal with |- context [PluginManagerM.registerWith ?a ?b ?c ?d] =>
      pose proof (registerWith_cases a b c d) as Hreg;
      destruct (PluginManagerM.registerWith a b c d) as [res pm'] end.
    simpl in *. destruct Hreg as [Hc [(Hs & _ & Hr)|(Hs & _ & Hr)]];
      rewrite Hc, Hr, Hs; split; auto; rewrite ?length_app; simpl; lia.
  - destruct (ResourceLoader.pathExists env r _ noOptions); simpl; [|split; [auto|lia]].
    destruct (importDefault env _) as [p|]; simpl; [|split; [auto|lia]].
    destruct (PluginManagerM.isFunction p); simpl; [|split; [auto|lia]].
    match goal with |- context [PluginManagerM.registerWith ?a ?b ?c ?d] =>
      pose proof (registerWith_cases a b c d) as Hreg;
      destruct (PluginManagerM.registerWith a b c d) as [res pm'] end.
    simpl in *. destruct Hreg as [Hc [(Hs & _ & Hr)|(Hs & _ & Hr)]];
      rewrite Hc, Hr, Hs; (split; [intros k q Hk; apply insert_keeps; assumption|]);
      rewrite ?length_app; simpl; lia.
Qed.

(** X12: [loadLocalPlugin] throws exactly on a name the validator refuses,
    and then changes nothing; it never drops a cached plugin; a success
    leaves the returned plugin cached under [local:<name>] and adds one
    registration of it with the caller's options; a failure adds no
    registration; and once a plugin is cached, the outcome no longer depends
    on the filesystem or the module loader. *)
Theorem loadLocalPlugin_spec :
  forall appRegister env r pm pluginName options,
    let out := PluginManagerM.loadLocalPlugin appRegister env r pm pluginName options in
    ((exists e, fst out = Throw e)
     <-> (exists e, PluginNames.validatePluginName pluginName = Throw e))
    /\ ((exists e, fst out = Throw e) -> snd out = pm)
    /\ (forall k p, pluginCache pm !! k = Some p -> pluginCache (snd out) !! k = Some p)
    /\ (forall res, fst out = Ok res -> success res = true ->
          exists name p,
            PluginNames.validatePluginName pluginName = Ok name
            /\ plugin res = Some p
            /\ pluginCache (snd out) !! ("local:" +:+ name) = Some p
            /\ registered (snd out)
               = registered pm
                 ++ [{| reg_plugin := p; reg_options := Deepmerge.spread options;
                        reg_withApp := true |}])
    /\ (forall res, fst out = Ok res -> success res = false ->
          registered (snd out) = registered pm /\ is_Some (error res))
    /\ (forall name p env' r',
          PluginNames.validatePluginName pluginName = Ok name ->
          pluginCache pm !! ("local:" +:+ name) = Some p ->
          PluginManagerM.loadLocalPlugin appRegister env' r' pm pluginName options = out).
Proof.
  intros appRegister env r pm pluginName options out.
  pose proof (loadLocalPlugin_state appRegister env r pm pluginName options) as [Hmono _].
  fold out in Hmono. subst out. unfold PluginManagerM.loadLocalPlugin in *.
  destruct (PluginNames.validatePluginName pluginName) as [name|e0] eqn:Hv.
  2:{ simpl. repeat split; eauto; intros; discriminate. }
  cbv zeta in *.
  destruct (pluginCache pm !! ("local:" +:+ name)) as [p|] eqn:Hcache.
  - match goal with |- context [PluginManagerM.registerWith ?a ?b ?c ?d] =>
      pose proof (registerWith_cases a b c d) as Hreg;
      destruct (PluginManagerM.registerWith a b c d) as [res pm'] eqn:Hrw end.
    simpl in Hreg. destruct Hreg as [Hc Hcases]. cbn [fst snd] in *.
    split; [split; intros [e He]; discriminate|].
    split; [intros [e He]; discriminate|].
    split; [exact Hmono|]. split; [|split].
    + intros res0 [= <-] Hs.
      destruct Hcases as [(_ & Hp & Hr)|(Hf & _)]; [|congruence].
      exists name, p. rewrite Hc. auto.
    + intros res0 [= <-] Hs.
      destruct Hcases as [(Ht & _)|(_ & He & Hr)]; [congruence | auto].
    + intros name' p' env' r' [= <-] Hp'. reflexivity.
  - split; [split; intros [e He]; [|discriminate]|].
    { destruct (negb _); [discriminate|]. destruct (importDefault env _); [|discriminate].
      destruct (negb _); [discriminate|].
      destruct (PluginManagerM.registerWith _ _ _ _); discriminate. }
    split.
    { intros [e He]. destruct (negb _); [discriminate|].
      destruct (importDefault env _); [|discriminate].
      destruct (negb _); [discriminate|].
      destruct (PluginManagerM.registerWith _ _ _ _); discriminate. }
    split; [exact Hmono|].
    destruct (negb (ResourceLoader.pathExists env r _ noOptions)).
    { cbn [fst snd]. split; [intros res [= <-]; discriminate|].
      split; [intros res [= <-] _; simpl; eauto|].
      intros name' p' env' r' [= <-] Hp'. congruence. }
    destruct (importDefault env _) as [p|e1].
    2:{ cbn [fst snd]. split; [intros res [= <-]; discriminate|].
        split; [intros res [= <-] _; simpl; eauto|].
        intros name' p' env' r' [= <-] Hp'. congruence. }
    destruct (negb (PluginManagerM.isFunction p)).
    { cbn [fst snd]. split; [intros res [= <-]; discriminate|].
      split; [intros res [= <-] _; simpl; eauto|].
      intros name' p' env' r' [= <-] Hp'. congruence. }
    match goal with |- context [PluginManagerM.registerWith ?a ?b ?c ?d] =>
      pose proof (registerWith_cases a b c d) as Hreg;
      destruct (PluginManagerM.registerWith a b c d) as [res pm'] eqn:Hrw end.
    simpl in Hreg. destruct Hreg as [Hc Hcases]. cbn [fst snd] in *.
    split; [|split].
    + intros res0 [= <-] Hs.
      destruct Hcases as [(_ & Hp & Hr)|(Hf & _)]; [|congruence].
      exists name, p. rewrite Hc, lookup_insert_eq. auto.
    + intros res0 [= <-] Hs.
      destruct Hcases as [(Ht & _)|(_ & He & Hr)]; [congruence | auto].
    + intros name' p' env' r' [= <-] Hp'. congruence.
Qed.

Lemma loadLocalPlugin_spec_witness :
  let pm := {| pluginCache := {["local:auth" := JFun "auth" []]}; registered := [] |} in
  PluginManagerM.loadLocalPlugin (fun _ _ => Ok tt) Sample.env
    {| baseDir := "/elsewhere"; trustedPackagePaths := [] |} pm (JStr "auth") (JObj [])
  = PluginManagerM.loadLocalPlugin (fun _ _ => Ok tt) Sample.env Sample.resolver
      pm (JStr "auth") (JObj []).
Proof.
  intros pm.
  destruct (loadLocalPlugin_spec (fun _ _ => Ok tt) Sample.env Sample.resolver pm
              (JStr "auth") (JObj [])) as (_ & _ & _ & _ & _ & Hhit).
  apply (Hhit "auth" (JFun "auth" [])); [reflexivity|].
  apply lookup_singleton_eq.
Defined.

Lemma loadOne_state appRegister env r pm pluginName options :
  let out := PluginManagerM.loadOne appRegister env r pm pluginName options in
  (forall k p, pluginCache pm !! k = Some p -> pluginCache (snd out) !! k = Some p)
  /\ length (registered (snd out))
     = length (registered pm) + (if PluginManagerM.e_success (fst out) then 1 else 0).
Proof.
  unfold PluginManagerM.loadOne.
  destruct (getprop options pluginName) as [v|]; [|simpl; split; [auto|lia]].
  pose proof (loadLocalPlugin_state appRegister env r pm (JStr pluginName)
                (js_or v (JObj []))) as Hst.
  destruct (PluginManagerM.loadLocalPlugin appRegister env r pm (JStr pluginName)
              (js_or v (JObj []))) as [[res|e] pm']; simpl in *.
  - exact Hst.
  - destruct Hst as [Hmono ->]. split; [auto|lia].
Qed.

Lemma loadEach_state appRegister env r options pluginNames : forall pm acc count,
  let out := PluginManagerM.loadEach appRegister env r pm pluginNames options acc count in
  length (fst (fst out)) = length acc + length pluginNames
  /\ snd (fst out) + length (List.filter PluginManagerM.e_success acc)
     = count + length (List.filter PluginManagerM.e_success (fst (fst out)))
  /\ length (registered (snd out)) + count = length (registered pm) + snd (fst out)
  /\ (forall k p, pluginCache pm !! k = Some p -> pluginCache (snd out) !! k = Some p).
Proof.
  induction pluginNames as [|pluginName rest IH]; intros pm acc count; simpl.
  - repeat split; try lia; auto.
  - pose proof (loadOne_state appRegister env r pm pluginName options) as [Hmono Hlen].
    destruct (PluginManagerM.loadOne appRegister env r pm pluginName options)
      as [entry pm1]. simpl in Hmono, Hlen.
    specialize (IH pm1 (acc ++ [entry])
                  (if PluginManagerM.e_success entry then S count else count)).
    simpl in IH. destruct IH as (IH1 & IH2 & IH3 & IH4).
    rewrite length_app in IH1. simpl in IH1.
    rewrite List.filter_app, length_app in IH2. simpl in IH2.
    repeat split.
    + lia.
    + destruct (PluginManagerM.e_success entry); simpl in *; lia.
    + destruct (PluginManagerM.e_success entry); simpl in *; lia.
    + auto.
Qed.

(** X13: [loadLocalPlugins] never stops at a failure: it returns one entry
    per name, [total] is the number of names, [successCount] is the number
    of entries marked successful, which is also the number of registrations
    the application has accepted during the call, and no cached plugin is
    dropped. *)
Theorem loadLocalPlugins_spec :
  forall appRegister env r pm pluginNames options,
    let out := PluginManagerM.loadLocalPlugins appRegister env r pm pluginNames options in
    PluginManagerM.batchTotal (fst out) = length pluginNames
    /\ length (PluginManagerM.results (fst out)) = length pluginNames
    /\ PluginManagerM.successCount (fst out)
       = length (List.filter PluginManagerM.e_success (PluginManagerM.results (fst out)))
    /\ PluginManagerM.successCount (fst out) <= PluginManagerM.batchTotal (fst out)
    /\ length (registered (snd out))
       = length (registered pm) + PluginManagerM.successCount (fst out)
    /\ (forall k p, pluginCache pm !! k = Some p -> pluginCache (snd out) !! k = Some p).
Proof.
  intros appRegister env r pm pluginNames options out. subst out.
  unfold PluginManagerM.loadLocalPlugins.
  match goal with |- context [PluginManagerM.loadEach ?a ?b ?c ?d ?e ?f ?g ?h] =>
    pose proof (loadEach_state a b c f e d g h) as Hst;
    destruct (PluginManagerM.loadEach a b c d e f g h) as [[res count] pm'] end.
  simpl in *. destruct Hst as (H1 & H2 & H3 & H4).
  assert (Hle : length (List.filter PluginManagerM.e_success res) <= length res).
  { clear. induction res as [|x res IH]; simpl; [lia|].
    destruct (PluginManagerM.e_success x); simpl; lia. }
  repeat split; try lia. exact H4.
Qed.

(** ** Merged configurations *)

Lemma assoc_get_set k k' v fs :
  assoc_get k (assoc_set k' v fs) = if (k' =? k)%string then Some v else assoc_get k fs.
Proof.
  induction fs as [|[k0 v0] fs IH]; simpl.
  - reflexivity.
  - destruct (String.eqb_spec k0 k') as [->|Hne]; simpl.
    + destruct (String.eqb_spec k' k); reflexivity.
    + rewrite IH. destruct (String.eqb_spec k0 k) as [->|Hne0]; [|reflexivity].
      destruct (String.eqb_spec k' k); [congruence | reflexivity].
Qed.

Lemma assoc_get_None k (fs : list (string * JsVal)) :
  k ∉ fs.*1 -> assoc_get k fs = None.
Proof.
  induction fs as [|[k0 v0] fs IH]; simpl; [reflexivity|].
  intros Hnot. apply not_elem_of_cons in Hnot. destruct Hnot as [Hne Hnot].
  destruct (String.eqb_spec k0 k); [congruence | apply IH, Hnot].
Qed.

(** An assignment to another key, or to ["__proto__"], leaves a key as it
    is. *)
Lemma assoc_get_assign k key v destination :
  (k =? "__proto__")%string = false ->
  assoc_get k (Deepmerge.assign key v destination)
  = if (key =? k)%string then Some v else assoc_get k destination.
Proof.
  intros Hk. unfold Deepmerge.assign.
  destruct (String.eqb_spec key "__proto__") as [->|Hne].
  - rewrite String.eqb_sym, Hk. reflexivity.
  - apply assoc_get_set.
Qed.

Lemma ordinary_not_proto k :
  Deepmerge.named Deepmerge.objectPrototypeKeys k = false ->
  (k =? "__proto__")%string = false.
Proof.
  intros Hk. destruct (String.eqb_spec k "__proto__") as [->|]; [|reflexivity].
  vm_compute in Hk. discriminate Hk.
Qed.

(** On an object, a key that [Object.prototype] does not name is safe. *)
Lemma ordinary_safe fs k :
  Deepmerge.named Deepmerge.objectPrototypeKeys k = false ->
  Deepmerge.propertyIsUnsafe (JObj fs) k = false
  /\ Deepmerge.propertyIsOnObject (JObj fs) k = Deepmerge.ownEnumerable (JObj fs) k.
Proof.
  intros Hk. unfold Deepmerge.propertyIsUnsafe, Deepmerge.propertyIsOnObject.
  rewrite Hk, orb_false_r. split; [apply andb_negb_r | reflexivity].
Qed.

(** A key that [Object.prototype] names and the target does not hold is
    unsafe. *)
Lemma inherited_unsafe fs k :
  Deepmerge.named Deepmerge.objectPrototypeKeys k = true ->
  assoc_get k fs = None ->
  Deepmerge.propertyIsUnsafe (JObj fs) k = true.
Proof.
  intros Hk Hnone. unfold Deepmerge.propertyIsUnsafe, Deepmerge.propertyIsOnObject.
  cbn [Deepmerge.ownEnumerable]. rewrite Hk, Hnone, orb_true_r.
  rewrite bool_decide_eq_false_2 by (intros [x Hx]; discriminate). reflexivity.
Qed.

(** The loop over the source, key by key. *)
Lemma mergeProps_lookup f target k : forall sourceProps destination,
  NoDup sourceProps.*1 ->
  (k =? "__proto__")%string = false ->
  assoc_get k (Deepmerge.mergeProps f target sourceProps destination)
  = match assoc_get k sourceProps with
    | Some sv =>
        if Deepmerge.propertyIsUnsafe target k then assoc_get k destination
        else Some (if Deepmerge.propertyIsOnObject target k
                      && Deepmerge.isMergeableObject sv
                   then f sv (Deepmerge.targetProp target k) else Deepmerge.clone sv)
    | None => assoc_get k destination
    end.
Proof.
  induction sourceProps as [|[key sv] rest IH]; intros destination Hnd Hk;
    [reflexivity|].
  apply NoDup_cons in Hnd. destruct Hnd as [Hfresh Hnd]. cbn [fst] in Hfresh.
  cbn [Deepmerge.mergeProps assoc_get].
  destruct (String.eqb_spec key k) as [->|Hne].
  - destruct (Deepmerge.propertyIsUnsafe target k).
    + rewrite (IH _ Hnd Hk), (assoc_get_None _ _ Hfresh). reflexivity.
    + rewrite (IH _ Hnd Hk), (assoc_get_None _ _ Hfresh), (assoc_get_assign _ _ _ _ Hk),
        String.eqb_refl. reflexivity.
  - apply String.eqb_neq in Hne.
    destruct (Deepmerge.propertyIsUnsafe target key).
    + apply (IH _ Hnd Hk).
    + rewrite (IH _ Hnd Hk), (assoc_get_assign _ _ _ _ Hk), Hne. reflexivity.
Qed.

(** A key that the target inherits never gets into the merged object. *)
Lemma mergeProps_skips f target k : forall sourceProps destination,
  Deepmerge.propertyIsUnsafe target k = true ->
  assoc_get k (Deepmerge.mergeProps f target sourceProps destination)
  = assoc_get k destination.
Proof.
  induction sourceProps as [|[key sv] rest IH]; intros destination Hk; [reflexivity|].
  cbn [Deepmerge.mergeProps].
  destruct (Deepmerge.propertyIsUnsafe target key) eqn:Hkey; [apply (IH _ Hk)|].
  rewrite (IH _ Hk). unfold Deepmerge.assign.
  destruct (key =? "__proto__")%string; [reflexivity|].
  rewrite assoc_get_set.
  destruct (String.eqb_spec key k) as [->|]; [congruence | reflexivity].
Qed.

Lemma named_keys k (fs : list (string * JsVal)) :
  Deepmerge.named fs.*1 k = bool_decide (is_Some (assoc_get k fs)).
Proof.
  induction fs as [|[k0 v0] fs IH]; cbn [fmap list_fmap fst assoc_get].
  - rewrite bool_decide_eq_false_2 by (intros [x Hx]; discriminate). reflexivity.
  - unfold Deepmerge.named in *. cbn [existsb]. rewrite IH, (String.eqb_sym k k0).
    destruct (k0 =? k)%string; cbn [orb]; [|reflexivity].
    rewrite bool_decide_eq_true_2 by eauto. reflexivity.
Qed.

(** The copy of the target that the merge starts from. *)
Lemma destination0_lookup fs k :
  (k =? "__proto__")%string = false ->
  assoc_get k (Deepmerge.destination0 (JObj fs)) = Deepmerge.clone <$> assoc_get k fs.
Proof.
  intros Hk. unfold Deepmerge.destination0.
  assert (Hfold : forall keys destination,
    assoc_get k (fold_left (fun destination key =>
                    Deepmerge.assign key
                      (Deepmerge.clone (Deepmerge.targetProp (JObj fs) key)) destination)
                  keys destination)
    = if Deepmerge.named keys k
      then Some (Deepmerge.clone (Deepmerge.targetProp (JObj fs) k))
      else assoc_get k destination).
  { induction keys as [|key keys IH]; intros destination; [reflexivity|].
    cbn [fold_left]. rewrite IH, (assoc_get_assign _ _ _ _ Hk).
    unfold Deepmerge.named. cbn [existsb]. rewrite (String.eqb_sym k key).
    destruct (String.eqb_spec key k) as [->|]; cbn [orb].
    - destruct (existsb (String.eqb k) keys); reflexivity.
    - reflexivity. }
  rewrite Hfold, named_keys. cbn [Deepmerge.targetProp assoc_get].
  destruct (assoc_get k fs) as [v|].
  - rewrite bool_decide_eq_true_2 by eauto. reflexivity.
  - rewrite bool_decide_eq_false_2 by (intros [x Hx]; discriminate). reflexivity.
Qed.

Lemma merge_objects target source :
  Deepmerge.merge (JObj target) (JObj source)
  = Ok (JObj (Deepmerge.mergeProps Deepmerge.mergeInto (JObj target) source
                (Deepmerge.destination0 (JObj target)))).
Proof. reflexivity. Qed.

(** A merged object, key by key, for a key that [Object.prototype] does not
    name: a key of the source takes a clone of the source's value (merged
    with the target's when the target holds the key and the source's value
    is an object or an array), another key keeps a clone of the target's. *)
Lemma merge_lookup target source k :
  NoDup source.*1 ->
  Deepmerge.named Deepmerge.objectPrototypeKeys k = false ->
  exists merged,
    Deepmerge.merge (JObj target) (JObj source) = Ok (JObj merged)
    /\ assoc_get k merged
       = match assoc_get k source with
         | Some sv =>
             Some (if Deepmerge.ownEnumerable (JObj target) k
                      && Deepmerge.isMergeableObject sv
                   then Deepmerge.mergeInto sv (Deepmerge.targetProp (JObj target) k)
                   else Deepmerge.clone sv)
         | None => Deepmerge.clone <$> assoc_get k target
         end.
Proof.
  intros Hnd Hk. eexists. split; [apply merge_objects|].
  pose proof (ordinary_not_proto _ Hk) as Hp.
  destruct (ordinary_safe target k Hk) as [Hsafe Hon].
  rewrite (mergeProps_lookup _ _ _ _ _ Hnd Hp), Hsafe, Hon, (destination0_lookup _ _ Hp).
  reflexivity.
Qed.

(** The merge of a nested object into the target's, key by key. *)
Lemma mergeObject_lookup fields defaults k :
  NoDup fields.*1 ->
  Deepmerge.named Deepmerge.objectPrototypeKeys k = false ->
  assoc_get k (Deepmerge.mergeProps Deepmerge.mergeInto (JObj defaults) fields
                 (Deepmerge.destination0 (JObj defaults)))
       = match assoc_get k fields with
         | Some sv =>
             Some (if Deepmerge.ownEnumerable (JObj defaults) k
                      && Deepmerge.isMergeableObject sv
                   then Deepmerge.mergeInto sv (Deepmerge.targetProp (JObj defaults) k)
                   else Deepmerge.clone sv)
         | None => Deepmerge.clone <$> assoc_get k defaults
         end.
Proof.
  intros Hnd Hk.
  pose proof (ordinary_not_proto _ Hk) as Hp.
  destruct (ordinary_safe defaults k Hk) as [Hsafe Hon].
  rewrite (mergeProps_lookup _ _ _ _ _ Hnd Hp), Hsafe, Hon, (destination0_lookup _ _ Hp).
  reflexivity.
Qed.

(** A clone is the merge into the empty target, as the package has it. *)
Lemma cloneProps_mergeProps : forall sourceProps destination,
  Deepmerge.mergeProps Deepmerge.mergeInto (JObj []) sourceProps destination
  = Deepmerge.cloneProps Deepmerge.clone sourceProps destination.
Proof.
  induction sourceProps as [|[key sv] rest IH]; intros destination; [reflexivity|].
  cbn [Deepmerge.mergeProps Deepmerge.cloneProps].
  unfold Deepmerge.propertyIsUnsafe, Deepmerge.propertyIsOnObject.
  cbn [Deepmerge.ownEnumerable assoc_get].
  rewrite bool_decide_eq_false_2 by (intros [x Hx]; discriminate).
  cbn [orb negb]. rewrite andb_true_r.
  destruct (Deepmerge.named Deepmerge.objectPrototypeKeys key); cbn [andb]; apply IH.
Qed.

Lemma clone_merge v :
  Deepmerge.isMergeableObject v = true ->
  Deepmerge.clone v
  = Deepmerge.mergeInto v (if Deepmerge.isArray v then JArr [] else JObj []).
Proof.
  destruct v; try discriminate; intros _; cbn [Deepmerge.isArray].
  - reflexivity.
  - cbn [Deepmerge.mergeInto Deepmerge.clone]. rewrite cloneProps_mergeProps.
    reflexivity.
Qed.

Lemma clone_plain v : Deepmerge.isMergeableObject v = false -> Deepmerge.clone v = v.
Proof. destruct v; try discriminate; reflexivity. Qed.

Lemma destination0_absent fs k :
  assoc_get k fs = None -> assoc_get k (Deepmerge.destination0 (JObj fs)) = None.
Proof.
  intros Hnone. unfold Deepmerge.destination0.
  assert (Hfold : forall keys destination,
    Deepmerge.named keys k = false ->
    assoc_get k (fold_left (fun destination key =>
                    Deepmerge.assign key
                      (Deepmerge.clone (Deepmerge.targetProp (JObj fs) key)) destination)
                  keys destination)
    = assoc_get k destination).
  { induction keys as [|key keys IH]; intros destination Hkeys; [reflexivity|].
    unfold Deepmerge.named in Hkeys. cbn [existsb] in Hkeys.
    apply orb_false_elim in Hkeys. destruct Hkeys as [Hkey Hkeys].
    cbn [fold_left]. rewrite (IH _ Hkeys). unfold Deepmerge.assign.
    destruct (key =? "__proto__")%string; [reflexivity|].
    rewrite assoc_get_set, (String.eqb_sym key k), Hkey. reflexivity. }
  rewrite Hfold; [reflexivity|].
  rewrite named_keys, Hnone.
  apply bool_decide_eq_false_2. intros [x Hx]; discriminate.
Qed.

Lemma clean_lookup fs k v :
  cleanProps fs -> assoc_get k fs = Some v ->
  Deepmerge.named Deepmerge.objectPrototypeKeys k = false /\ Deepmerge.clone v = v.
Proof.
  intros Hclean Hget. induction Hclean as [|[k0 v0] fs' H0 _ IH]; [discriminate|].
  cbn [assoc_get] in Hget. destruct (String.eqb_spec k0 k) as [<-|_]; [|exact (IH Hget)].
  injection Hget as <-. exact H0.
Qed.

Lemma clean_inherited fs k :
  cleanProps fs -> Deepmerge.named Deepmerge.objectPrototypeKeys k = true ->
  assoc_get k fs = None.
Proof.
  intros Hclean Hk. destruct (assoc_get k fs) as [v|] eqn:Hget; [|reflexivity].
  destruct (clean_lookup _ _ _ Hclean Hget) as [Hord _]. congruence.
Qed.

(** The default configuration holds no key that [Object.prototype] names,
    at either level, so cloning leaves it as it is. *)
Lemma defaultConfig_clean penv :
  exists dflt,
    ConfigurationManager.getDefaultConfig penv = JObj dflt
    /\ assoc_get "" dflt = None
    /\ cleanProps dflt
    /\ forall section fs, assoc_get section dflt = Some (JObj fs) -> cleanProps fs.
Proof.
  eexists. split; [reflexivity|]. split; [reflexivity|].
  assert (Hvar : forall variable d,
            Deepmerge.clone d = d ->
            Deepmerge.clone (js_or (envVar variable) d) = js_or (envVar variable) d).
  { intros [s|] d Hd; unfold js_or; cbn [envVar truthy]; [|exact Hd].
    destruct (negb (s =? "")%string); [reflexivity | exact Hd]. }
  pose proof (Hvar (env_PORT penv) (JNum 3002) eq_refl) as Hport.
  pose proof (Hvar (env_HOST penv) (JStr "0.0.0.0") eq_refl) as Hhost.
  pose proof (Hvar (env_LOG_LEVEL penv) (JStr "info") eq_refl) as Hlevel.
  set (port := js_or (envVar (env_PORT penv)) (JNum 3002)) in *.
  set (host := js_or (envVar (env_HOST penv)) (JStr "0.0.0.0")) in *.
  set (level := js_or (envVar (env_LOG_LEVEL penv)) (JStr "info")) in *.
  clearbody port host level. clear Hvar.
  assert (Hserver : Deepmerge.clone (JObj [("port", port); ("host", host)])
                    = JObj [("port", port); ("host", host)]).
  { transitivity (JObj [("port", Deepmerge.clone port); ("host", Deepmerge.clone host)]);
      [vm_compute; reflexivity | rewrite Hport, Hhost; reflexivity]. }
  assert (Hlogger : Deepmerge.clone (JObj [("level", level)]) = JObj [("level", level)]).
  { transitivity (JObj [("level", Deepmerge.clone level)]);
      [vm_compute; reflexivity | rewrite Hlevel; reflexivity]. }
  split.
  - repeat constructor; cbn [fst snd]; try assumption; vm_compute; reflexivity.
  - intros section fs. cbn [assoc_get].
    repeat match goal with
    | |- context [(?a =? section)%string] => destruct (a =? section)%string
    end; intros [= <-]; repeat constructor; cbn [fst snd]; try assumption;
      vm_compute; reflexivity.
Qed.

(** X14: a new [ConfigurationManager] keeps every default section that the
    overrides do not name.  Inside a section that they do name, and for a
    key that [Object.prototype] does not name, a plain value replaces the
    default, a key left out keeps its default, and an array is appended to
    the default array, so an overriding [plugins.coreOrder] comes after the
    seven default names; a key that [Object.prototype] names is not taken
    over.  [get] without a key is the whole configuration. *)
Theorem configurationManager_spec :
  forall penv overrides,
    NoDup overrides.*1 ->
    exists config,
      ConfigurationManager.create penv (JObj overrides) = Ok (JObj config)
      /\ ConfigurationManager.get (JObj config) None = Ok (JObj config)
      /\ ConfigurationManager.get (JObj config) (Some "") = Ok (JObj config)
      /\ (forall section dv,
            assoc_get section overrides = None ->
            getprop (ConfigurationManager.getDefaultConfig penv) section = Ok dv ->
            dv <> JUndefined ->
            ConfigurationManager.get (JObj config) (Some section) = Ok dv)
      /\ (forall section fields defaults,
            assoc_get section overrides = Some (JObj fields) ->
            NoDup fields.*1 ->
            getprop (ConfigurationManager.getDefaultConfig penv) section
            = Ok (JObj defaults) ->
            exists merged,
              getprop (JObj config) section = Ok (JObj merged)
              /\ (forall key,
                    Deepmerge.named Deepmerge.objectPrototypeKeys key = false ->
                    assoc_get key fields = None ->
                    assoc_get key merged = assoc_get key defaults)
              /\ (forall key v,
                    Deepmerge.named Deepmerge.objectPrototypeKeys key = false ->
                    assoc_get key fields = Some v ->
                    Deepmerge.isMergeableObject v = false ->
                    assoc_get key merged = Some v)
              /\ (forall key items ditems,
                    Deepmerge.named Deepmerge.objectPrototypeKeys key = false ->
                    assoc_get key fields = Some (JArr items) ->
                    assoc_get key defaults = Some (JArr ditems) ->
                    assoc_get key merged
                    = Some (JArr (List.map Deepmerge.clone (ditems ++ items))))
              /\ (forall key,
                    Deepmerge.named Deepmerge.objectPrototypeKeys key = true ->
                    assoc_get key merged = None)).
Proof.
  intros penv overrides Hnd.
  destruct (defaultConfig_clean penv) as (dflt & Hdcfg & Hempty & Hclean & Hsections).
  unfold ConfigurationManager.create. rewrite Hdcfg.
  eexists. split; [apply merge_objects|].
  split; [reflexivity|]. split; [reflexivity|]. split.
  - intros section dv Hnone Hget Hdv.
    cbn [getprop] in Hget.
    destruct (assoc_get section dflt) as [v|] eqn:Hsec;
      cbn [default from_option Datatypes.id] in Hget; [|congruence].
    injection Hget as ->.
    destruct (clean_lookup _ _ _ Hclean Hsec) as [Hord Hclone].
    pose proof (ordinary_not_proto _ Hord) as Hp.
    unfold ConfigurationManager.get.
    destruct (String.eqb_spec section "") as [->|_]; [congruence|].
    cbn [getprop].
    rewrite (mergeProps_lookup _ _ _ _ _ Hnd Hp), Hnone, (destination0_lookup _ _ Hp), Hsec.
    cbn [fmap option_fmap option_map default from_option Datatypes.id].
    rewrite Hclone. reflexivity.
  - intros section fields defaults Hsec Hfields Hget.
    cbn [getprop] in Hget.
    destruct (assoc_get section dflt) as [v|] eqn:Hdv;
      cbn [default from_option Datatypes.id] in Hget; [|discriminate].
    injection Hget as ->.
    destruct (clean_lookup _ _ _ Hclean Hdv) as [Hord _].
    pose proof (Hsections _ _ Hdv) as Hvals.
    pose proof (ordinary_not_proto _ Hord) as Hp.
    destruct (ordinary_safe dflt section Hord) as [Hsafe Hon].
    cbn [getprop].
    rewrite (mergeProps_lookup _ _ _ _ _ Hnd Hp), Hsec, Hsafe, Hon.
    cbn [Deepmerge.ownEnumerable Deepmerge.isMergeableObject Deepmerge.targetProp].
    rewrite Hdv, bool_decide_eq_true_2 by eauto.
    cbn [andb default from_option Datatypes.id].
    exists (Deepmerge.mergeProps Deepmerge.mergeInto (JObj defaults) fields
              (Deepmerge.destination0 (JObj defaults))).
    split; [reflexivity|].
    split; [|split; [|split]].
    + intros key Hkey Hk.
      rewrite (mergeObject_lookup fields defaults key Hfields Hkey).
      rewrite Hk. destruct (assoc_get key defaults) as [v|] eqn:Hv; [|reflexivity].
      cbn [fmap option_fmap option_map].
      destruct (clean_lookup _ _ _ Hvals Hv) as [_ ->]. reflexivity.
    + intros key v Hkey Hk Hv.
      rewrite (mergeObject_lookup fields defaults key Hfields Hkey).
      rewrite Hk, Hv, andb_false_r, (clone_plain _ Hv). reflexivity.
    + intros key items ditems Hkey Hk Hd.
      rewrite (mergeObject_lookup fields defaults key Hfields Hkey).
      rewrite Hk. cbn [Deepmerge.ownEnumerable Deepmerge.targetProp
                       Deepmerge.isMergeableObject].
      rewrite Hd, bool_decide_eq_true_2 by eauto. reflexivity.
    + intros key Hkey.
      pose proof (clean_inherited _ _ Hvals Hkey) as Hnone.
      rewrite (mergeProps_skips _ _ _ _ _ (inherited_unsafe _ _ Hkey Hnone)).
      apply destination0_absent, Hnone.
Qed.

Lemma configurationManager_spec_witness :
  exists config,
    ConfigurationManager.create
      {| env_PORT := None; env_HOST := None; env_LOG_LEVEL := Some "debug" |}
      (JObj [("plugins", JObj [("coreOrder", JArr [JStr "database"])])])
    = Ok (JObj config).
Proof.
  destruct (configurationManager_spec
              {| env_PORT := None; env_HOST := None; env_LOG_LEVEL := Some "debug" |}
              [("plugins", JObj [("coreOrder", JArr [JStr "database"])])])
    as (config & Hc & _).
  - apply NoDup_ListNoDup. repeat constructor. simpl. tauto.
  - exists config. exact Hc.
Defined.

Example configurationManager_coreOrder_appended :
  (let* config := ConfigurationManager.create
    {| env_PORT := None; env_HOST := None; env_LOG_LEVEL := None |}
    (JObj [("plugins", JObj [("coreOrder", JArr [JStr "database"; JStr "auth"])])]) in
   ConfigurationManager.get config (Some "plugins"))
  = Ok (JObj [("coreOrder",
               JArr (ConfigurationManager.defaultCoreOrder ++ [JStr "database"; JStr "auth"]));
              ("npmPattern", JStr "fastify-multitenant-*")]).
Proof. vm_compute. reflexivity. Qed.

(** An override under a name of [Object.prototype] is not taken over. *)
Example configurationManager_inherited_key_skipped :
  (let* config := ConfigurationManager.create
    {| env_PORT := None; env_HOST := None; env_LOG_LEVEL := None |}
    (JObj [("plugins", JObj [("toString", JNum 5)])]) in
   ConfigurationManager.get config (Some "plugins"))
  = Ok (JObj [("coreOrder", JArr ConfigurationManager.defaultCoreOrder);
              ("npmPattern", JStr "fastify-multitenant-*")]).
Proof. vm_compute. reflexivity. Qed.

(** ** [ResourceLoader.loadConfig]: which file decides a key *)

Lemma loadConfig_fold env r configPath fs options dir files :
  (if truthy (isTrustedPath options) then Ok configPath
   else PathResolverM.resolvePath (proc_cwd env) r configPath noOptions) = Ok dir ->
  fastGlob_config env dir = Ok files ->
  ResourceLoader.loadConfig env r configPath (JObj fs) options
  = fold_left (ResourceLoader.mergeConfigFile env) files (JObj fs).
Proof.
  intros Hdir Hglob. unfold ResourceLoader.loadConfig.
  rewrite Hdir, Hglob, spread_object. destruct files; reflexivity.
Qed.

Lemma mergeConfigFile_object env c file :
  exportsObject env file ->
  exists c', ResourceLoader.mergeConfigFile env (JObj c) file = JObj c'
    /\ (forall k,
          Deepmerge.named Deepmerge.objectPrototypeKeys k = false ->
          leavesKey env k file ->
          (forall dv, assoc_get k c = Some dv -> Deepmerge.clone dv = dv) ->
          assoc_get k c' = assoc_get k c)
    /\ (forall k s v,
          Deepmerge.named Deepmerge.objectPrototypeKeys k = false ->
          ResourceLoader.readConfigFile env file = Ok (JObj s) ->
          assoc_get k s = Some v -> Deepmerge.isMergeableObject v = false ->
          assoc_get k c' = Some v)
    /\ (forall k,
          Deepmerge.named Deepmerge.objectPrototypeKeys k = true ->
          assoc_get k c = None -> assoc_get k c' = None).
Proof.
  intros Hobj. unfold ResourceLoader.mergeConfigFile, leavesKey.
  unfold exportsObject in Hobj.
  destruct (ResourceLoader.readConfigFile env file) as [v|e].
  - destruct (Hobj v eq_refl) as (s & -> & Hnd).
    rewrite merge_objects. eexists. split; [reflexivity|]. split; [|split].
    + intros k Hord Hk Hclean.
      rewrite (mergeObject_lookup _ _ _ Hnd Hord), (Hk s eq_refl).
      destruct (assoc_get k c) as [dv|]; [|reflexivity].
      cbn [fmap option_fmap option_map]. rewrite (Hclean dv eq_refl). reflexivity.
    + intros k s' v Hord Hs Hv Hplain. injection Hs as <-.
      rewrite (mergeObject_lookup _ _ _ Hnd Hord), Hv, Hplain, andb_false_r,
        (clone_plain _ Hplain).
      reflexivity.
    + intros k Hk Hnone.
      rewrite (mergeProps_skips _ _ _ _ _ (inherited_unsafe _ _ Hk Hnone)).
      apply destination0_absent, Hnone.
  - exists c. split; [reflexivity|]. split; [reflexivity|]. split.
    + intros k s v _ Hs. discriminate Hs.
    + intros k _ Hnone. exact Hnone.
Qed.

Lemma mergeConfigFiles_object env files : forall c,
  Forall (exportsObject env) files ->
  exists c', fold_left (ResourceLoader.mergeConfigFile env) files (JObj c) = JObj c'
    /\ (forall k,
          Deepmerge.named Deepmerge.objectPrototypeKeys k = false ->
          Forall (leavesKey env k) files ->
          (forall dv, assoc_get k c = Some dv -> Deepmerge.clone dv = dv) ->
          assoc_get k c' = assoc_get k c)
    /\ (forall k,
          Deepmerge.named Deepmerge.objectPrototypeKeys k = true ->
          assoc_get k c = None -> assoc_get k c' = None).
Proof.
  induction files as [|file rest IH]; intros c Hobj.
  - exists c. split; [reflexivity|]. split; [reflexivity | auto].
  - apply Forall_cons in Hobj. destruct Hobj as [Hfile Hrest].
    destruct (mergeConfigFile_object env c file Hfile) as (c1 & Hc1 & Hkeep & _ & Hskip).
    destruct (IH c1 Hrest) as (c' & Hc' & Hkeep' & Hskip').
    exists c'. cbn [fold_left]. rewrite Hc1. split; [exact Hc'|]. split.
    + intros k Hord Hk Hclean. apply Forall_cons in Hk. destruct Hk as [Hk Hks].
      pose proof (Hkeep k Hord Hk Hclean) as H1.
      rewrite (Hkeep' k Hord Hks); [exact H1|].
      rewrite H1. exact Hclean.
    + intros k Hk Hnone. apply (Hskip' k Hk), (Hskip k Hk), Hnone.
Qed.

(** X15: when every config file of the directory exports a plain object,
    [loadConfig] returns an object in which, for a key that
    [Object.prototype] does not name, a key that no file sets keeps the
    value of the defaults (a value that is its own clone), and a key has the
    plain value that the last file setting it gives it, whatever the
    defaults and the files listed before it say; a key that
    [Object.prototype] names and the defaults do not hold is taken from no
    file. *)
Theorem loadConfig_last_file_wins :
  forall env r configPath defaults options dir files,
    (if truthy (isTrustedPath options) then Ok configPath
     else PathResolverM.resolvePath (proc_cwd env) r configPath noOptions) = Ok dir ->
    fastGlob_config env dir = Ok files ->
    Forall (exportsObject env) files ->
    exists config,
      ResourceLoader.loadConfig env r configPath (JObj defaults) options = JObj config
      /\ (forall k,
            Deepmerge.named Deepmerge.objectPrototypeKeys k = false ->
            Forall (leavesKey env k) files ->
            (forall dv, assoc_get k defaults = Some dv -> Deepmerge.clone dv = dv) ->
            assoc_get k config = assoc_get k defaults)
      /\ (forall k before file after s v,
            Deepmerge.named Deepmerge.objectPrototypeKeys k = false ->
            files = before ++ file :: after ->
            ResourceLoader.readConfigFile env file = Ok (JObj s) ->
            assoc_get k s = Some v ->
            Deepmerge.isMergeableObject v = false ->
            Forall (leavesKey env k) after ->
            assoc_get k config = Some v)
      /\ (forall k,
            Deepmerge.named Deepmerge.objectPrototypeKeys k = true ->
            assoc_get k defaults = None ->
            assoc_get k config = None).
Proof.
  intros env r configPath defaults options dir files Hdir Hglob Hobj.
  rewrite (loadConfig_fold _ _ _ _ _ _ _ Hdir Hglob).
  destruct (mergeConfigFiles_object env files defaults Hobj) as (config & Hc & Hkeep & Hskip).
  exists config. split; [exact Hc|]. split; [exact Hkeep|]. split; [|exact Hskip].
  intros k before file after s v Hord -> Hread Hv Hplain Hafter.
  apply Forall_app in Hobj. destruct Hobj as [Hb Hfa].
  apply Forall_cons in Hfa. destruct Hfa as [Hf Ha].
  rewrite fold_left_app in Hc. cbn [fold_left] in Hc.
  destruct (mergeConfigFiles_object env before defaults Hb) as (c1 & Hc1 & _).
  rewrite Hc1 in Hc.
  destruct (mergeConfigFile_object env c1 file Hf) as (c2 & Hc2 & _ & Hset & _).
  rewrite Hc2 in Hc.
  destruct (mergeConfigFiles_object env after c2 Ha) as (c3 & Hc3 & Hkeep3 & _).
  rewrite Hc3 in Hc. injection Hc as <-.
  pose proof (Hset k s v Hord Hread Hv Hplain) as H2.
  rewrite (Hkeep3 k Hord Hafter); [exact H2|].
  intros dv Hdv. rewrite H2 in Hdv. injection Hdv as <-. apply clone_plain, Hplain.
Qed.

Lemma loadConfig_last_file_wins_witness :
  exists config,
    ResourceLoader.loadConfig Sample.env Sample.resolver "tenants/delta"
      (JObj [("name", JStr "delta"); ("active", JBool true)])
      {| isTrustedPath := JUndefined |} = JObj config
    /\ assoc_get "name" config = Some (JStr "from-js")
    /\ assoc_get "active" config = Some (JBool true).
Proof.
  destruct (loadConfig_last_file_wins Sample.env Sample.resolver "tenants/delta"
              [("name", JStr "delta"); ("active", JBool true)]
              {| isTrustedPath := JUndefined |} "/srv/app/tenants/delta"
              ["/srv/app/tenants/delta/config.json"; "/srv/app/tenants/delta/config.js"]
              eq_refl eq_refl)
    as (config & Hc & Hkeep & Hlast & _).
  - repeat constructor; intros v Hv; vm_compute in Hv; injection Hv as <-;
      eexists; (split; [reflexivity|]);
      apply NoDup_ListNoDup; repeat constructor; simpl; tauto.
  - exists config. split; [exact Hc|]. split.
    + apply (Hlast "name" ["/srv/app/tenants/delta/config.json"]
               "/srv/app/tenants/delta/config.js" [] [("name", JStr "from-js")]);
        try reflexivity. constructor.
    + rewrite (Hkeep "active"); [reflexivity | reflexivity | |].
      * repeat constructor; intros s Hs; vm_compute in Hs; injection Hs as <-; reflexivity.
      * intros dv [= <-]. reflexivity.
Defined.

(** ** Sources outside the base directory *)

Lemma buildFromConfig_type env adapter r tenantId cfg ctx :
  In adapter (TenantFactory.adapters env) ->
  TenantFactory.buildFromConfig env adapter r tenantId cfg = Ok (Some ctx) ->
  type ctx = getType adapter.
Proof.
  intros Hin. unfold TenantFactory.buildFromConfig.
  destruct (getprop cfg "active") as [a|]; [|discriminate].
  destruct (negb (truthy a)); [discriminate|].
  destruct (getprop cfg "name") as [name|]; [|discriminate].
  unfold TenantContextM.create.
  destruct (SecurityValidator.validateTenantId (js_or name tenantId)) as [validId|];
    [|discriminate].
  destruct (getprop cfg "active") as [a'|]; [|discriminate].
  rewrite (adapters_loadResources _ _ Hin).
  match goal with |- context [loadResourcesVia ?e ?t ?r0 ?c] =>
    destruct (loadResourcesVia e t r0 c) as [loaded|] eqn:Hl end; [|discriminate].
  intros [= <-].
  destruct (loadResourcesVia_keeps _ _ _ _ _ Hl) as (_ & _ & Hty).
  rewrite Hty. reflexivity.
Qed.

Lemma local_refuses_outside env r source e :
  PathResolverM.resolvePath (proc_cwd env) r source noOptions = Throw e ->
  canHandle (LocalTenantAdapter env) r source = (false, r).
Proof.
  intros Hres. cbn [canHandle LocalTenantAdapter].
  unfold ResourceLoader.pathExists. cbn [allowTrusted noOptions truthy].
  rewrite Hres. reflexivity.
Qed.

(** X16: a source that the path resolver refuses is never loaded as a local
    tenant.  [loadTenant] then returns a tenant only when the source
    resolves as an installed package, and that tenant has the type "npm";
    when it does not resolve either, [loadTenant] returns [null] and leaves
    the registry and the trusted paths as they were. *)
Theorem loadTenant_outside_base :
  forall env m source cid e,
    PathResolverM.resolvePath (proc_cwd env) (pathResolver m) source noOptions = Throw e ->
    let out := TenantManagerM.loadTenant env m (JStr source) cid in
    (forall tenant, fst out = Some tenant ->
       type tenant = "npm"
       /\ (exists packageRoot packageJson,
             moduleInfo env source = Ok (packageRoot, packageJson))
       /\ tenantRegistry (snd out)
          = snd (TenantRegistryM.register (tenantRegistry m) tenant))
    /\ ((exists e', moduleInfo env source = Throw e') -> out = (None, m)).
Proof.
  intros env m source cid e Hres out. subst out.
  unfold TenantManagerM.loadTenant, TenantFactory.createTenant, TenantFactory.adapters.
  cbn [TenantFactory.probe].
  rewrite (local_refuses_outside _ _ _ _ Hres).
  cbn [canHandle NPMTenantAdapter]. unfold getModuleInfo.
  destruct (moduleInfo env source) as [[packageRoot packageJson]|e0] eqn:Hinfo.
  - rewrite buildTenant_unfold. cbv zeta.
    set (cr := mergedConfig _ _ _ _).
    set (tid := TenantFactory.determineTenantId _ _ _).
    split; [|intros [e' He']; discriminate].
    destruct (TenantFactory.buildFromConfig env (NPMTenantAdapter env) (snd cr) tid (fst cr))
      as [[ctx|]|e1] eqn:Hb; cbn [fst snd]; try (intros tenant Ht; discriminate).
    assert (Hty : type ctx = "npm").
    { apply (buildFromConfig_type _ _ _ _ _ _ (or_intror (or_introl eq_refl)) Hb). }
    destruct (TenantRegistryM.register (tenantRegistry m) ctx) as [[u|e2] reg'] eqn:Hreg;
      cbn [fst snd]; intros tenant Ht; [|discriminate].
    injection Ht as <-. split; [exact Hty|]. split; [eauto|].
    rewrite Hreg. reflexivity.
  - split; [intros tenant Ht; discriminate|].
    intros _. cbn [fst snd]. destruct m; reflexivity.
Qed.

Lemma loadTenant_outside_base_witness :
  TenantManagerM.loadTenant Sample.env Sample.manager (JStr "../../etc/tenants/acme") JNull
  = (None, Sample.manager).
Proof.
  apply (proj2 (loadTenant_outside_base Sample.env Sample.manager
                  "../../etc/tenants/acme" JNull _ eq_refl)).
  exists (LoadError "Cannot find package"). reflexivity.
Defined.

(** ** The tenant limit *)

Lemma tenantLimit_object config :
  exists limit, ServerStart.tenantLimit (JObj config) = Ok limit.
Proof.
  unfold ServerStart.tenantLimit. cbn [getprop bindOutcome].
  destruct (default JUndefined (assoc_get "tenants" config)); cbn [getprop bindOutcome];
    eauto.
Qed.

(** X17: [start] sets a tenant limit only when [config.logger] can be read
    and the application is created; it throws when the options give
    [logger] as [null] or [undefined], and it gets to the limit when neither
    the overrides nor the options name [logger] and the application accepts
    the default level.  When the overrides of the constructor have no
    [tenants] section, the limit then handed to [setMaxTenants] is 50 unless
    the options carry a [tenants.maxConcurrent]; a plain value there is the
    limit when it is truthy, and 50 again when it is falsy, 0 included.
    Other sections, [security] among them, have no part in it. *)
Theorem startLimit_spec :
  forall createApp penv overrides options,
    NoDup overrides.*1 -> NoDup options.*1 ->
    let started := ServerStart.startLimit createApp penv (JObj overrides) (JObj options) in
    (forall v, assoc_get "logger" options = Some v -> v = JNull \/ v = JUndefined ->
               exists e, started = Throw e)
    /\ (assoc_get "logger" overrides = None -> assoc_get "logger" options = None ->
        createApp (js_or (envVar (env_LOG_LEVEL penv)) (JStr "info")) = Ok tt ->
        exists limit, started = Ok limit)
    /\ (forall limit,
          started = Ok limit ->
          assoc_get "tenants" overrides = None ->
          (assoc_get "tenants" options = None -> limit = JNum 50)
          /\ (forall fields,
                assoc_get "tenants" options = Some (JObj fields) -> NoDup fields.*1 ->
                (assoc_get "maxConcurrent" fields = None -> limit = JNum 50)
                /\ (forall v,
                      assoc_get "maxConcurrent" fields = Some v ->
                      Deepmerge.isMergeableObject v = false ->
                      limit = js_or v (JNum 50)))).
Proof.
  intros createApp penv overrides options Hov Hop started. subst started.
  destruct (defaultConfig_clean penv) as (dflt & Hdcfg & _ & Hclean & Hsections).
  unfold ServerStart.startLimit, ConfigurationManager.create. rewrite Hdcfg.
  rewrite merge_objects. cbn [bindOutcome].
  unfold ServerStart.startConfig, ConfigurationManager.merge.
  rewrite merge_objects. cbn [bindOutcome ConfigurationManager.get].
  set (config1 := Deepmerge.mergeProps _ (JObj dflt) overrides _).
  set (config2 := Deepmerge.mergeProps _ (JObj config1) options _).
  assert (Hordinary : forall k, Deepmerge.named Deepmerge.objectPrototypeKeys k = false ->
            assoc_get k config1
            = match assoc_get k overrides with
              | Some sv =>
                  Some (if Deepmerge.ownEnumerable (JObj dflt) k
                           && Deepmerge.isMergeableObject sv
                        then Deepmerge.mergeInto sv (Deepmerge.targetProp (JObj dflt) k)
                        else Deepmerge.clone sv)
              | None => Deepmerge.clone <$> assoc_get k dflt
              end
            /\ assoc_get k config2
               = match assoc_get k options with
                 | Some sv =>
                     Some (if Deepmerge.ownEnumerable (JObj config1) k
                              && Deepmerge.isMergeableObject sv
                           then Deepmerge.mergeInto sv (Deepmerge.targetProp (JObj config1) k)
                           else Deepmerge.clone sv)
                 | None => Deepmerge.clone <$> assoc_get k config1
                 end).
  { intros k Hk. split; apply mergeObject_lookup; assumption. }
  destruct (Hordinary "logger" eq_refl) as [Hlog1 Hlog2].
  destruct (Hordinary "tenants" eq_refl) as [Hten1 Hten2].
  unfold ConfigurationManager.getDefaultConfig in Hdcfg. injection Hdcfg as Hdflt.
  assert (Hdlog : assoc_get "logger" dflt
                  = Some (JObj [("level", js_or (envVar (env_LOG_LEVEL penv)) (JStr "info"))]))
    by (subst dflt; reflexivity).
  assert (Hdten : assoc_get "tenants" dflt
                  = Some (JObj [("npmPattern", JStr "fastify-multitenant-*");
                                ("maxConcurrent", JNum 50); ("autoLoad", JBool true)]))
    by (subst dflt; reflexivity).
  destruct (clean_lookup _ _ _ Hclean Hdlog) as [_ Hclog].
  destruct (clean_lookup _ _ _ Hclean Hdten) as [_ Hcten].
  clear Hdflt Hordinary. clearbody config1 config2.
  split; [|split].
  - intros v Hv Hnull. rewrite Hv in Hlog2.
    assert (Hl : assoc_get "logger" config2 = Some v).
    { rewrite Hlog2. destruct Hnull as [-> | ->]; rewrite andb_false_r; reflexivity. }
    cbn [getprop]. rewrite Hl. cbn [default from_option Datatypes.id bindOutcome].
    destruct Hnull as [-> | ->]; cbn [getprop bindOutcome]; eauto.
  - intros Hnone1 Hnone2 Happ.
    rewrite Hnone1, Hdlog in Hlog1. cbn [fmap option_fmap option_map] in Hlog1.
    rewrite Hclog in Hlog1.
    rewrite Hnone2, Hlog1 in Hlog2. cbn [fmap option_fmap option_map] in Hlog2.
    rewrite Hclog in Hlog2.
    cbn [getprop]. rewrite Hlog2.
    cbn [default from_option Datatypes.id bindOutcome getprop assoc_get].
    rewrite String.eqb_refl.
    cbn [default from_option Datatypes.id bindOutcome]. rewrite Happ. cbn [bindOutcome].
    apply tenantLimit_object.
  - intros limit Hstarted Hnone.
    assert (Hlim : ServerStart.tenantLimit (JObj config2) = Ok limit).
    { destruct (getprop (JObj config2) "logger") as [l|]; [|discriminate Hstarted].
      cbn [bindOutcome] in Hstarted.
      destruct (getprop l "level") as [lv|]; [|discriminate Hstarted].
      cbn [bindOutcome] in Hstarted.
      destruct (createApp lv); [|discriminate Hstarted]. exact Hstarted. }
    clear Hstarted. unfold ServerStart.tenantLimit in Hlim. cbn [getprop bindOutcome] in Hlim.
    rewrite Hnone, Hdten in Hten1. cbn [fmap option_fmap option_map] in Hten1.
    rewrite Hcten in Hten1. rewrite Hten1 in Hten2.
    split.
    + intros Hopt. rewrite Hopt in Hten2. cbn [fmap option_fmap option_map] in Hten2.
      rewrite Hcten in Hten2. rewrite Hten2 in Hlim.
      cbn [default from_option Datatypes.id getprop bindOutcome] in Hlim.
      injection Hlim as <-. reflexivity.
    + intros fields Hopt Hfields. rewrite Hopt in Hten2.
      cbn [Deepmerge.ownEnumerable Deepmerge.isMergeableObject Deepmerge.targetProp] in Hten2.
      rewrite Hten1, bool_decide_eq_true_2 in Hten2 by eauto.
      cbn [andb default from_option Datatypes.id Deepmerge.mergeInto] in Hten2.
      rewrite Hten2 in Hlim.
      cbn [default from_option Datatypes.id getprop bindOutcome] in Hlim.
      rewrite (mergeObject_lookup _ _ "maxConcurrent" Hfields eq_refl) in Hlim.
      split.
      * intros Hk. rewrite Hk in Hlim. injection Hlim as <-. reflexivity.
      * intros v Hk Hv. rewrite Hk, Hv, andb_false_r, (clone_plain _ Hv) in Hlim.
        injection Hlim as <-. reflexivity.
Qed.

Lemma startLimit_spec_witness :
  ServerStart.startLimit (fun _ => Ok tt)
    {| env_PORT := None; env_HOST := None; env_LOG_LEVEL := None |}
    (JObj [("security", JObj [("maxConcurrentTenants", JNum 100)])]) (JObj [])
  = Ok (JNum 50).
Proof.
  destruct (startLimit_spec (fun _ => Ok tt)
              {| env_PORT := None; env_HOST := None; env_LOG_LEVEL := None |}
              [("security", JObj [("maxConcurrentTenants", JNum 100)])] []
              ltac:(apply NoDup_ListNoDup; repeat constructor; simpl; tauto)
              ltac:(constructor)) as (_ & Hreach & Hlimit).
  destruct (Hreach eq_refl eq_refl eq_refl) as [limit Hstarted].
  rewrite Hstarted. f_equal.
  exact (proj1 (Hlimit limit Hstarted eq_refl) eq_refl).
Defined.

(** [start] with [logger: null] in its options throws before a limit is
    set. *)
Example startLimit_logger_null :
  ServerStart.startLimit (fun _ => Ok tt)
    {| env_PORT := None; env_HOST := None; env_LOG_LEVEL := None |}
    (JObj []) (JObj [("logger", JNull)])
  = Throw (TypeError "Cannot read properties of null or undefined").
Proof. vm_compute. reflexivity. Qed.

(** ** [loadAllTenants] *)

Lemma loadTenant_fresh env m source cid ctx :
  fst (TenantManagerM.loadTenant env m source cid) = Some ctx ->
  createdAt ctx = now env.
Proof.
  intros Hres.
  destruct (loadTenant_Some_registry _ _ _ _ _ Hres) as (_ & _ & Hcreate).
  destruct (TenantFactory.createTenant env (pathResolver m) source cid)
    as [created r'] eqn:Hc. simpl in Hcreate. subst created.
  destruct (createTenant_inv _ _ _ _ _ _ Hc) as (adapter & r0 & tid & cfg & Hin & Hb).
  destruct (buildFromConfig_built _ _ _ _ _ _ Hin Hb) as (_ & _ & _ & _ & Hat).
  exact Hat.
Qed.

Lemma loadedSince_load env m0 results m source cid counted :
  0 < lr_local counted + lr_npm counted ->
  loadedSince env m0 (results, m) ->
  loadedSince env m0
    (match TenantManagerM.loadTenant env m source cid with
     | (Some _, m') => (counted, m')
     | (None, m') => (LoadAll.countFailed results, m')
     end).
Proof.
  intros Hcounted (Hwf & Hmax & Hdom & Hsome & Hnone). cbn [fst snd] in *.
  destruct (wellFormed_loadTenant env m source cid Hwf) as [Hwf' Hmax'].
  pose proof (loadTenant_Some_registry env m source cid) as HSome.
  pose proof (loadTenant_null_registry env m source cid) as HNone.
  pose proof (loadTenant_fresh env m source cid) as Hfresh.
  destruct (TenantManagerM.loadTenant env m source cid) as [[ctx|] m'];
    cbn [fst snd] in *; unfold loadedSince; cbn [fst snd LoadAll.countFailed lr_local lr_npm].
  - destruct (HSome ctx eq_refl) as (Hten & _ & _).
    split; [exact Hwf'|]. split; [congruence|]. split; [|split].
    + intros key Hkey. rewrite Hten.
      destruct (decide (id ctx = key)) as [<-|Hne].
      * rewrite lookup_insert_eq. eauto.
      * rewrite lookup_insert_ne by exact Hne. auto.
    + intros _. exists ctx. rewrite Hten, lookup_insert_eq. auto.
    + intros Hzero. lia.
  - rewrite (HNone eq_refl).
    split; [exact Hwf|]. split; [exact Hmax|]. split; [exact Hdom|].
    split; assumption.
Qed.

Lemma loadedSince_npm env m0 names : forall st,
  loadedSince env m0 st ->
  loadedSince env m0 (fold_left (LoadAll.loadNpmTenant env) names st).
Proof.
  induction names as [|name rest IH]; intros [results m] Hst; [exact Hst|].
  cbn [fold_left]. apply IH. unfold LoadAll.loadNpmTenant.
  pose proof (loadedSince_load env m0 results m (JStr name) JNull
                (LoadAll.countNpm results)) as Hstep.
  destruct (TenantManagerM.loadTenant env m (JStr name) JNull) as [[ctx|] m'];
    apply Hstep; try exact Hst; simpl; lia.
Qed.

Lemma loadedSince_local env disk tenantsPath m0 dirs : forall st,
  loadedSince env m0 st ->
  loadedSince env m0 (fold_left (LoadAll.loadLocalTenant env disk tenantsPath) dirs st).
Proof.
  induction dirs as [|dir rest IH]; intros [results m] Hst; [exact Hst|].
  cbn [fold_left]. apply IH. unfold LoadAll.loadLocalTenant.
  destruct (isDirectory disk (PathJoin.join [tenantsPath; dir])) as [[|]|e].
  - pose proof (loadedSince_load env m0 results m
                  (JStr (PathJoin.join [tenantsPath; dir])) (JStr dir)
                  (LoadAll.countLocal results)) as Hstep.
    destruct (TenantManagerM.loadTenant env m _ (JStr dir)) as [[ctx|] m'];
      apply Hstep; try exact Hst; simpl; lia.
  - exact Hst.
  - exact Hst.
Qed.

(** X18: [loadAllTenants] throws only for a [config] that is [null] or
    [undefined], and then leaves the manager alone.  Otherwise, whatever the
    disk holds, it keeps the registry within its limit and well formed,
    drops no tenant that was registered, returns [true] only when the
    registry holds a tenant created during the call, and when it returns
    [false] the registry is the one it started from. *)
Theorem loadAllTenants_spec :
  forall env disk m config,
    ManagerRuns.wellFormed (tenantRegistry m) ->
    let out := LoadAll.loadAllTenants env disk m config in
    let registry := tenantRegistry (snd out) in
    ((exists e, fst out = Throw e) <-> (config = JUndefined \/ config = JNull))
    /\ ((exists e, fst out = Throw e) -> snd out = m)
    /\ ManagerRuns.wellFormed registry
    /\ maxTenants registry = maxTenants (tenantRegistry m)
    /\ (forall key, is_Some (tenants (tenantRegistry m) !! key) ->
                    is_Some (tenants registry !! key))
    /\ (fst out = Ok true ->
        exists ctx, tenants registry !! id ctx = Some ctx /\ createdAt ctx = now env)
    /\ (fst out = Ok false -> registry = tenantRegistry m).
Proof.
  intros env disk m config Hwf out registry. subst registry out.
  unfold LoadAll.loadAllTenants.
  destruct (LoadAll.npmPattern config) as [pattern|e] eqn:Hpat.
  - assert (Hcfg : ~ (config = JUndefined \/ config = JNull)).
    { intros [->| ->]; discriminate Hpat. }
    set (st0 := ({| lr_local := 0; lr_npm := 0; lr_failed := 0 |}, m)).
    assert (H0 : loadedSince env m st0).
    { unfold loadedSince, st0. cbn [fst snd lr_local lr_npm].
      split; [exact Hwf|]. split; [reflexivity|]. split; [auto|].
      split; [intros Hlt; lia | reflexivity]. }
    assert (H1 : loadedSince env m (LoadAll.loadNpmTenants env disk pattern st0)).
    { unfold LoadAll.loadNpmTenants. destruct (truthy pattern); [|exact H0].
      destruct (npmPluginNames disk pattern) as [names|]; [|exact H0].
      apply loadedSince_npm, H0. }
    assert (H2 : loadedSince env m
                   (LoadAll.loadLocalTenants env disk
                      (LoadAll.loadNpmTenants env disk pattern st0))).
    { unfold LoadAll.loadLocalTenants.
      destruct (ResourceLoader.pathExists _ _ _ _); [|exact H1].
      destruct (readdir disk _) as [entries|]; [|exact H1].
      apply loadedSince_local, H1. }
    destruct (LoadAll.loadLocalTenants env disk _) as [results m'].
    destruct H2 as (Hwf' & Hmax & Hdom & Hsome & Hnone). cbn [fst snd] in *.
    split; [split; [intros [e He]; discriminate | tauto]|].
    split; [intros [e He]; discriminate|].
    split; [exact Hwf'|]. split; [exact Hmax|]. split; [exact Hdom|]. split.
    + intros [= Hpos]. apply Nat.ltb_lt in Hpos. auto.
    + intros [= Hzero]. apply Nat.ltb_ge in Hzero. apply Hnone. lia.
  - cbn [fst snd].
    split.
    { split; [intros _|eauto].
      unfold LoadAll.npmPattern in Hpat.
      destruct config; cbn [getprop bindOutcome] in Hpat; auto;
        try discriminate Hpat.
      all: match type of Hpat with
           | context [default JUndefined ?o] => destruct o as [[]|]
           end; discriminate Hpat. }
    split; [reflexivity|]. split; [exact Hwf|]. split; [reflexivity|].
    split; [auto|]. split; intros Hout; discriminate Hout.
Qed.

Lemma loadAllTenants_spec_witness :
  ManagerRuns.wellFormed
    (tenantRegistry
       (snd (LoadAll.loadAllTenants Sample.env
               {| npmPluginNames := fun _ => Ok ["fastify-multitenant-acme"];
                  readdir := fun _ => Ok [".git"; "gamma"];
                  isDirectory := fun _ => Ok true |}
               {| pathResolver := Sample.resolver;
                  tenantRegistry := TenantRegistryM.create 50 |}
               (JObj [("tenants", JObj [("npmPattern", JStr "fastify-multitenant-*")])])))).
Proof.
  refine (proj1 (proj2 (proj2 (loadAllTenants_spec Sample.env _ _ _ _)))).
  split.
  - simpl. rewrite map_size_empty. lia.
  - intros key ctx Hlook. simpl in Hlook. rewrite lookup_empty in Hlook. discriminate.
Defined.

Example loadAllTenants_sample :
  fst (LoadAll.loadAllTenants Sample.env
         {| npmPluginNames := fun _ => Ok ["fastify-multitenant-acme"];
            readdir := fun _ => Ok [".git"; "gamma"];
            isDirectory := fun _ => Ok true |}
         {| pathResolver := Sample.resolver;
            tenantRegistry := TenantRegistryM.create 50 |}
         (JObj [("tenants", JObj [("npmPattern", JStr "fastify-multitenant-*")])]))
  = Ok true.
Proof. vm_compute. reflexivity. Qed.
